(** * ST7789 telemetry dashboard: driver, history ring, graph rasterizer

    A shallow embedding of the Python sources
      drivers/st7789_display_driver.py
      dashboards/st7789_carousel_dashboard.py
      dashboards/st7789_carousel_dashboard_pro.py
      dashboards/st7789_premium_dashboard.py
      dashboards/st7789_stats_dashboard.py
      dashboards/st7789_stats_dashboard_enhanced.py
      st7789_modern_slides.py
    followed by the properties of the specification that concern them
    and by further properties of the code.

    Conventions.
    - Python [int] is [Z].  Python [float] is an exact rational [Q]: the
      arithmetic of the graphs and bars is the one the sources write,
      [int(...)] truncates toward zero and a division by zero raises, but
      the rounding of binary64 is left out, so a coordinate proved here
      may differ by one pixel from the one CPython computes.  A value that
      may be an [int] or a [float] is a [Py.num].  There is no infinity
      and no NaN, and no [OverflowError] for a number that binary64
      cannot hold: a property which says that a routine returns bounds
      the magnitude of its inputs, so that it holds of CPython too.
    - A computation that may raise returns a [Py.result].
    - The drawing surface and the SPI/GPIO bus are logs of the calls made
      on them, in order.
    - The circular gauge of the premium dashboard and the heartbeat graph
      of the slide show, which need sine and cosine, are not embedded; of
      the page layouts, those of the carousel and of the stats dashboard
      are. *)

From Stdlib Require Import ZArith QArith Qround Qabs Lia List String Ascii Bool.
From Stdlib Require Import Strings.Byte DecimalString Floats.SpecFloat.
From stdpp Require Import gmap strings.

Local Open Scope Z_scope.

(* ===================================================================== *)
(** * Part I. The embedding *)
(* ===================================================================== *)

(** ** Fragments of the Python runtime used by the sources *)

Module Py.

(** Exceptions that the modelled code can meet.  [KeyboardInterrupt] and
    [SystemExit] derive from [BaseException] only. *)
Inductive exn : Set :=
| ZeroDivisionError | IndexError | KeyError | ValueError | TypeError
| OverflowError | OSError | CalledProcessError
| KeyboardInterrupt | SystemExit.

Definition is_Exception (e : exn) : bool :=
  match e with
  | KeyboardInterrupt | SystemExit => false
  | _ => true
  end.

Inductive result (A : Type) : Type :=
| Ok (a : A)
| Raise (e : exn).
Arguments Ok {A} a.
Arguments Raise {A} e.

Definition bind {A B} (m : result A) (f : A -> result B) : result B :=
  match m with
  | Ok a => f a
  | Raise e => Raise e
  end.

(** [try: body  except Exception: handler] *)
Definition try_except_Exception {A} (body : result A) (handler : A) : result A :=
  match body with
  | Ok a => Ok a
  | Raise e => if is_Exception e then Ok handler else Raise e
  end.

(** [try: body  except: handler] *)
Definition try_except_all {A} (body : result A) (handler : A) : result A :=
  match body with
  | Ok a => Ok a
  | Raise _ => Ok handler
  end.

(** [len(l)] *)
Definition len {A} (l : list A) : Z := Z.of_nat (length l).

(** [range(start, stop, step)] as the list of the values it yields.  The
    sources only use constant non-zero steps; a zero step, which Python
    rejects, yields nothing here. *)
Definition range_len (start stop step : Z) : Z :=
  if 0 <? step then
    if stop <=? start then 0 else (stop - start - 1) / step + 1
  else if step <? 0 then
    if start <=? stop then 0 else (start - stop - 1) / (- step) + 1
  else 0.

Definition range3 (start stop step : Z) : list Z :=
  map (fun k => start + Z.of_nat k * step)
      (seq 0 (Z.to_nat (range_len start stop step))).

(** [range(n)] and [range(start, stop)] *)
Definition range (n : Z) : list Z := range3 0 n 1.
Definition range2 (start stop : Z) : list Z := range3 start stop 1.

(** [enumerate(l)] *)
Definition enumerate {A} (l : list A) : list (Z * A) :=
  combine (map Z.of_nat (seq 0 (length l))) l.

(** [l[i]], negative indices counting from the end. *)
Definition getitem {A} (l : list A) (i : Z) : result A :=
  let j := if i <? 0 then i + len l else i in
  if j <? 0 then Raise IndexError
  else match nth_error l (Z.to_nat j) with
       | Some a => Ok a
       | None => Raise IndexError
       end.

(** The bound of a slice: [None] stays absent, a negative bound counts
    from the end, and the outcome is clamped to [0, len]. *)
Definition slice_bound (n i : Z) : Z :=
  let j := if i <? 0 then i + n else i in
  Z.max 0 (Z.min n j).

(** [l[lo:hi]] *)
Definition slice {A} (l : list A) (lo hi : Z) : list A :=
  let a := slice_bound (len l) lo in
  let b := slice_bound (len l) hi in
  firstn (Z.to_nat (b - a)) (skipn (Z.to_nat a) l).

(** [l[lo:]] *)
Definition slice_from {A} (l : list A) (lo : Z) : list A :=
  skipn (Z.to_nat (slice_bound (len l) lo)) l.

(** Numbers: an [int] or a [float]. *)
Inductive num : Set :=
| Int (z : Z)
| Float (q : Q).

Definition to_Q (n : num) : Q :=
  match n with
  | Int z => inject_Z z
  | Float q => q
  end.

Definition add (a b : num) : num :=
  match a, b with
  | Int x, Int y => Int (x + y)
  | _, _ => Float (to_Q a + to_Q b)
  end.

Definition sub (a b : num) : num :=
  match a, b with
  | Int x, Int y => Int (x - y)
  | _, _ => Float (to_Q a - to_Q b)
  end.

Definition mul (a b : num) : num :=
  match a, b with
  | Int x, Int y => Int (x * y)
  | _, _ => Float (to_Q a * to_Q b)
  end.

Definition is_zero (a : num) : bool := Qnum (to_Q a) =? 0.

(** [a / b]: always a float, [ZeroDivisionError] on a zero divisor. *)
Definition truediv (a b : num) : result num :=
  if is_zero b then Raise ZeroDivisionError
  else Ok (Float (to_Q a / to_Q b)).

(** [int(a)]: truncation toward zero. *)
Definition int (a : num) : Z :=
  match a with
  | Int z => z
  | Float q => Z.quot (Qnum q) (Zpos (Qden q))
  end.

Definition lt (a b : num) : bool := negb (Qle_bool (to_Q b) (to_Q a)).
Definition le (a b : num) : bool := Qle_bool (to_Q a) (to_Q b).
Definition gt (a b : num) : bool := lt b a.
Definition ge (a b : num) : bool := le b a.

(** [min(a, b)] returns the first argument on a tie. *)
Definition min (a b : num) : num := if lt b a then b else a.

(** [round(a, 1)]: the nearest tenth, a tie going to the even one; an
    [int] is returned as it is. *)
Definition round1 (a : num) : num :=
  match a with
  | Int z => Int z
  | Float q =>
      let n := Qnum q * 10 in
      let d := Zpos (Qden q) in
      let f := n / d in
      let tenths :=
        match 2 * (n mod d) ?= d with
        | Lt => f
        | Gt => f + 1
        | Eq => if Z.even f then f else f + 1
        end in
      Float (tenths # 10)
  end.

(** [a % b] on [int]s: the sign follows the divisor, as for [Z.modulo]. *)
Definition mod_ (a b : Z) : result Z :=
  if b =? 0 then Raise ZeroDivisionError else Ok (a mod b).

(** [s.strip()], for the ASCII white space. *)
Definition isspace (c : ascii) : bool :=
  let n := nat_of_ascii c in
  ((9 <=? n) && (n <=? 13) || (28 <=? n) && (n <=? 32))%nat.

Fixpoint lstrip (s : string) : string :=
  match s with
  | String c s' => if isspace c then lstrip s' else s
  | EmptyString => EmptyString
  end.

Fixpoint rstrip (s : string) : string :=
  match s with
  | String c s' =>
      match rstrip s' with
      | EmptyString => if isspace c then EmptyString else String c EmptyString
      | r => String c r
      end
  | EmptyString => EmptyString
  end.

Definition strip (s : string) : string := rstrip (lstrip s).

(** [str(z)] for an [int]. *)
Definition str_int (z : Z) : string :=
  NilZero.string_of_int (Z.to_int z).

End Py.

Notation "'let*' x ':=' m 'in' k" := (Py.bind m (fun x => k))
  (at level 10, x name, m at level 100, k at level 200).

(** ** drivers/st7789_display_driver.py *)

Module Driver.
Import Py.

(** GPIO pins of the panel. *)
Inductive pin : Set := RST_PIN | DC_PIN | BL_PIN.
Inductive level : Set := LOW | HIGH.

(** What reaches the hardware, in order. *)
Inductive bus_event : Set :=
| GpioOutput (p : pin) (l : level)
| SpiWrite (bytes : list Z)
| Sleep (ms : Z).

Definition WIDTH : Z := 240.
Definition HEIGHT : Z := 280.

Definition _reset : list bus_event :=
  [GpioOutput RST_PIN HIGH; Sleep 100;
   GpioOutput RST_PIN LOW; Sleep 100;
   GpioOutput RST_PIN HIGH; Sleep 100].

Definition _write_command (cmd : Z) : list bus_event :=
  [GpioOutput DC_PIN LOW; SpiWrite [cmd]].

Definition _write_data (data : list Z) : list bus_event :=
  [GpioOutput DC_PIN HIGH; SpiWrite data].

(** [data] is [None] or a list; an empty list is falsy like [None]. *)
Definition _write_command_data (cmd : Z) (data : option (list Z)) : list bus_event :=
  _write_command cmd ++
  match data with
  | Some (b :: bs) => _write_data (b :: bs)
  | _ => []
  end.

Definition init_sequence : list (Z * option (list Z) * Z) :=
  [ (0x01, None, 100);
    (0x11, None, 50);
    (0x3A, Some [0x05], 0);
    (0x36, Some [0x00], 0);
    (0x21, None, 0);
    (0x13, None, 0);
    (0x29, None, 10) ].

Definition _init_display : list bus_event :=
  flat_map (fun '(cmd, data, delay) =>
              (match data with
               | Some (b :: bs) => _write_command_data cmd data
               | _ => _write_command cmd
               end) ++
              (if 0 <? delay then [Sleep delay] else []))
           init_sequence.

(** An RGB image: its pixels in row-major order, one byte per channel. *)
Definition pixel : Set := (byte * byte * byte)%type.
Definition image : Set := list pixel.

(** [image.tobytes()] *)
Definition tobytes (img : image) : list byte :=
  flat_map (fun '(r, g, b) => [r; g; b]) img.

(** Indexing a [bytes] object yields an [int]. *)
Definition byte_int (b : byte) : Z := Z.of_N (Byte.to_N b).

(** [bytes(l)]: every item must be in [range(256)]. *)
Fixpoint bytes_of_ints (l : list Z) : result (list byte) :=
  match l with
  | [] => Ok []
  | z :: l' =>
      if (z <? 0) || (255 <? z) then Raise ValueError
      else match Byte.of_N (Z.to_N z) with
           | Some b => let* bs := bytes_of_ints l' in Ok (b :: bs)
           | None => Raise ValueError
           end
  end.

(** The body of the loop of [_convert_to_rgb565] at index [i]: the two
    items appended to [rgb565_data]. *)
Definition convert_step (rgb_data : list byte) (i : Z) : result (list Z) :=
  let* r0 := getitem rgb_data i in
  let r := Z.shiftr (byte_int r0) 3 in
  let* g0 := getitem rgb_data (i + 1) in
  let g := Z.shiftr (byte_int g0) 2 in
  let* b0 := getitem rgb_data (i + 2) in
  let b := Z.shiftr (byte_int b0) 3 in
  let pixel := Z.lor (Z.lor (Z.shiftl r 11) (Z.shiftl g 5)) b in
  Ok [Z.shiftr pixel 8; Z.land pixel 0xFF].

Fixpoint convert_loop (rgb_data : list byte) (idx : list Z) (rgb565_data : list Z)
  : result (list Z) :=
  match idx with
  | [] => Ok rgb565_data
  | i :: idx' =>
      let* items := convert_step rgb_data i in
      convert_loop rgb_data idx' (rgb565_data ++ items)
  end.

Definition _convert_to_rgb565 (img : image) : result (list byte) :=
  let rgb_data := tobytes img in
  let* rgb565_data := convert_loop rgb_data (range3 0 (len rgb_data) 3) [] in
  bytes_of_ints rgb565_data.

(** The 16-bit word of a pixel as the specification words it: the top
    5 bits of red, the top 6 of green and the top 5 of blue, red in the
    most significant position; and its two bytes, high byte first. *)
Definition rgb565_word (p : pixel) : Z :=
  let '(r, g, b) := p in
  (byte_int r / 2 ^ 3) * 2 ^ 11 + (byte_int g / 2 ^ 2) * 2 ^ 5 + byte_int b / 2 ^ 3.

Definition big_endian16 (w : Z) : list Z := [w / 2 ^ 8; w mod 2 ^ 8].

(** What one turn of the loop appends, in terms of the three channels. *)
Definition step_items (p : pixel) : list Z :=
  let '(r, g, b) := p in
  let pixel := Z.lor (Z.lor (Z.shiftl (Z.shiftr (byte_int r) 3) 11)
                            (Z.shiftl (Z.shiftr (byte_int g) 2) 5))
                     (Z.shiftr (byte_int b) 3) in
  [Z.shiftr pixel 8; Z.land pixel 0xFF].

(** The chunks of [_send_image_data], in the order they are written. *)
Definition chunk_size : Z := 4096.

Definition image_chunks (image_data : list byte) : list (list byte) :=
  map (fun i => slice image_data i (i + chunk_size))
      (range3 0 (len image_data) chunk_size).

Definition _send_image_data (image_data : list byte) : list bus_event :=
  _write_command_data 0x2A (Some [0x00; 0x00; 0x00; 0xEF]) ++
  _write_command_data 0x2B (Some [0x00; 0x00; 0x01; 0x17]) ++
  _write_command 0x2C ++
  [GpioOutput DC_PIN HIGH] ++
  map (fun chunk => SpiWrite (map byte_int chunk)) (image_chunks image_data).

(** [update()]: the frame is converted and sent; an error on the way is
    printed and the frame dropped. *)
Definition update (img : image) : list bus_event * result unit :=
  match _convert_to_rgb565 img with
  | Ok img_565 => (_send_image_data img_565, Ok tt)
  | Raise e => ([], if is_Exception e then Ok tt else Raise e)
  end.

End Driver.

(** ** The collectors of drivers/st7789_display_driver.py

    Each collector guards its whole body with [try].  What its body reads
    from the operating system is an input here, up to the conversion of
    text to numbers: the value obtained, or the exception met on the way. *)

Module Metrics.
Import Py.

(** [float(tokens[i])], where each token stands for what [float] makes of
    it. *)
Definition float_at (tokens : list (result num)) (i : Z) : result num :=
  let* token := getitem tokens i in token.

(** [get_cpu_usage()]; [stat_line] is [f.readline().split()] on /proc/stat. *)
Definition get_cpu_usage (stat_line : result (list (result num))) : result num :=
  try_except_Exception
    (let* tokens := stat_line in
     let* user := float_at tokens 1 in
     let* nice := float_at tokens 2 in
     let* system := float_at tokens 3 in
     let* idle := float_at tokens 4 in
     let* iowait := float_at tokens 5 in
     let total := add (add (add (add user nice) system) idle) iowait in
     let busy := add (add user nice) system in
     let* ratio := truediv busy total in
     Ok (round1 (mul ratio (Int 100))))
    (Float 0).

(** The loop of [get_memory_usage] that fills [meminfo]; each line stands
    for its [key.strip()] and [int(value.split()[0])]. *)
Fixpoint read_meminfo (lines : list (result (string * Z))) (meminfo : gmap string Z)
  : result (gmap string Z) :=
  match lines with
  | [] => Ok meminfo
  | line :: lines' =>
      let* entry := line in
      read_meminfo lines' (<[fst entry := snd entry]> meminfo)
  end.

(** [d[key]] on a dictionary. *)
Definition dict_get {V} (d : gmap string V) (key : string) : result V :=
  match d !! key with
  | Some v => Ok v
  | None => Raise KeyError
  end.

(** [get_memory_usage()]; [lines] is [f.readlines()] on /proc/meminfo. *)
Definition get_memory_usage (lines : result (list (result (string * Z)))) : result num :=
  try_except_Exception
    (let* lines := lines in
     let* meminfo := read_meminfo lines ∅ in
     let* total := dict_get meminfo "MemTotal" in
     let* free := dict_get meminfo "MemFree" in
     let used := total - free in
     let* ratio := truediv (Int used) (Int total) in
     Ok (round1 (mul ratio (Int 100))))
    (Float 0).

(** [get_temperature()]; [millidegrees] is [int(f.read())] on the thermal
    zone. *)
Definition get_temperature (millidegrees : result Z) : result num :=
  try_except_Exception
    (let* raw := millidegrees in
     let* temp := truediv (Int raw) (Int 1000) in
     Ok (round1 temp))
    (Float 0).

(** [get_gpu_temperature()]; [reading] is the float parsed from the output
    of [vcgencmd measure_temp]. *)
Definition get_gpu_temperature (reading : result num) : result num :=
  try_except_Exception
    (let* temp := reading in Ok (round1 temp))
    (Float 0).

(** The dictionary that [get_disk_usage()] returns. *)
Record disk_usage : Set := { percent : num; used : num; total : num }.

(** [get_disk_usage()]; [stat] is [shutil.disk_usage('/')], as the pair of
    its [total] and [used]. *)
Definition get_disk_usage (stat : result (Z * Z)) : result disk_usage :=
  try_except_Exception
    (let* st := stat in
     let stat_total := fst st in
     let stat_used := snd st in
     let* total_gb := truediv (Int stat_total) (Int (1024 ^ 3)) in
     let* used_gb := truediv (Int stat_used) (Int (1024 ^ 3)) in
     let* ratio := truediv (Int stat_used) (Int stat_total) in
     let percent := round1 (mul ratio (Int 100)) in
     Ok {| percent := percent; used := round1 used_gb; total := round1 total_gb |})
    {| percent := Int 0; used := Int 0; total := Int 0 |}.

(** [get_hostname()]; [contents] is [f.read()] on /etc/hostname. *)
Definition get_hostname (contents : result string) : result string :=
  try_except_all (let* text := contents in Ok (strip text)) "RPi5".

(** [get_uptime()]; [seconds] is [float(f.read().split()[0])]. *)
Definition get_uptime (seconds : result num) : result string :=
  try_except_all
    (let* secs := seconds in
     let uptime_seconds := int secs in
     let days := uptime_seconds / 86400 in
     let hours := (uptime_seconds mod 86400) / 3600 in
     let minutes := (uptime_seconds mod 3600) / 60 in
     if 0 <? days then Ok (str_int days +:+ "d " +:+ str_int hours +:+ "h")
     else if 0 <? hours then Ok (str_int hours +:+ "h " +:+ str_int minutes +:+ "m")
     else Ok (str_int minutes +:+ "m"))
    "N/A".

(** The text of an uptime of [s] whole seconds, as the specification
    words it. *)
Definition uptime_text (s : Z) : string :=
  let d := s / 86400 in
  let h := (s mod 86400) / 3600 in
  let m := (s mod 3600) / 60 in
  if 0 <? d then str_int d +:+ "d " +:+ str_int h +:+ "h"
  else if 0 <? h then str_int h +:+ "h " +:+ str_int m +:+ "m"
  else str_int m +:+ "m".

(** [get_ip_address()]; [ip] is [s.getsockname()[0]]. *)
Definition get_ip_address (ip : result string) : result string :=
  try_except_all ip "N/A".

(** A source resolves, or fails with an error that derives from
    [Exception]. *)
Definition resolves_or_fails {A} (source : result A) : bool :=
  match source with
  | Ok _ => true
  | Raise e => is_Exception e
  end.

(** The same for a source whose items are converted one by one. *)
Definition items_resolve_or_fail {A} (source : result (list (result A))) : bool :=
  match source with
  | Ok items => forallb resolves_or_fails items
  | Raise e => is_Exception e
  end.

(** What one round of collection meets, source by source. *)
Record system : Type := {
  proc_stat : result (list (result num));
  proc_meminfo : result (list (result (string * Z)));
  thermal_zone0 : result Z;
  vcgencmd : result num;
  root_disk : result (Z * Z);
  proc_uptime : result num;
  socket_ip : result string;
  etc_hostname : result string
}.

(** No source is interrupted: each resolves or fails with an [Exception]. *)
Definition no_interrupt (sys : system) : bool :=
  items_resolve_or_fail (proc_stat sys) && items_resolve_or_fail (proc_meminfo sys)
  && resolves_or_fails (thermal_zone0 sys) && resolves_or_fails (vcgencmd sys)
  && resolves_or_fails (root_disk sys) && resolves_or_fails (proc_uptime sys)
  && resolves_or_fails (socket_ip sys) && resolves_or_fails (etc_hostname sys).

(** Every source fails with [e]. *)
Definition all_fail (e : exn) : system :=
  {| proc_stat := Raise e; proc_meminfo := Raise e; thermal_zone0 := Raise e;
     vcgencmd := Raise e; root_disk := Raise e; proc_uptime := Raise e;
     socket_ip := Raise e; etc_hostname := Raise e |}.

End Metrics.

(** ** The drawing surface of [ST7789Display] *)

Module Display.
Import Py.

Definition color : Set := (Z * Z * Z)%type.

Definition BLACK : color := (0, 0, 0).
Definition WHITE : color := (255, 255, 255).
Definition GREEN : color := (0, 255, 0).
Definition RED : color := (255, 0, 0).
Definition YELLOW : color := (255, 255, 0).
Definition CYAN : color := (0, 255, 255).
Definition MAGENTA : color := (255, 0, 255).

Inductive font : Set := font_xlarge | font_large | font_medium | font_small.

(** The calls that reach the image and its [ImageDraw]. *)
Inductive pil_call : Set :=
| Paste (c : color) (box : Z * Z * Z * Z)
| Text (x y : num) (text : string) (f : font) (fill : color) (anchor : string)
| Line (x1 y1 x2 y2 : num) (fill : color) (width : Z)
| Rectangle (x1 y1 x2 y2 : num) (outline : color) (fill : option color).

(** A drawing computation: the calls made so far, and how it ended. *)
Definition draw (A : Type) : Type := (list pil_call * result A)%type.

Definition ret {A} (a : A) : draw A := ([], Ok a).

Definition bind {A B} (m : draw A) (f : A -> draw B) : draw B :=
  match m with
  | (t1, Ok a) => let '(t2, r) := f a in (t1 ++ t2, r)
  | (t1, Raise e) => (t1, Raise e)
  end.

Definition lift {A} (r : result A) : draw A := ([], r).

Definition calls {A} (m : draw A) : list pil_call := fst m.
Definition outcome {A} (m : draw A) : result A := snd m.

(** [for a in l: body] *)
Fixpoint for_ {A} (l : list A) (body : A -> draw unit) : draw unit :=
  match l with
  | [] => ret tt
  | a :: l' => bind (body a) (fun _ => for_ l' body)
  end.

(** A loop that carries rebound local variables from turn to turn. *)
Fixpoint for_with {A S} (l : list A) (s : S) (body : A -> S -> draw S) : draw S :=
  match l with
  | [] => ret s
  | a :: l' => bind (body a s) (fun s' => for_with l' s' body)
  end.

Definition width : Z := Driver.WIDTH.
Definition height : Z := Driver.HEIGHT.

(** [clear(color=None)] *)
Definition clear (c : option color) : draw unit :=
  let c := match c with None => BLACK | Some c => c end in
  ([Paste c (0, 0, width, height)], Ok tt).

(** [draw_text(x, y, text, font=None, color=None, anchor="lt")] *)
Definition draw_text (x y : num) (text : string) (f : option font)
           (c : option color) (anchor : option string) : draw unit :=
  let f := match f with None => font_medium | Some f => f end in
  let c := match c with None => WHITE | Some c => c end in
  let anchor := match anchor with None => "lt"%string | Some a => a end in
  ([Text x y text f c anchor], Ok tt).

(** [draw_line(x1, y1, x2, y2, color=None, width=1)] *)
Definition draw_line (x1 y1 x2 y2 : num) (c : option color) (w : option Z)
  : draw unit :=
  let c := match c with None => WHITE | Some c => c end in
  let w := match w with None => 1 | Some w => w end in
  ([Line x1 y1 x2 y2 c w], Ok tt).

(** [draw_rectangle(x1, y1, x2, y2, color=None, outline=None, fill=None)]:
    the outline passed on is [outline or color]. *)
Definition draw_rectangle (x1 y1 x2 y2 : num) (c outline fill : option color)
  : draw unit :=
  let c := match c with None => WHITE | Some c => c end in
  let outline := match outline with None => c | Some o => o end in
  ([Rectangle x1 y1 x2 y2 outline fill], Ok tt).

End Display.

Notation "'let+' x ':=' m 'in' k" := (Display.bind m (fun x => k))
  (at level 10, x name, m at level 100, k at level 200).
Notation "m >> k" := (Display.bind m (fun _ => k))
  (at level 60, right associativity).

(** ** The bounded history of the carousel dashboards *)

Module Deque.

(** [collections.deque(maxlen=n)]: the items, oldest first. *)
Record deque (A : Type) : Type := { maxlen : nat; items : list A }.
Arguments maxlen {A} d.
Arguments items {A} d.

Definition new {A} (n : nat) : deque A := {| maxlen := n; items := [] |}.

(** [d.append(x)]: the item is added on the right, then the deque is
    trimmed on the left when it holds more than [maxlen] items. *)
Definition append {A} (d : deque A) (x : A) : deque A :=
  let l := items d ++ [x] in
  {| maxlen := maxlen d;
     items := if (maxlen d <? length l)%nat then tl l else l |}.

(** [list(d)] and [len(d)] *)
Definition to_list {A} (d : deque A) : list A := items d.
Definition len {A} (d : deque A) : Z := Py.len (items d).

End Deque.

(** ** dashboards/st7789_carousel_dashboard.py *)

Module Carousel.
Import Py Display.

(** The values held in [self.stats]. *)
Inductive pyval : Type :=
| VNum (n : num)
| VStr (s : string)
| VDict (d : gmap string num).

(** A page: title, key of the metric, accent colour, ceiling. *)
Definition page : Type := (string * string * Display.color * num)%type.

(** The fields of [CarouselDashboard] that the modelled methods use. *)
Record dashboard : Type := {
  page_duration : num;
  history : gmap string (Deque.deque num);
  stats : gmap string pyval;
  pages : list page;
  current_page : Z;
  page_start_time : num
}.

Definition set_history (h : gmap string (Deque.deque num)) (self : dashboard) :=
  {| page_duration := page_duration self; history := h; stats := stats self;
     pages := pages self; current_page := current_page self;
     page_start_time := page_start_time self |}.

Definition set_stats (st : gmap string pyval) (self : dashboard) :=
  {| page_duration := page_duration self; history := history self; stats := st;
     pages := pages self; current_page := current_page self;
     page_start_time := page_start_time self |}.

Definition set_page (i : Z) (t : num) (self : dashboard) :=
  {| page_duration := page_duration self; history := history self;
     stats := stats self; pages := pages self; current_page := i;
     page_start_time := t |}.

(** [__init__(update_interval, page_duration)]; [now] is [time.time()]. *)
Definition init (page_duration : num) (now : num) : dashboard :=
  {| page_duration := page_duration;
     history :=
       <["cpu"%string := Deque.new 20]>
       (<["memory"%string := Deque.new 20]>
       (<["cpu_temp"%string := Deque.new 20]>
       (<["gpu_temp"%string := Deque.new 20]>
       (<["disk"%string := Deque.new 20]> ∅))));
     stats :=
       <["cpu"%string := VNum (Int 0)]>
       (<["memory"%string := VNum (Int 0)]>
       (<["cpu_temp"%string := VNum (Int 0)]>
       (<["gpu_temp"%string := VNum (Int 0)]>
       (<["disk"%string := VDict (<["percent"%string := Int 0]> ∅)]>
       (<["uptime"%string := VStr "0m"]>
       (<["ip"%string := VStr "N/A"]>
       (<["hostname"%string := VStr "RPi5"]> ∅)))))));
     pages :=
       [ ("CPU"%string, "cpu"%string, RED, Int 100);
         ("RAM"%string, "memory"%string, CYAN, Int 100);
         ("CPU Temp"%string, "cpu_temp"%string, YELLOW, Int 100);
         ("GPU Temp"%string, "gpu_temp"%string, MAGENTA, Int 100);
         ("Disk"%string, "disk"%string, GREEN, Int 100) ];
     current_page := 0;
     page_start_time := now |}.

(** A method that mutates [self] and may raise. *)
Definition method : Type := dashboard -> dashboard * result unit.

Definition andthen (a b : method) : method :=
  fun self =>
    match a self with
    | (self', Ok _) => b self'
    | (self', Raise e) => (self', Raise e)
    end.

(** [self.stats[key] = value], where computing [value] may raise. *)
Definition store_stat (key : string) (value : result pyval) : method :=
  fun self =>
    match value with
    | Ok v => (set_stats (<[key := v]> (stats self)) self, Ok tt)
    | Raise e => (self, Raise e)
    end.

(** [self.history[key].append(self.stats[key])] *)
Definition record_history (key : string) : method :=
  fun self =>
    match history self !! key, stats self !! key with
    | Some d, Some (VNum n) =>
        (set_history (<[key := Deque.append d n]> (history self)) self, Ok tt)
    | _, _ => (self, Raise KeyError)
    end.

(** [try: body  except Exception as e: print(...)] *)
Definition guarded (body : method) : method :=
  fun self =>
    match body self with
    | (self', Raise e) => if is_Exception e then (self', Ok tt) else (self', Raise e)
    | r => r
    end.

(** A method ends without an error, or with one that derives from
    [Exception]. *)
Definition benign (r : dashboard * result unit) : Prop :=
  match snd r with
  | Ok _ => True
  | Raise e => is_Exception e = true
  end.

(** [update_stats()] *)
Definition update_stats (sys : Metrics.system) : method :=
  guarded
    (andthen (store_stat "cpu" (let* v := Metrics.get_cpu_usage (Metrics.proc_stat sys) in Ok (VNum v)))
    (andthen (store_stat "memory" (let* v := Metrics.get_memory_usage (Metrics.proc_meminfo sys) in Ok (VNum v)))
    (andthen (store_stat "cpu_temp" (let* v := Metrics.get_temperature (Metrics.thermal_zone0 sys) in Ok (VNum v)))
    (andthen (store_stat "gpu_temp" (let* v := Metrics.get_gpu_temperature (Metrics.vcgencmd sys) in Ok (VNum v)))
    (andthen (store_stat "disk" (let* disk := Metrics.get_disk_usage (Metrics.root_disk sys) in Ok (VNum (Metrics.percent disk))))
    (andthen (store_stat "uptime" (let* v := Metrics.get_uptime (Metrics.proc_uptime sys) in Ok (VStr v)))
    (andthen (store_stat "ip" (let* v := Metrics.get_ip_address (Metrics.socket_ip sys) in Ok (VStr v)))
    (andthen (store_stat "hostname" (let* v := Metrics.get_hostname (Metrics.etc_hostname sys) in Ok (VStr v)))
    (andthen (record_history "cpu")
    (andthen (record_history "memory")
    (andthen (record_history "cpu_temp")
    (andthen (record_history "gpu_temp")
             (record_history "disk"))))))))))))).

(** The five readings that a round sends to the histories. *)
Definition readings (sys : Metrics.system) : result (num * num * num * num * num) :=
  let* cpu := Metrics.get_cpu_usage (Metrics.proc_stat sys) in
  let* memory := Metrics.get_memory_usage (Metrics.proc_meminfo sys) in
  let* cpu_temp := Metrics.get_temperature (Metrics.thermal_zone0 sys) in
  let* gpu_temp := Metrics.get_gpu_temperature (Metrics.vcgencmd sys) in
  let* disk := Metrics.get_disk_usage (Metrics.root_disk sys) in
  Ok (cpu, memory, cpu_temp, gpu_temp, Metrics.percent disk).

(** Successive rounds of [update_stats], as the main loop makes them. *)
Definition rounds_of_update_stats (rounds : list Metrics.system) (self : dashboard)
  : dashboard :=
  fold_left (fun self sys => fst (update_stats sys self)) rounds self.

(** [update_page()]; [now] is the reading of [time.time()] that is
    compared, [later] the one stored when the page changes. *)
Definition update_page (now later : num) : method :=
  fun self =>
    let elapsed := sub now (page_start_time self) in
    if ge elapsed (page_duration self) then
      match mod_ (current_page self + 1) (len (pages self)) with
      | Ok next => (set_page next later self, Ok tt)
      | Raise e => (self, Raise e)
      end
    else (self, Ok tt).

(** The calls with which both carousel line graphs start: the blanked
    region, a grid line every 20 pixels, the two axes. *)
Definition frame_calls (x y width height : Z) (color : color) : list pil_call :=
  Rectangle (Int x) (Int y) (Int (x + width)) (Int (y + height)) WHITE (Some BLACK)
  :: flat_map (fun i => [Line (Int x) (Int (y + i)) (Int (x + width)) (Int (y + i))
                              (30, 30, 30) 1])
              (range3 0 height 20)
  ++ [ Line (Int x) (Int (y + height)) (Int (x + width)) (Int (y + height)) color 2;
       Line (Int x) (Int y) (Int x) (Int (y + height)) color 2 ].

(** [draw_graph(x, y, width, height, data, max_val, color, animation_frame=0)] *)
Definition draw_graph (x y width height : Z) (data : Deque.deque num)
           (max_val : num) (color : color) (animation_frame : Z) : draw unit :=
  if Deque.len data <? 2 then ret tt
  else
    let values := Deque.to_list data in
    draw_rectangle (Int x) (Int y) (Int (x + width)) (Int (y + height))
                   None None (Some BLACK) >>
    for_ (range3 0 height 20) (fun i =>
      draw_line (Int x) (Int (y + i)) (Int (x + width)) (Int (y + i))
                (Some (30, 30, 30)) (Some 1)) >>
    draw_line (Int x) (Int (y + height)) (Int (x + width)) (Int (y + height))
              (Some color) (Some 2) >>
    draw_line (Int x) (Int y) (Int x) (Int (y + height)) (Some color) (Some 2) >>
    let animation_shift := animation_frame in
    let+ point_width := lift (truediv (Int width) (Int (len values))) in
    for_ (range (len values - 1)) (fun i =>
      let x1 := x + int (mul (Int i) point_width) - animation_shift in
      let+ vi := lift (getitem values i) in
      let+ ri := lift (truediv vi max_val) in
      let y1 := y + height - int (mul ri (Int height)) in
      let x2 := x + int (mul (Int (i + 1)) point_width) - animation_shift in
      let+ vj := lift (getitem values (i + 1)) in
      let+ rj := lift (truediv vj max_val) in
      let y2 := y + height - int (mul rj (Int height)) in
      if (x <=? x2) && (x1 <=? x + width) then
        draw_line (Int x1) (Int y1) (Int x2) (Int y2) (Some color) (Some 2) >>
        if i mod 4 =? 0 then
          draw_rectangle (Int (x1 - 2)) (Int (y1 - 2)) (Int (x1 + 2)) (Int (y1 + 2))
                         None None (Some color)
        else ret tt
      else ret tt) >>
    if 0 <? len values then
      let new_x := x + width - animation_shift in
      let+ vl := lift (getitem values (-1)) in
      let+ rl := lift (truediv vl max_val) in
      let new_y := y + height - int (mul rl (Int height)) in
      if (x <=? new_x) && (new_x <=? x + width) then
        draw_rectangle (Int (new_x - 2)) (Int (new_y - 2))
                       (Int (new_x + 2)) (Int (new_y + 2))
                       None None (Some color)
      else ret tt
    else ret tt.

End Carousel.

(** ** dashboards/st7789_carousel_dashboard_pro.py *)

Module CarouselPro.
Import Py Display.

(** [draw_graph(x, y, width, height, data, max_val, color)];
    [animation_counter] is the field of [self] that the routine reads. *)
Definition draw_graph (animation_counter : Z) (x y width height : Z)
           (data : Deque.deque num) (max_val : num) (color : color) : draw unit :=
  if Deque.len data <? 2 then ret tt
  else
    let values := Deque.to_list data in
    draw_rectangle (Int x) (Int y) (Int (x + width)) (Int (y + height))
                   None None (Some BLACK) >>
    for_ (range3 0 height 20) (fun i =>
      draw_line (Int x) (Int (y + i)) (Int (x + width)) (Int (y + i))
                (Some (30, 30, 30)) (Some 1)) >>
    draw_line (Int x) (Int (y + height)) (Int (x + width)) (Int (y + height))
              (Some color) (Some 2) >>
    draw_line (Int x) (Int y) (Int x) (Int (y + height)) (Some color) (Some 2) >>
    let+ point_width := lift (truediv (Int width) (Int (len values))) in
    for_ (range (len values - 1)) (fun i =>
      let x1 := x + int (mul (Int i) point_width) in
      let+ vi := lift (getitem values i) in
      let+ ri := lift (truediv vi max_val) in
      let y1 := y + height - int (mul ri (Int height)) in
      let x2 := x + int (mul (Int (i + 1)) point_width) in
      let+ vj := lift (getitem values (i + 1)) in
      let+ rj := lift (truediv vj max_val) in
      let y2 := y + height - int (mul rj (Int height)) in
      if (x <=? x2) && (x1 <=? x + width) then
        draw_line (Int x1) (Int y1) (Int x2) (Int y2) (Some color) (Some 2) >>
        if i mod 4 =? 0 then
          draw_rectangle (Int (x1 - 2)) (Int (y1 - 2)) (Int (x1 + 2)) (Int (y1 + 2))
                         None None (Some color)
        else ret tt
      else ret tt) >>
    if 0 <? len values then
      let+ half := lift (truediv point_width (Int 2)) in
      let new_x := sub (Int (x + width)) half in
      let+ vl := lift (getitem values (-1)) in
      let+ rl := lift (truediv vl max_val) in
      let new_y := y + height - int (mul rl (Int height)) in
      let pulse_size := 2 + animation_counter mod 5 in
      draw_rectangle (sub new_x (Int pulse_size)) (Int (new_y - pulse_size))
                     (add new_x (Int pulse_size)) (Int (new_y + pulse_size))
                     None None (Some color)
    else ret tt.

(** The scaling of the specification: sample [i] of [n] lies at
    [x + i * width / n], and a value lies at
    [region_bottom - (value / ceiling) * region_height]. *)
Definition point_x (x width n i : Z) : Z := x + (i * width) / n.

Definition point_y (y height : Z) (ceiling value : num) : Z :=
  y + height - int (mul (Float (to_Q value / to_Q ceiling)) (Int height)).

(** The calls of turn [k] of the loop over the samples: the segment from
    sample [k] to sample [k + 1], and a marker on every fourth sample. *)
Definition segment_calls (x y width height : Z) (values : list num) (max_val : num)
           (color : color) (k : nat) : list pil_call :=
  let n := len values in
  let x1 := point_x x width n (Z.of_nat k) in
  let y1 := point_y y height max_val (nth k values (Int 0)) in
  let x2 := point_x x width n (Z.of_nat (S k)) in
  let y2 := point_y y height max_val (nth (S k) values (Int 0)) in
  Line (Int x1) (Int y1) (Int x2) (Int y2) color 2
  :: (if Z.of_nat k mod 4 =? 0
      then [Rectangle (Int (x1 - 2)) (Int (y1 - 2)) (Int (x1 + 2)) (Int (y1 + 2))
                      WHITE (Some color)]
      else []).

(** The marker on the latest sample. *)
Definition pulse_call (animation_counter x y width height : Z) (values : list num)
           (max_val : num) (color : color) : pil_call :=
  let half := Float (to_Q (Float (inject_Z width / inject_Z (len values))) / inject_Z 2) in
  let new_x := sub (Int (x + width)) half in
  let new_y := point_y y height max_val (List.last values (Int 0)) in
  let pulse_size := 2 + animation_counter mod 5 in
  Rectangle (sub new_x (Int pulse_size)) (Int (new_y - pulse_size))
            (add new_x (Int pulse_size)) (Int (new_y + pulse_size))
            WHITE (Some color).

End CarouselPro.

(** ** dashboards/st7789_premium_dashboard.py *)

Module Premium.
Import Py Display.

(** The background, shading, grid and axes that the area and bar graphs
    draw first; [o1] and [o2] are the two grid intensities, the only
    part in which the routines differ there. *)
Definition backdrop (o1 o2 : Z) (x y width height : Z) (color : color) : draw unit :=
  draw_rectangle (Int x) (Int y) (Int (x + width)) (Int (y + height))
                 None None (Some BLACK) >>
  for_ (range (Z.min (height / 4) height)) (fun i =>
    let shade := 15 - (i * 10) / Z.max 1 (height / 4) in
    draw_line (Int x) (Int (y + i)) (Int (x + width)) (Int (y + i))
              (Some (shade, shade, shade)) (Some 1)) >>
  for_ (range3 0 height 10) (fun i =>
    let opacity := if i mod 20 =? 0 then o1 else o2 in
    draw_line (Int x) (Int (y + i)) (Int (x + width)) (Int (y + i))
              (Some (opacity, opacity, opacity)) (Some 1)) >>
  draw_line (Int x) (Int (y + height)) (Int (x + width)) (Int (y + height))
            (Some color) (Some 3) >>
  draw_line (Int x) (Int y) (Int x) (Int (y + height)) (Some color) (Some 3) >>
  draw_line (Int (x + 1)) (Int (y + height + 1)) (Int (x + width)) (Int (y + height + 1))
            (Some (30, 30, 30)) (Some 1) >>
  draw_line (Int (x + 1)) (Int (y + 1)) (Int (x + 1)) (Int (y + height))
            (Some (30, 30, 30)) (Some 1).

(** [tuple(int(c * f) for c in color)] *)
Definition scale_color (c : color) (f : num) : Display.color :=
  let '(r, g, b) := c in
  (int (mul (Int r) f), int (mul (Int g) f), int (mul (Int b) f)).

(** [draw_smooth_area_graph(x, y, width, height, data, max_val, color)] *)
Definition draw_smooth_area_graph (animation_counter : Z) (x y width height : Z)
           (data : Deque.deque num) (max_val : num) (color : color) : draw unit :=
  if Deque.len data <? 2 then ret tt
  else
    let values := Deque.to_list data in
    backdrop 20 10 x y width height color >>
    let+ point_width := lift (truediv (Int width) (Int (len values))) in
    for_with (range (len values)) (x, y + height) (fun i '(prev_x1, prev_y1) =>
      let x1 := x + int (mul (Int i) point_width) in
      let+ vi := lift (getitem values i) in
      let+ ri := lift (truediv vi max_val) in
      let y1 := y + height - int (mul ri (Int height)) in
      (if 0 <? i then
         draw_line (Int prev_x1) (Int prev_y1) (Int x1) (Int y1) (Some color) (Some 3) >>
         for_ (range2 prev_y1 (y + height)) (fun fill_y =>
           let+ alpha := lift (truediv (Int (fill_y - prev_y1))
                                       (Int (Z.max 1 (y + height - prev_y1)))) in
           let shade := int (mul alpha (Int 40)) in
           draw_line (Int prev_x1) (Int fill_y) (Int x1) (Int fill_y)
                     (Some (shade, shade, shade)) (Some 1))
       else ret tt) >>
      ret (x1, y1)) >>
    if 0 <? len values then
      let+ half := lift (truediv point_width (Int 2)) in
      let new_x := sub (Int (x + width)) half in
      let+ vl := lift (getitem values (-1)) in
      let+ rl := lift (truediv vl max_val) in
      let new_y := y + height - int (mul rl (Int height)) in
      let glow := 4 + animation_counter mod 5 in
      for_ (range3 glow 0 (-1)) (fun i =>
        let+ f := lift (truediv (Int i) (Int glow)) in
        let ring_color := scale_color color f in
        draw_rectangle (sub (sub new_x (Int i)) (Int 1)) (Int (new_y - i - 1))
                       (add (add new_x (Int i)) (Int 1)) (Int (new_y + i + 1))
                       None (Some ring_color) None) >>
      draw_rectangle (sub new_x (Int 4)) (Int (new_y - 4))
                     (add new_x (Int 4)) (Int (new_y + 4))
                     None None (Some color) >>
      draw_rectangle (sub new_x (Int 3)) (Int (new_y - 3))
                     (add new_x (Int 3)) (Int (new_y + 3))
                     None (Some WHITE) None
    else ret tt.

(** [draw_filled_area_graph(x, y, width, height, data, max_val, color)] *)
Definition draw_filled_area_graph (x y width height : Z)
           (data : Deque.deque num) (max_val : num) (color : color) : draw unit :=
  if Deque.len data <? 2 then ret tt
  else
    let values := Deque.to_list data in
    backdrop 25 12 x y width height color >>
    let+ point_width := lift (truediv (Int width) (Int (len values))) in
    for_ (range (len values - 1)) (fun i =>
      let x1 := x + int (mul (Int i) point_width) in
      let+ vi := lift (getitem values i) in
      let+ ri := lift (truediv vi max_val) in
      let y1 := y + height - int (mul ri (Int height)) in
      let x2 := x + int (mul (Int (i + 1)) point_width) in
      let+ vj := lift (getitem values (i + 1)) in
      let+ rj := lift (truediv vj max_val) in
      let y2 := y + height - int (mul rj (Int height)) in
      draw_line (Int x1) (Int y1) (Int x2) (Int y2) (Some color) (Some 3) >>
      for_ (range2 y1 (y + height)) (fun fill_i =>
        let+ alpha := lift (truediv (Int (fill_i - y1))
                                    (Int (Z.max 1 (y + height - y1)))) in
        let shade := int (mul alpha (Int 70)) in
        draw_line (Int x1) (Int fill_i) (Int x2) (Int fill_i)
                  (Some (shade, shade, shade)) (Some 1))) >>
    if 0 <? len values then
      let+ point_width := lift (truediv (Int width) (Int (len values))) in
      for_ (enumerate (slice_from values (-3))) (fun '(i, val) =>
        let+ half := lift (truediv point_width (Int 2)) in
        let back := 2 - (len values - 1 - (len values - 3 + i)) in
        let x1 := sub (sub (Int (x + width)) half) (mul (Int back) point_width) in
        let+ rv := lift (truediv val max_val) in
        let y1 := y + height - int (mul rv (Int height)) in
        if gt x1 (Int x) then
          draw_rectangle (sub x1 (Int 2)) (Int (y1 - 2)) (add x1 (Int 2)) (Int (y1 + 2))
                         None None (Some color)
        else ret tt)
    else ret tt.

(** [draw_bar_chart(x, y, width, height, data, max_val, color)] *)
Definition draw_bar_chart (x y width height : Z)
           (data : Deque.deque num) (max_val : num) (color : color) : draw unit :=
  if Deque.len data <? 1 then ret tt
  else
    let values := Deque.to_list data in
    backdrop 25 12 x y width height color >>
    let+ bar_width := lift (truediv (Int width) (Int (len values))) in
    for_ (enumerate values) (fun '(i, val) =>
      let bar_x := x + int (mul (Int i) bar_width) in
      let+ rv := lift (truediv val max_val) in
      let bar_height := int (mul rv (Int height)) in
      let bar_y := y + height - bar_height in
      draw_rectangle (Int (bar_x + 2)) (Int (bar_y + 1))
                     (Int (bar_x + int bar_width - 2)) (Int (y + height + 1))
                     None None (Some (20, 20, 20)) >>
      draw_rectangle (Int (bar_x + 2)) (Int bar_y)
                     (Int (bar_x + int bar_width - 2)) (Int (y + height))
                     None (Some WHITE) (Some color) >>
      for_ (range2 0 (bar_height / 3)) (fun h =>
        let+ alpha := lift (truediv (Int h) (Int (Z.max 1 (bar_height / 3)))) in
        let shade := int (mul (Int 150) alpha) in
        let highlight_color := (Z.min 255 shade, Z.min 255 shade, Z.min 255 shade) in
        draw_line (Int (bar_x + 3)) (Int (bar_y + h))
                  (Int (bar_x + int bar_width - 3)) (Int (bar_y + h))
                  (Some highlight_color) (Some 1)) >>
      draw_line (Int (bar_x + 2)) (Int (bar_y - 1))
                (Int (bar_x + int bar_width - 2)) (Int (bar_y - 1))
                (Some WHITE) (Some 1)).

End Premium.

(** ** dashboards/st7789_stats_dashboard.py *)

Module Stats.
Import Py Display.

(** [int((bar_width - 2) * min(value, 100) / 100)] *)
Definition fill_width (bar_width : Z) (value : num) : Z :=
  int (Float (to_Q (mul (Int (bar_width - 2)) (min value (Int 100))) / to_Q (Int 100))).

Section Formatting.
(** [repr] of a float, which the f-strings of the rows rely on. *)
Variable repr_float : Q -> string.

(** [f"{value}"] *)
Definition format_num (value : num) : string :=
  match value with
  | Int z => str_int z
  | Float q => repr_float q
  end.

(** [get_color_for_value(value, thresholds=(50, 80))] *)
Definition get_color_for_value (value : num) (thresholds : option (num * num)) : color :=
  let thresholds := match thresholds with None => (Int 50, Int 80) | Some t => t end in
  if ge value (snd thresholds) then RED
  else if ge value (fst thresholds) then YELLOW
  else GREEN.

(** [draw_stats_row(y, label, value, unit, threshold=(50, 80))] *)
Definition draw_stats_row (y : Z) (label : string) (value : num) (unit : string)
           (threshold : option (num * num)) : draw Datatypes.unit :=
  let threshold := match threshold with None => (Int 50, Int 80) | Some t => t end in
  let color := get_color_for_value value (Some threshold) in
  draw_text (Int 5) (Int y) (label +:+ ":") (Some font_small) (Some CYAN) None >>
  let text := format_num value +:+ unit in
  draw_text (Int 70) (Int y) text (Some font_small) (Some color) None >>
  let bar_x := 120 in
  let bar_width := 115 in
  let bar_height := 6 in
  draw_rectangle (Int bar_x) (Int (y - 1)) (Int (bar_x + bar_width))
                 (Int (y + bar_height - 1)) None (Some WHITE) None >>
  let+ ratio := lift (truediv (mul (Int (bar_width - 2)) (min value (Int 100)))
                              (Int 100)) in
  let fill_width := int ratio in
  if 0 <? fill_width then
    draw_rectangle (Int (bar_x + 1)) (Int y) (Int (bar_x + fill_width))
                   (Int (y + bar_height - 2)) None None (Some color)
  else ret tt.

End Formatting.

End Stats.

(** ** dashboards/st7789_stats_dashboard_enhanced.py *)

Module StatsEnhanced.
Import Py Display.

Section Formatting.
Variable repr_float : Q -> string.

(** [get_color_for_value(value, thresholds=(50, 80))] *)
Definition get_color_for_value (value : num) (thresholds : option (num * num)) : color :=
  let thresholds := match thresholds with None => (Int 50, Int 80) | Some t => t end in
  if ge value (snd thresholds) then RED
  else if ge value (fst thresholds) then YELLOW
  else GREEN.

(** [draw_full_stat_bar(x, y, width, label, value, unit,
                        color_normal, color_warn, color_crit)] *)
Definition draw_full_stat_bar (x y width : Z) (label : string) (value : num)
           (unit : string) (color_normal color_warn color_crit : color)
  : draw Datatypes.unit :=
  let label_text := label +:+ ":" in
  draw_text (Int x) (Int y) label_text (Some font_small) (Some CYAN) None >>
  let value_text := Stats.format_num repr_float value +:+ unit in
  draw_text (Int (x + 70)) (Int y) value_text (Some font_small)
            (Some (get_color_for_value value None)) None >>
  let bar_x := x in
  let bar_y := y + 10 in
  let bar_width := width in
  let bar_height := 8 in
  draw_rectangle (Int bar_x) (Int bar_y) (Int (bar_x + bar_width))
                 (Int (bar_y + bar_height)) None (Some WHITE) (Some BLACK) >>
  let bar_color :=
    if ge value (Int 80) then color_crit
    else if ge value (Int 50) then color_warn
    else color_normal in
  let+ ratio := lift (truediv (mul (Int (bar_width - 2)) (min value (Int 100)))
                              (Int 100)) in
  let fill_width := int ratio in
  if 0 <? fill_width then
    draw_rectangle (Int (bar_x + 1)) (Int (bar_y + 1)) (Int (bar_x + fill_width))
                   (Int (bar_y + bar_height - 1)) None None (Some bar_color)
  else ret tt.

End Formatting.

End StatsEnhanced.

(** ** The scale of the graphs in binary64

    The [float] of CPython is IEEE 754 binary64, which the Standard
    Library specifies on [spec_float].  The expression with which every
    graph places a value, [int((value / max_val) * height)], is written
    here on that specification, to compare it with the exact one. *)

Module Binary64.
Import Py.

Definition prec : Z := 53.
Definition emax : Z := 1024.

(** The conversion of an [int] to [float]. *)
Definition of_int (z : Z) : spec_float := binary_normalize prec emax z 0 false.

Definition div : spec_float -> spec_float -> spec_float := SFdiv prec emax.
Definition mul : spec_float -> spec_float -> spec_float := SFmul prec emax.

(** [int(f)]: truncation toward zero; an infinity and a NaN are refused. *)
Definition to_int (f : spec_float) : result Z :=
  match f with
  | S754_zero _ => Ok 0
  | S754_finite s m e =>
      let magnitude := if 0 <=? e then Zpos m * 2 ^ e else Zpos m / 2 ^ (- e) in
      Ok (if s then - magnitude else magnitude)
  | S754_infinity _ => Raise OverflowError
  | S754_nan => Raise ValueError
  end.

(** [int((value / max_val) * height)] *)
Definition scaled (value max_val : spec_float) (height : Z) : result Z :=
  to_int (mul (div value max_val) (of_int height)).

(** The heights up to [n] for which [check] holds. *)
Definition all_heights (n : nat) (check : Z -> bool) : bool :=
  forallb (fun h => check (Z.of_nat h)) (seq 0 (S n)).

End Binary64.

(** ** The state of the carousel across the turns of its loop *)

Module CarouselRun.
Import Py Display Carousel.

(** The keys of [self.history]. *)
Definition history_keys : list string :=
  ["cpu"; "memory"; "cpu_temp"; "gpu_temp"; "disk"]%string.

(** Every history is a ring of capacity 20 that holds [n] samples. *)
Definition aligned (h : gmap string (Deque.deque num)) (n : nat) : Prop :=
  Forall (fun key => exists d, h !! key = Some d
                               /\ Deque.maxlen d = 20%nat
                               /\ length (Deque.items d) = n)
         history_keys.

(** Successive calls of [update_page], each with its two readings of the
    clock. *)
Definition update_pages (clock : list (num * num)) (self : dashboard) : dashboard :=
  fold_left (fun self '(now, later) => fst (update_page now later self)) clock self.

(** The five histories, each with the reading of a round that
    [update_stats] appends to it by
    [self.history[key].append(self.stats[key])]. *)
Definition history_columns : list (string * (num * num * num * num * num -> num)) :=
  [ ("cpu"%string, fun '(cpu, _, _, _, _) => cpu);
    ("memory"%string, fun '(_, memory, _, _, _) => memory);
    ("cpu_temp"%string, fun '(_, _, cpu_temp, _, _) => cpu_temp);
    ("gpu_temp"%string, fun '(_, _, _, gpu_temp, _) => gpu_temp);
    ("disk"%string, fun '(_, _, _, _, disk) => disk) ].

(** Pages and page index are fields that [update_stats] never assigns. *)
Definition keeps_pages (m : method) : Prop :=
  forall self, pages (fst (m self)) = pages self
               /\ current_page (fst (m self)) = current_page self.

(** What the loop keeps true: the page table of [__init__], a page
    index within it, and five histories of the same length. *)
Definition loop_invariant (self : dashboard) : Prop :=
  pages self = pages (init (Int 0) (Int 0))
  /\ 0 <= current_page self < 5
  /\ exists n : nat, (n <= 20)%nat /\ aligned (history self) n.

End CarouselRun.

(** ** The line graph of dashboards/st7789_carousel_dashboard.py, turn by turn *)

Module CarouselGraph.
Import Py Display.

(** The calls of turn [k] of the loop of [Carousel.draw_graph] over the
    samples, for an animation shift of [shift] pixels: the segment from
    sample [k] to sample [k + 1] when it meets the region, and a marker
    on every fourth sample. *)
Definition segment_calls (shift x y width height : Z) (values : list num) (max_val : num)
           (color : color) (k : nat) : list pil_call :=
  let n := len values in
  let x1 := CarouselPro.point_x x width n (Z.of_nat k) - shift in
  let y1 := CarouselPro.point_y y height max_val (nth k values (Int 0)) in
  let x2 := CarouselPro.point_x x width n (Z.of_nat (S k)) - shift in
  let y2 := CarouselPro.point_y y height max_val (nth (S k) values (Int 0)) in
  if (x <=? x2) && (x1 <=? x + width) then
    Line (Int x1) (Int y1) (Int x2) (Int y2) color 2
    :: (if Z.of_nat k mod 4 =? 0
        then [Rectangle (Int (x1 - 2)) (Int (y1 - 2)) (Int (x1 + 2)) (Int (y1 + 2))
                        WHITE (Some color)]
        else [])
  else [].

(** The marker of the latest sample, drawn when it lies in the region. *)
Definition marker_calls (shift x y width height : Z) (values : list num) (max_val : num)
           (color : color) : list pil_call :=
  let new_x := x + width - shift in
  let new_y := CarouselPro.point_y y height max_val (List.last values (Int 0)) in
  if (x <=? new_x) && (new_x <=? x + width) then
    [Rectangle (Int (new_x - 2)) (Int (new_y - 2)) (Int (new_x + 2)) (Int (new_y + 2))
               WHITE (Some color)]
  else [].

(** A line whose two ends lie in the region of a graph; the other calls
    are not concerned. *)
Definition line_within (x y width height : Z) (c : pil_call) : Prop :=
  match c with
  | Line x1 y1 x2 y2 _ _ =>
      (inject_Z x <= to_Q x1 <= inject_Z (x + width))%Q
      /\ (inject_Z y <= to_Q y1 <= inject_Z (y + height))%Q
      /\ (inject_Z x <= to_Q x2 <= inject_Z (x + width))%Q
      /\ (inject_Z y <= to_Q y2 <= inject_Z (y + height))%Q
  | _ => True
  end.

End CarouselGraph.

(** ** The pages and the main loop of dashboards/st7789_carousel_dashboard.py *)

Module CarouselPages.
Import Py Display Carousel.

(** [s.upper()], on the ASCII letters. *)
Definition upper_char (c : ascii) : ascii :=
  let n := nat_of_ascii c in
  if ((97 <=? n) && (n <=? 122))%nat then ascii_of_nat (n - 32) else c.

Fixpoint upper (s : string) : string :=
  match s with
  | String c s' => String (upper_char c) (upper s')
  | EmptyString => EmptyString
  end.

(** [f"{q:.1f}"] for a float: the nearest tenth, a tie going to the even
    one, with the sign of [q]. *)
Definition fixed1 (q : Q) : string :=
  let tenths := Z.abs (Qnum (to_Q (round1 (Float q)))) in
  (if Qnum q <? 0 then "-" else "")
  +:+ str_int (tenths / 10) +:+ "." +:+ str_int (tenths mod 10).

(** [f"{value:.1f}"]: a number is formatted, a string refuses the format
    code and a dictionary refuses any format. *)
Definition format_1f (value : pyval) : result string :=
  match value with
  | VNum (Int z) => Ok (str_int z +:+ ".0")
  | VNum (Float q) => Ok (fixed1 q)
  | VStr _ => Raise ValueError
  | VDict _ => Raise TypeError
  end.

(** [stat_key in ['cpu', 'memory', 'disk']] *)
Definition is_percentage (stat_key : string) : bool :=
  String.eqb stat_key "cpu" || String.eqb stat_key "memory" || String.eqb stat_key "disk".

(** What reaches [self.display], in order: a call on the drawing surface,
    [update()], which sends the image to the panel, or [cleanup()]. *)
Inductive screen_event : Type :=
| Drawn (c : pil_call)
| Shown
| CleanedUp.

(** A page: what it draws, then [self.display.update()]. *)
Definition shown (m : draw unit) : list screen_event * result unit :=
  match m with
  | (t, Ok _) => (map Drawn t ++ [Shown], Ok tt)
  | (t, Raise e) => (map Drawn t, Raise e)
  end.

(** [render_animated_page(title, stat_key, color, max_val)] *)
Definition render_animated_page (title stat_key : string) (color : color) (max_val : num)
           (self : dashboard) : list screen_event * result unit :=
  shown
    (let+ value := lift (if String.eqb stat_key "disk"
                         then Metrics.dict_get (stats self) "disk"
                         else Metrics.dict_get (stats self) stat_key) in
     clear (Some BLACK) >>
     draw_rectangle (Int 0) (Int 0) (Int width) (Int 60) None None (Some color) >>
     draw_rectangle (Int 0) (Int 0) (Int width) (Int 60) None (Some WHITE) None >>
     draw_rectangle (Int 2) (Int 2) (Int (width - 2)) (Int 58) None (Some WHITE) None >>
     draw_text (Int (width / 2)) (Int 30) (upper title)
               (Some font_large) (Some BLACK) (Some "mm"%string) >>
     let y_center := 110 in
     let+ value_text := lift (format_1f value) in
     let unit_text := if is_percentage stat_key then "%"%string else "°C"%string in
     draw_text (Int (width / 2)) (Int (y_center - 15)) value_text
               (Some font_large) (Some color) (Some "mm"%string) >>
     draw_text (Int (width / 2)) (Int (y_center + 15)) unit_text
               (Some font_large) (Some color) (Some "mm"%string) >>
     let graph_y := 160 in
     let graph_height := 110 in
     let+ data := lift (Metrics.dict_get (history self) stat_key) in
     Carousel.draw_graph 15 graph_y (width - 30) graph_height data max_val color 0).

(** [draw_stat_page(title, stat_key, color, max_val)] *)
Definition draw_stat_page (title stat_key : string) (color : color) (max_val : num)
           (self : dashboard) : list screen_event * result unit :=
  shown
    (clear (Some BLACK) >>
     let+ value := lift (if String.eqb stat_key "disk"
                         then Metrics.dict_get (stats self) "disk"
                         else Metrics.dict_get (stats self) stat_key) in
     draw_rectangle (Int 0) (Int 0) (Int width) (Int 60) None None (Some color) >>
     draw_rectangle (Int 0) (Int 0) (Int width) (Int 60) None (Some WHITE) None >>
     draw_rectangle (Int 2) (Int 2) (Int (width - 2)) (Int 58) None (Some WHITE) None >>
     draw_text (Int (width / 2)) (Int 30) (upper title)
               (Some font_large) (Some BLACK) (Some "mm"%string) >>
     let y_center := 110 in
     let+ value_text := lift (format_1f value) in
     let unit_text := if is_percentage stat_key then "%"%string else "°C"%string in
     draw_text (Int (width / 2)) (Int (y_center - 15)) value_text
               (Some font_large) (Some color) (Some "mm"%string) >>
     draw_text (Int (width / 2)) (Int (y_center + 15)) unit_text
               (Some font_large) (Some color) (Some "mm"%string) >>
     let graph_y := 160 in
     let graph_height := 110 in
     let+ data := lift (Metrics.dict_get (history self) stat_key) in
     Carousel.draw_graph 15 graph_y (width - 30) graph_height data max_val color 0).

(** One turn of the loop of [run()], up to its last statement, the
    sleep: what the collectors meet, and the two readings of the clock
    that [update_page] makes. *)
Definition run_iteration (input : Metrics.system * num * num) (self : dashboard)
  : dashboard * list screen_event * result unit :=
  let '(sys, now, later) := input in
  match update_stats sys self with
  | (self1, Raise e) => (self1, [], Raise e)
  | (self1, Ok _) =>
      match getitem (pages self1) (current_page self1) with
      | Raise e => (self1, [], Raise e)
      | Ok (title, stat_key, color, max_val) =>
          match render_animated_page title stat_key color max_val self1 with
          | (log, Raise e) => (self1, log, Raise e)
          | (log, Ok _) =>
              let '(self2, r) := update_page now later self1 in (self2, log, r)
          end
      end
  end.

(** [while self.running: ...], for the turns made before [self.running]
    is cleared, when every sleep returns ([timed_loop] has the sleep). *)
Fixpoint loop (inputs : list (Metrics.system * num * num)) (self : dashboard)
  : dashboard * list screen_event * result unit :=
  match inputs with
  | [] => (self, [], Ok tt)
  | input :: inputs' =>
      match run_iteration input self with
      | (self1, log, Ok _) =>
          let '(self2, log', r) := loop inputs' self1 in (self2, log ++ log', r)
      | (self1, log, Raise e) => (self1, log, Raise e)
      end
  end.

(** [run()], when every sleep returns: a [KeyboardInterrupt] ends the
    loop silently, another [Exception] is printed, and [cleanup()] is
    called in every case. *)
Definition run (inputs : list (Metrics.system * num * num)) (self : dashboard)
  : dashboard * list screen_event * result unit :=
  let '(self', log, r) := loop inputs self in
  (self', log ++ [CleanedUp],
   match r with
   | Ok _ => Ok tt
   | Raise KeyboardInterrupt => Ok tt
   | Raise e => if is_Exception e then Ok tt else Raise e
   end).

(** The frames sent to the panel. *)
Definition frames (log : list screen_event) : nat :=
  length (List.filter (fun ev => match ev with Shown => true | _ => false end) log).





End CarouselPages.

(** ** The frame of dashboards/st7789_stats_dashboard.py *)

Module StatsFrame.
Import Py Display Carousel CarouselPages.


(** The dictionary that [get_disk_usage()] returns, as a value. *)
Definition disk_dict (d : Metrics.disk_usage) : pyval :=
  VDict (<["percent"%string := Metrics.percent d]>
         (<["used"%string := Metrics.used d]>
         (<["total"%string := Metrics.total d]> ∅))).

(** A sequence of assignments [self.stats[key] = value], the first
    exception ending it. *)
Fixpoint assign_all (assignments : list (string * result pyval)) (st : gmap string pyval)
  : gmap string pyval * result unit :=
  match assignments with
  | [] => (st, Ok tt)
  | (key, Ok v) :: rest => assign_all rest (<[key := v]> st)
  | (key, Raise e) :: rest => (st, Raise e)
  end.

(** [update_stats()] *)
Definition update_stats (sys : Metrics.system) (st : gmap string pyval)
  : gmap string pyval * result unit :=
  match
    assign_all
      [ ("cpu"%string, let* v := Metrics.get_cpu_usage (Metrics.proc_stat sys) in Ok (VNum v));
        ("memory"%string,
         let* v := Metrics.get_memory_usage (Metrics.proc_meminfo sys) in Ok (VNum v));
        ("cpu_temp"%string,
         let* v := Metrics.get_temperature (Metrics.thermal_zone0 sys) in Ok (VNum v));
        ("gpu_temp"%string,
         let* v := Metrics.get_gpu_temperature (Metrics.vcgencmd sys) in Ok (VNum v));
        ("disk"%string,
         let* d := Metrics.get_disk_usage (Metrics.root_disk sys) in Ok (disk_dict d));
        ("uptime"%string,
         let* v := Metrics.get_uptime (Metrics.proc_uptime sys) in Ok (VStr v));
        ("ip"%string,
         let* v := Metrics.get_ip_address (Metrics.socket_ip sys) in Ok (VStr v));
        ("hostname"%string,
         let* v := Metrics.get_hostname (Metrics.etc_hostname sys) in Ok (VStr v)) ]
      st
  with
  | (st', Raise e) => if is_Exception e then (st', Ok tt) else (st', Raise e)
  | r => r
  end.



Section Formatting.
(** [repr] of a float and of a dictionary, which the f-strings rely on. *)
Variable repr_float : Q -> string.
Variable repr_dict : gmap string num -> string.







End Formatting.


(** Successive rounds of [update_stats], as the main loop makes them. *)
Definition rounds_of_update_stats (rounds : list Metrics.system) (st : gmap string pyval)
  : gmap string pyval :=
  fold_left (fun st sys => fst (update_stats sys st)) rounds st.

End StatsFrame.

(** ** The address field of the enhanced dashboard, the NAS page and the
       curves of the premium dashboard *)

Module EnhancedNetwork.
Import Py.

(** [c in s], for a character. *)
Fixpoint contains (c : ascii) (s : string) : bool :=
  match s with
  | String c' s' => Ascii.eqb c' c || contains c s'
  | EmptyString => false
  end.

(** [s.split(sep)], for a separator of one character. *)
Fixpoint split_on (sep : ascii) (s : string) : list string :=
  match s with
  | EmptyString => [EmptyString]
  | String c s' =>
      if Ascii.eqb c sep then EmptyString :: split_on sep s'
      else match split_on sep s' with
           | field :: fields => String c field :: fields
           | [] => [String c EmptyString]
           end
  end.

(** [ip.split('.')[-1] if '.' in ip else ip], the text that
    [draw_network_section] shows for the address. *)
Definition ip_short (ip : string) : result string :=
  if contains "." ip then getitem (split_on "." ip) (-1) else Ok ip.

End EnhancedNetwork.

Module PremiumInfo.
Import Py Display.

(** The dictionary that [get_nas_storage()] returns. *)
Record nas_storage : Set := { total : num; used : num; free : num; percent : num }.

(** [get_nas_storage()]; [statvfs] is [os.statvfs('/mnt/nas')], as its
    [f_blocks], [f_frsize] and [f_bavail]. *)
Definition get_nas_storage (statvfs : result (Z * Z * Z)) : result nas_storage :=
  try_except_all
    (let* st := statvfs in
     let '(f_blocks, f_frsize, f_bavail) := st in
     let* total := truediv (Int (f_blocks * f_frsize)) (Int (1024 ^ 3)) in
     let* free := truediv (Int (f_bavail * f_frsize)) (Int (1024 ^ 3)) in
     let used := sub total free in
     let* percent :=
       if gt total (Int 0)
       then (let* ratio := truediv used total in Ok (round1 (mul ratio (Int 100))))
       else Ok (Int 0) in
     Ok {| total := round1 total; used := round1 used; free := round1 free;
           percent := percent |})
    {| total := Int 0; used := Int 0; free := Int 0; percent := Int 0 |}.

(** The progress bar of the NAS page, as [draw_info_page] draws it for
    [nas['percent']]. *)
Definition nas_progress_bar (color : color) (nas_percent : num) : draw unit :=
  let y := 95 in
  let bar_y := y + 22 in
  let bar_width := width - 30 in
  draw_rectangle (Int 14) (Int (bar_y - 1)) (Int (14 + bar_width + 1)) (Int (bar_y + 13))
                 None (Some (50, 50, 50)) (Some BLACK) >>
  draw_rectangle (Int 15) (Int bar_y) (Int (15 + bar_width)) (Int (bar_y + 12))
                 None (Some WHITE) (Some BLACK) >>
  let+ ratio := lift (truediv (mul (Int (bar_width - 2)) nas_percent) (Int 100)) in
  let fill_width := int ratio in
  if 0 <? fill_width then
    for_ (range fill_width) (fun i =>
      let+ alpha := lift (truediv (Int i) (Int (Z.max 1 fill_width))) in
      let bar_color := Premium.scale_color color alpha in
      draw_line (Int (16 + i)) (Int (bar_y + 1)) (Int (16 + i)) (Int (bar_y + 11))
                (Some bar_color) (Some 1))
  else ret tt.

(** [int((bar_width - 2) * nas['percent'] / 100)] for the bar of 210
    pixels. *)
Definition nas_fill_width (nas_percent : num) : Z :=
  int (Float (to_Q (mul (Int 208) nas_percent) / to_Q (Int 100))).

(** [a ** 2] and [a ** 3] *)
Definition square (a : num) : num := mul a a.
Definition cube (a : num) : num := mul (mul a a) a.

(** [interpolate(p0, p1, t)] *)
Definition interpolate (p0 p1 t : num) : num := add p0 (mul (sub p1 p0) t).

(** [bezier_point(p0, p1, p2, p3, t)] *)
Definition bezier_point (p0 p1 p2 p3 t : num) : num :=
  let mt := sub (Int 1) t in
  add (add (add (mul (cube mt) p0)
                (mul (mul (mul (Int 3) (square mt)) t) p1))
           (mul (mul (mul (Int 3) mt) (square t)) p2))
      (mul (cube t) p3).

End PremiumInfo.

(** ** The network page of the pro carousel, and st7789_modern_slides.py *)

Module ProNetwork.
Import Py.

(** [get_network_speed()] of the pro carousel; [net_io] is
    [psutil.net_io_counters()], as its [bytes_sent] and [bytes_recv].
    The dictionary returned is the pair of its ['sent'] and ['recv']. *)
Definition get_network_speed (net_io : result (Z * Z)) : result (Z * Z) :=
  try_except_all net_io (0, 0).

(** [(network['sent'] + network['recv']) / 1000000], the value that
    [update_stats] stores under ['network']. *)
Definition network_stat (network : Z * Z) : result num :=
  truediv (Int (fst network + snd network)) (Int 1000000).

(** The ceiling of the page ['NETWORK'] in [self.pages]. *)
Definition network_ceiling : num := Int 1000000.

End ProNetwork.

Module Slides.
Import Py.

(** [f"{n:.1f}"] for a number that binary64 holds. *)
Definition format1 (n : num) : string :=
  match n with
  | Int z => str_int z +:+ ".0"
  | Float q => CarouselPages.fixed1 q
  end.

(** The magnitude from which an [int], or the exact quotient of two
    [int]s, rounds beyond the largest number of binary64. *)
Definition float_overflow : Z := 2 ^ 1024 - 2 ^ 970.

(** The conversion to [float] that the format [.1f] makes of its
    argument: an [int] too large raises [OverflowError]. *)
Definition as_float (n : num) : result num :=
  match n with
  | Int z => if float_overflow <=? Z.abs z then Raise OverflowError else Ok n
  | Float _ => Ok n
  end.

(** [n / 1024]: the quotient of an [int] too large for a [float] raises
    [OverflowError]. *)
Definition div_1024 (n : num) : result num :=
  match n with
  | Int z =>
      if float_overflow * 1024 <=? Z.abs z then Raise OverflowError
      else truediv n (Int 1024)
  | Float _ => truediv n (Int 1024)
  end.

(** The loop of [human_bytes] over the units that are left. *)
Fixpoint human_bytes_loop (units : list string) (n : num) : result string :=
  match units with
  | [] => let* shown := as_float n in Ok (format1 shown +:+ "PB")
  | unit :: units' =>
      if lt n (Int 1024) then
        let* shown := as_float n in Ok (format1 shown +:+ unit)
      else let* n' := div_1024 n in human_bytes_loop units' n'
  end.

(** [human_bytes(n)] *)
Definition human_bytes (n : num) : result string :=
  human_bytes_loop ["B"; "KB"; "MB"; "GB"; "TB"]%string n.

(** The units in the order in which [human_bytes] reaches them. *)
Definition unit_names : list string := ["B"; "KB"; "MB"; "GB"; "TB"; "PB"]%string.

(** A number that binary64 holds: any [float], and an [int] below the
    magnitude that overflows. *)
Definition fits (n : num) : Prop :=
  match n with
  | Int z => Z.abs z < float_overflow
  | Float _ => True
  end.

(** [max(a, b)] returns the first argument on a tie. *)
Definition max (a b : num) : num := if lt a b then b else a.

(** [get_network_speed(iface)]; [io] is what
    [psutil.net_io_counters(pernic=True).get(iface)] gives: the counters
    of the interface, as its [bytes_recv] and [bytes_sent], [None] when
    the interface is absent, or the exception that the call raises, which
    nothing catches; [t] is [time.time()]; the global [_prev_net] is
    threaded.  Dividing an [int] by a [float] converts it first. *)
Definition get_network_speed (io : result (option (Z * Z))) (t : num)
           (_prev_net : option (num * Z * Z))
  : option (num * Z * Z) * result (num * num) :=
  match io with
  | Raise e => (_prev_net, Raise e)
  | Ok None => (_prev_net, Ok (Float 0, Float 0))
  | Ok (Some (bytes_recv, bytes_sent)) =>
      let cur := (t, bytes_recv, bytes_sent) in
      match _prev_net with
      | None => (Some cur, Ok (Float 0, Float 0))
      | Some (t0, recv0, sent0) =>
          let dt := max (sub t t0) (Float (1 # 1000000)) in
          match (let* received := as_float (Int (bytes_recv - recv0)) in
                 truediv received dt) with
          | Raise e => (_prev_net, Raise e)
          | Ok down =>
              match (let* sent := as_float (Int (bytes_sent - sent0)) in
                     truediv sent dt) with
              | Raise e => (_prev_net, Raise e)
              | Ok up => (Some cur, Ok (down, up))
              end
          end
      end
  end.







End Slides.

(* ===================================================================== *)
(** * Part II. Properties *)
(* ===================================================================== *)

Section RangeLemmas.
Import Py.

Lemma range_len_pos (start stop step : Z) :
  0 < step ->
  range_len start stop step
  = if stop <=? start then 0 else (stop - start - 1) / step + 1.
Proof.
  intros Hs. unfold range_len.
  rewrite (proj2 (Z.ltb_lt 0 step)) by assumption. reflexivity.
Qed.

(** [range(n)] is [0, 1, ..., n-1]. *)
Lemma range_seq (n : Z) : range n = map Z.of_nat (seq 0 (Z.to_nat n)).
Proof.
  unfold range, range3. rewrite range_len_pos by lia.
  destruct (Z.leb_spec n 0) as [Hn | Hn].
  - replace (Z.to_nat n) with 0%nat by lia. reflexivity.
  - rewrite Z.div_1_r. replace (Z.to_nat (n - 0 - 1 + 1)) with (Z.to_nat n) by lia.
    apply map_ext. intros k. lia.
Qed.

End RangeLemmas.

Section NumberLemmas.
Import Py.
Local Open Scope Q_scope.

(** [int] of a float that is a whole number is that number. *)
Lemma int_whole (q : Q) (z : Z) : q == inject_Z z -> int (Float q) = z.
Proof.
  destruct q as [n d]. unfold Qeq, int. cbn [Qnum Qden inject_Z].
  intros H. rewrite Z.mul_1_r in H. subst n. apply Z.quot_mul. discriminate.
Qed.

(** On a float that is not negative, [int] is the floor. *)
Lemma int_floor (q : Q) : 0 <= q -> int (Float q) = Qfloor q.
Proof.
  destruct q as [n d]. unfold Qle, int, Qfloor. cbn [Qnum Qden].
  intros H. apply Z.quot_div_nonneg; lia.
Qed.

(** [int(i * (w / n))] is the integer quotient of [i * w] by [n]. *)
Lemma int_mul_ratio (i w n : Z) :
  (0 <= i)%Z -> (0 <= w)%Z -> (0 < n)%Z ->
  int (mul (Int i) (Float (inject_Z w / inject_Z n))) = ((i * w) / n)%Z.
Proof.
  intros Hi Hw Hn. cbn [mul to_Q].
  assert (inject_Z i * (inject_Z w / inject_Z n) == (i * w) # (Z.to_pos n)) as Heq.
  { destruct n as [ | p | p]; try lia.
    unfold Qeq, Qdiv, Qmult, Qinv, inject_Z. cbn [Qnum Qden Z.to_pos]. lia. }
  rewrite int_floor.
  - rewrite Heq. unfold Qfloor. rewrite Z2Pos.id by assumption. reflexivity.
  - rewrite Heq. unfold Qle. cbn [Qnum Qden]. nia.
Qed.

Lemma is_zero_false_pos (m : num) : 0 < to_Q m -> is_zero m = false.
Proof.
  unfold is_zero, Qlt. cbn [Qnum Qden]. intros H. apply Z.eqb_neq. lia.
Qed.

Lemma to_Q_sub (a b : num) : to_Q (sub a b) == to_Q a - to_Q b.
Proof.
  destruct a as [x | p], b as [y | q]; cbn [sub to_Q]; try reflexivity.
  all: unfold Qeq, Qminus, Qplus, Qopp, inject_Z; cbn [Qnum Qden]; lia.
Qed.

Lemma to_Q_mul (a b : num) : to_Q (mul a b) == to_Q a * to_Q b.
Proof.
  destruct a as [x | p], b as [y | q]; cbn [mul to_Q]; try reflexivity.
  all: unfold Qeq, Qmult, inject_Z; cbn [Qnum Qden]; lia.
Qed.

Lemma ge_spec (a b : num) : ge a b = true <-> to_Q b <= to_Q a.
Proof. unfold ge, le. apply Qle_bool_iff. Qed.

Lemma ge_false (a b : num) : ge a b = false <-> to_Q a < to_Q b.
Proof.
  unfold ge, le. split.
  - intros H. apply Qnot_le_lt. intros Hle.
    apply Qle_bool_iff in Hle. congruence.
  - intros H. destruct (Qle_bool (to_Q b) (to_Q a)) eqn:E; [ | reflexivity ].
    apply Qle_bool_iff in E. exfalso. exact (Qlt_not_le _ _ H E).
Qed.

End NumberLemmas.

Section BitLemmas.

Lemma lor_shiftl_add (a b n : Z) :
  0 <= n -> 0 <= b < 2 ^ n -> Z.lor (Z.shiftl a n) b = a * 2 ^ n + b.
Proof.
  intros Hn Hb.
  rewrite <- Z.shiftl_mul_pow2 by assumption.
  symmetry. apply Z.add_nocarry_lor.
  apply Z.bits_inj'. intros i Hi.
  rewrite Z.land_spec, Z.bits_0.
  destruct (Z.lt_ge_cases i n) as [Hlt | Hge].
  - rewrite Z.shiftl_spec_low by assumption. reflexivity.
  - assert (Z.testbit b i = false) as ->; [ | apply andb_false_r ].
    destruct (Z.eq_dec b 0) as [-> | Hnz]; [ apply Z.bits_0 | ].
    apply Z.bits_above_log2; [ lia | ].
    apply Z.lt_le_trans with n; [ | assumption ].
    apply Z.log2_lt_pow2; lia.
Qed.

Lemma pack_fields (r g b : Z) :
  0 <= r < 32 -> 0 <= g < 64 -> 0 <= b < 32 ->
  Z.lor (Z.lor (Z.shiftl r 11) (Z.shiftl g 5)) b = r * 2 ^ 11 + g * 2 ^ 5 + b.
Proof.
  intros Hr Hg Hb.
  assert (Z.lor (Z.shiftl r 11) (Z.shiftl g 5) = Z.shiftl (r * 2 ^ 6 + g) 5) as ->.
  { rewrite lor_shiftl_add by (rewrite ?Z.shiftl_mul_pow2; lia).
    rewrite !Z.shiftl_mul_pow2 by lia.
    change (2 ^ 11) with (2 ^ 6 * 2 ^ 5). ring. }
  rewrite lor_shiftl_add by lia.
  change (2 ^ 11) with (2 ^ 6 * 2 ^ 5). ring.
Qed.

End BitLemmas.

Section ColorConversion.
Import Py Driver.

Lemma byte_int_range (b : byte) : 0 <= byte_int b < 256.
Proof.
  unfold byte_int. pose proof (Byte.to_N_bounded b). lia.
Qed.

Lemma length_tobytes (img : image) : length (tobytes img) = (3 * length img)%nat.
Proof.
  induction img as [ | [[r g] b] img IH]; simpl; [ reflexivity | lia ].
Qed.

Lemma getitem_app_at {A} (pre post : list A) (k : nat) (x : A) :
  nth_error post k = Some x ->
  getitem (pre ++ post) (Z.of_nat (length pre + k)) = Ok x.
Proof.
  intros Hx. unfold getitem.
  rewrite !(proj2 (Z.ltb_ge (Z.of_nat (length pre + k)) 0)) by lia.
  rewrite Nat2Z.id, nth_error_app2 by lia.
  replace (length pre + k - length pre)%nat with k by lia.
  rewrite Hx. reflexivity.
Qed.

Lemma convert_step_at (pre : image) (p : pixel) (post : image) :
  convert_step (tobytes (pre ++ p :: post)) (Z.of_nat (length pre) * 3)
  = Ok (step_items p).
Proof.
  destruct p as [[r g] b]. unfold convert_step, tobytes.
  rewrite flat_map_app. simpl flat_map.
  fold (tobytes pre). fold (tobytes post).
  pose proof (length_tobytes pre) as Hlen.
  replace (Z.of_nat (length pre) * 3) with (Z.of_nat (length (tobytes pre) + 0)) by lia.
  rewrite (getitem_app_at _ _ 0%nat r) by reflexivity. cbn [bind].
  replace (Z.of_nat (length (tobytes pre) + 0) + 1)
    with (Z.of_nat (length (tobytes pre) + 1)) by lia.
  rewrite (getitem_app_at _ _ 1%nat g) by reflexivity. cbn [bind].
  replace (Z.of_nat (length (tobytes pre) + 0) + 2)
    with (Z.of_nat (length (tobytes pre) + 2)) by lia.
  rewrite (getitem_app_at _ _ 2%nat b) by reflexivity. cbn [bind].
  reflexivity.
Qed.

Lemma convert_loop_from (post pre : image) (acc : list Z) :
  convert_loop (tobytes (pre ++ post))
               (map (fun k => 0 + Z.of_nat k * 3) (seq (length pre) (length post))) acc
  = Ok (acc ++ flat_map step_items post).
Proof.
  revert pre acc. induction post as [ | p post IH]; intros pre acc.
  - simpl. rewrite app_nil_r. reflexivity.
  - cbn [length seq map convert_loop]. rewrite Z.add_0_l.
    rewrite convert_step_at. cbn [bind].
    replace (pre ++ p :: post) with ((pre ++ [p]) ++ post)
      by (rewrite <- app_assoc; reflexivity).
    replace (S (length pre)) with (length (pre ++ [p]))
      by (rewrite length_app; simpl; lia).
    rewrite IH. cbn [flat_map]. rewrite app_assoc. reflexivity.
Qed.

Lemma range3_tobytes (img : image) :
  range3 0 (len (tobytes img)) 3
  = map (fun k => 0 + Z.of_nat k * 3) (seq 0 (length img)).
Proof.
  unfold range3. rewrite range_len_pos by lia.
  unfold len. rewrite length_tobytes.
  destruct img as [ | p img]; [ reflexivity | ].
  rewrite (proj2 (Z.leb_gt _ _)) by (simpl length; lia).
  replace (Z.to_nat ((Z.of_nat (3 * length (p :: img)) - 0 - 1) / 3 + 1))
    with (length (p :: img)); [ reflexivity | ].
  replace (Z.of_nat (3 * length (p :: img)) - 0 - 1)
    with (2 + (Z.of_nat (length (p :: img)) - 1) * 3) by lia.
  rewrite Z.div_add by lia. change (2 / 3) with 0. lia.
Qed.

Lemma step_items_word (p : pixel) : step_items p = big_endian16 (rgb565_word p).
Proof.
  destruct p as [[r g] b]. unfold step_items, big_endian16, rgb565_word.
  pose proof (byte_int_range r) as Hr.
  pose proof (byte_int_range g) as Hg.
  pose proof (byte_int_range b) as Hb.
  rewrite !Z.shiftr_div_pow2 by lia.
  assert (0 <= byte_int r / 2 ^ 3 < 32) as Hr'
      by (split; [ apply Z.div_pos | apply Z.div_lt_upper_bound ]; lia).
  assert (0 <= byte_int g / 2 ^ 2 < 64) as Hg'
      by (split; [ apply Z.div_pos | apply Z.div_lt_upper_bound ]; lia).
  assert (0 <= byte_int b / 2 ^ 3 < 32) as Hb'
      by (split; [ apply Z.div_pos | apply Z.div_lt_upper_bound ]; lia).
  rewrite pack_fields by assumption.
  change 0xFF with (Z.ones 8). rewrite Z.land_ones by lia.
  reflexivity.
Qed.

Lemma flat_map_step_items (img : image) :
  flat_map step_items img = flat_map (fun p => big_endian16 (rgb565_word p)) img.
Proof.
  induction img as [ | p img IH]; [ reflexivity | ].
  cbn [flat_map]. rewrite IH, step_items_word. reflexivity.
Qed.

Lemma rgb565_word_range (p : pixel) : 0 <= rgb565_word p < 2 ^ 16.
Proof.
  destruct p as [[r g] b]. unfold rgb565_word.
  pose proof (byte_int_range r) as Hr.
  pose proof (byte_int_range g) as Hg.
  pose proof (byte_int_range b) as Hb.
  assert (0 <= byte_int r / 2 ^ 3 < 32)
      by (split; [ apply Z.div_pos | apply Z.div_lt_upper_bound ]; lia).
  assert (0 <= byte_int g / 2 ^ 2 < 64)
      by (split; [ apply Z.div_pos | apply Z.div_lt_upper_bound ]; lia).
  assert (0 <= byte_int b / 2 ^ 3 < 32)
      by (split; [ apply Z.div_pos | apply Z.div_lt_upper_bound ]; lia).
  lia.
Qed.

Lemma big_endian16_range (w : Z) :
  0 <= w < 2 ^ 16 -> Forall (fun z => 0 <= z < 256) (big_endian16 w).
Proof.
  intros Hw. unfold big_endian16. repeat constructor.
  - apply Z.div_pos; lia.
  - apply Z.div_lt_upper_bound; lia.
  - apply Z.mod_pos_bound; lia.
  - apply Z.mod_pos_bound; lia.
Qed.

Lemma bytes_of_ints_in_range (l : list Z) :
  Forall (fun z => 0 <= z < 256) l ->
  exists out, bytes_of_ints l = Ok out /\ map byte_int out = l.
Proof.
  induction 1 as [ | z l Hz _ [out [IH1 IH2]]].
  - exists []. split; reflexivity.
  - cbn [bytes_of_ints].
    rewrite (proj2 (Z.ltb_ge z 0)), (proj2 (Z.ltb_ge 255 z)) by lia.
    cbn [orb].
    destruct (Byte.of_N (Z.to_N z)) as [b | ] eqn:Eb.
    + exists (b :: out). rewrite IH1. cbn [bind map]. split; [ reflexivity | ].
      rewrite IH2. unfold byte_int. rewrite (Byte.to_of_N _ Eb). f_equal. lia.
    + apply Byte.of_N_None_iff in Eb. lia.
Qed.

(** C1.  The converter succeeds on every RGB buffer; its output holds, for
    each pixel in order, the two bytes (high byte first) of the 16-bit
    word whose bits 15..11 are r>>3, bits 10..5 are g>>2 and bits 4..0 are
    b>>3.  Pure white gives 0xFF 0xFF and pure black 0x00 0x00. *)
Theorem convert_to_rgb565_packs_565 (img : image) :
  (exists out,
      _convert_to_rgb565 img = Ok out
      /\ map byte_int out = flat_map (fun p => big_endian16 (rgb565_word p)) img)
  /\ (forall r g b : byte,
        let w := rgb565_word (r, g, b) in
        0 <= w < 2 ^ 16
        /\ w / 2 ^ 11 = Z.shiftr (byte_int r) 3
        /\ (w / 2 ^ 5) mod 2 ^ 6 = Z.shiftr (byte_int g) 2
        /\ w mod 2 ^ 5 = Z.shiftr (byte_int b) 3)
  /\ _convert_to_rgb565 [(Byte.xff, Byte.xff, Byte.xff)] = Ok [Byte.xff; Byte.xff]
  /\ _convert_to_rgb565 [(Byte.x00, Byte.x00, Byte.x00)] = Ok [Byte.x00; Byte.x00].
Proof.
  split; [ | split; [ | split; reflexivity ] ].
  - unfold _convert_to_rgb565.
    rewrite range3_tobytes.
    pose proof (convert_loop_from img [] []) as Hloop.
    cbn [app length] in Hloop. rewrite Hloop. cbn [bind].
    clear Hloop. rewrite flat_map_step_items.
    apply bytes_of_ints_in_range.
    induction img as [ | p img IH]; [ constructor | ].
    cbn [flat_map]. apply Forall_app. split; [ | exact IH ].
    apply big_endian16_range, rgb565_word_range.
  - intros r g b w. subst w.
    split; [ apply rgb565_word_range | ].
    unfold rgb565_word. rewrite !Z.shiftr_div_pow2 by lia.
    pose proof (byte_int_range r) as Hr.
    pose proof (byte_int_range g) as Hg.
    pose proof (byte_int_range b) as Hb.
    assert (0 <= byte_int r / 2 ^ 3 < 32) as Hr'
        by (split; [ apply Z.div_pos | apply Z.div_lt_upper_bound ]; lia).
    assert (0 <= byte_int g / 2 ^ 2 < 64) as Hg'
        by (split; [ apply Z.div_pos | apply Z.div_lt_upper_bound ]; lia).
    assert (0 <= byte_int b / 2 ^ 3 < 32) as Hb'
        by (split; [ apply Z.div_pos | apply Z.div_lt_upper_bound ]; lia).
    set (r' := byte_int r / 2 ^ 3) in *.
    set (g' := byte_int g / 2 ^ 2) in *.
    set (b' := byte_int b / 2 ^ 3) in *.
    split; [ | split ].
    + replace (r' * 2 ^ 11 + g' * 2 ^ 5 + b') with ((g' * 2 ^ 5 + b') + r' * 2 ^ 11) by ring.
      rewrite Z.div_add by lia. rewrite Z.div_small by lia. lia.
    + replace (r' * 2 ^ 11 + g' * 2 ^ 5 + b') with (b' + (r' * 2 ^ 6 + g') * 2 ^ 5)
        by (change (2 ^ 11) with (2 ^ 6 * 2 ^ 5); ring).
      rewrite Z.div_add by lia. rewrite (Z.div_small b') by lia.
      rewrite Z.add_0_l, Z.add_comm, Z.mod_add by lia.
      apply Z.mod_small; lia.
    + replace (r' * 2 ^ 11 + g' * 2 ^ 5 + b') with (b' + (r' * 2 ^ 6 + g') * 2 ^ 5)
        by (change (2 ^ 11) with (2 ^ 6 * 2 ^ 5); ring).
      rewrite Z.mod_add by lia. apply Z.mod_small; lia.
Qed.

End ColorConversion.

Section Chunking.
Import Py Driver.

(** Cutting a list in consecutive blocks of [c] items. *)
Lemma concat_blocks {A} (c n : nat) (l : list A) :
  (length l <= n * c)%nat ->
  concat (map (fun k => firstn c (skipn (k * c) l)) (seq 0 n)) = l.
Proof.
  revert l. induction n as [ | n IH]; intros l Hl.
  - destruct l; [ reflexivity | simpl in Hl; lia ].
  - cbn [seq map concat]. rewrite <- seq_shift, map_map.
    rewrite (map_ext _ (fun k => firstn c (skipn (k * c) (skipn c l)))).
    + rewrite IH by (rewrite length_skipn; lia).
      apply firstn_skipn.
    + intros k. rewrite skipn_skipn. do 2 f_equal. lia.
Qed.

Lemma removelast_map {A B} (f : A -> B) (l : list A) :
  removelast (map f l) = map f (removelast l).
Proof.
  induction l as [ | a [ | b l] IH]; [ reflexivity | reflexivity | ].
  change (f a :: removelast (map f (b :: l)) = f a :: map f (removelast (b :: l))).
  rewrite IH. reflexivity.
Qed.

Lemma removelast_seq (n : nat) : removelast (seq 0 (S n)) = seq 0 n.
Proof. rewrite seq_S. apply removelast_last. Qed.

(** The number of turns of the loop: the blocks cover the data, and all
    but the last start at least a whole block before the end. *)
Lemma range_len_chunks (n : Z) :
  0 <= n ->
  let m := range_len 0 n chunk_size in
  0 <= m /\ n <= m * chunk_size /\ (m = 0 \/ (m - 1) * chunk_size < n).
Proof.
  intros Hn m. subst m. rewrite range_len_pos by reflexivity.
  unfold chunk_size.
  destruct (Z.leb_spec n 0) as [H0 | H0]; [ lia | ].
  rewrite Z.sub_0_r.
  pose proof (Z.div_mod (n - 1) 4096 ltac:(lia)) as Hdm.
  pose proof (Z.mod_pos_bound (n - 1) 4096 ltac:(lia)) as Hmod.
  pose proof (Z.div_pos (n - 1) 4096 ltac:(lia) ltac:(lia)) as Hdiv.
  lia.
Qed.

Lemma slice_block {A} (l : list A) (k : nat) :
  slice l (0 + Z.of_nat k * chunk_size) (0 + Z.of_nat k * chunk_size + chunk_size)
  = firstn 4096 (skipn (k * 4096) l).
Proof.
  unfold slice, slice_bound, chunk_size, len.
  rewrite !(proj2 (Z.ltb_ge _ 0)) by lia.
  set (n := Z.of_nat (length l)).
  destruct (Z.le_gt_cases n (Z.of_nat k * 4096)) as [Hge | Hlt].
  - rewrite !skipn_all2 by lia. rewrite !firstn_nil. reflexivity.
  - replace (Z.to_nat (Z.max 0 (Z.min n (0 + Z.of_nat k * 4096)))) with (k * 4096)%nat by lia.
    destruct (Z.le_gt_cases (Z.of_nat k * 4096 + 4096) n) as [Hfull | Hpart].
    + f_equal. lia.
    + rewrite !firstn_all2; [ reflexivity | | ]; rewrite length_skipn; lia.
Qed.

Lemma image_chunks_blocks (image_data : list byte) :
  image_chunks image_data
  = map (fun k => firstn 4096 (skipn (k * 4096) image_data))
        (seq 0 (Z.to_nat (range_len 0 (len image_data) chunk_size))).
Proof.
  unfold image_chunks, range3. rewrite map_map.
  apply map_ext. intros k. apply slice_block.
Qed.

(** C2.  After the addressing commands, the bus receives the image data
    as a sequence of writes whose payloads, concatenated in order, are
    exactly the input; no payload exceeds 4096 bytes and every payload
    but the last has exactly 4096 bytes. *)
Theorem send_image_data_chunks_exact (image_data : list byte) :
  let chunks := image_chunks image_data in
  _send_image_data image_data
  = [ GpioOutput DC_PIN LOW; SpiWrite [0x2A];
      GpioOutput DC_PIN HIGH; SpiWrite [0x00; 0x00; 0x00; 0xEF];
      GpioOutput DC_PIN LOW; SpiWrite [0x2B];
      GpioOutput DC_PIN HIGH; SpiWrite [0x00; 0x00; 0x01; 0x17];
      GpioOutput DC_PIN LOW; SpiWrite [0x2C];
      GpioOutput DC_PIN HIGH ]
    ++ map (fun chunk => SpiWrite (map byte_int chunk)) chunks
  /\ concat chunks = image_data
  /\ Forall (fun chunk => (length chunk <= 4096)%nat) chunks
  /\ Forall (fun chunk => length chunk = 4096%nat) (removelast chunks).
Proof.
  intros chunks. subst chunks.
  split; [ reflexivity | ].
  rewrite image_chunks_blocks.
  pose proof (range_len_chunks (len image_data) ltac:(unfold len; lia)) as Hm.
  cbv zeta in Hm. destruct Hm as (Hm0 & Hcover & Hlast).
  set (m := range_len 0 (len image_data) chunk_size) in *.
  unfold chunk_size, len in Hcover, Hlast.
  split; [ | split ].
  - apply concat_blocks. lia.
  - apply Forall_map, Forall_forall. intros k _. cbn beta.
    rewrite length_firstn. lia.
  - rewrite removelast_map.
    destruct (Z.to_nat m) as [ | m'] eqn:Em; [ constructor | ].
    rewrite removelast_seq.
    apply Forall_map, Forall_forall. intros k Hk. cbn beta.
    apply elem_of_seq in Hk.
    rewrite length_firstn, length_skipn. lia.
Qed.

End Chunking.

Section HistoryRing.
Import Deque.

Context {A : Type}.

Lemma maxlen_append (d : deque A) (x : A) : maxlen (append d x) = maxlen d.
Proof. reflexivity. Qed.

Lemma items_append (d : deque A) (x : A) :
  items (append d x)
  = if (maxlen d <? S (length (items d)))%nat
    then tl (items d ++ [x]) else items d ++ [x].
Proof.
  unfold append. cbn [items]. rewrite length_app. cbn [length].
  rewrite Nat.add_1_r. reflexivity.
Qed.

Lemma maxlen_pushes (xs : list A) (d : deque A) :
  maxlen (fold_left append xs d) = maxlen d.
Proof.
  revert d. induction xs as [ | x xs IH]; intros d; [ reflexivity | ].
  cbn [fold_left]. rewrite IH. apply maxlen_append.
Qed.

Lemma tl_skipn_snoc (k : nat) (l : list A) (x : A) :
  (k <= length l)%nat -> tl (skipn k l ++ [x]) = skipn (S k) (l ++ [x]).
Proof.
  revert k. induction l as [ | a l IH]; intros k Hk.
  - replace k with 0%nat by (simpl in Hk; lia). reflexivity.
  - destruct k as [ | k].
    + reflexivity.
    + cbn [skipn app]. rewrite <- IH by (simpl in Hk; lia).
      destruct k; reflexivity.
Qed.

(** A deque holds the last [maxlen] items pushed, oldest first. *)
Lemma items_pushes (n : nat) (xs : list A) :
  items (fold_left append xs (new n)) = skipn (length xs - n) xs.
Proof.
  induction xs as [ | x xs IH] using rev_ind; [ reflexivity | ].
  rewrite fold_left_app. cbn [fold_left]. rewrite items_append.
  rewrite maxlen_pushes, IH. cbn [maxlen new].
  rewrite length_app, length_skipn. cbn [length].
  destruct (Nat.ltb_spec n (S (length xs - (length xs - n)))) as [Hfull | Hroom].
  - rewrite tl_skipn_snoc by lia. f_equal. lia.
  - replace (length xs - n)%nat with 0%nat by lia.
    replace (length xs + 1 - n)%nat with 0%nat by lia. reflexivity.
Qed.

(** Whatever is pushed on a deque of capacity 20, it never holds more
    than 20 items; a push on a full deque drops exactly the oldest item
    and keeps the others in order; and after exactly 20 pushes the deque
    reads as the items pushed, oldest first. *)
Lemma ring_fifo (xs : list A) :
  let d := fold_left append xs (new 20) in
  (length (to_list d) <= 20)%nat
  /\ (forall x : A, length (to_list d) = 20%nat ->
                   to_list (append d x) = tl (to_list d) ++ [x])
  /\ (length xs = 20%nat -> to_list d = xs).
Proof.
  intros d. subst d. unfold to_list.
  split; [ | split ].
  - rewrite items_pushes, length_skipn. lia.
  - intros x Hfull. rewrite items_append.
    rewrite maxlen_pushes. cbn [maxlen new]. rewrite Hfull.
    destruct (items (fold_left append xs (new 20))) as [ | a l]; [ discriminate | ].
    reflexivity.
  - intros Hlen. rewrite items_pushes, Hlen. reflexivity.
Qed.

End HistoryRing.

Section DrawingLemmas.
Import Py Display.

Lemma bind_ok {A B} (m : draw A) (f : A -> draw B) (t : list pil_call) (a : A) :
  m = (t, Ok a) -> bind m f = (t ++ calls (f a), outcome (f a)).
Proof.
  intros ->. unfold bind, calls, outcome. destruct (f a). reflexivity.
Qed.

Lemma bind_raise {A B} (m : draw A) (f : A -> draw B) (t : list pil_call) (e : exn) :
  m = (t, Raise e) -> bind m f = (t, Raise e).
Proof. intros ->. reflexivity. Qed.

Lemma draw_eta {A} (m : draw A) : m = (calls m, outcome m).
Proof. destruct m. reflexivity. Qed.

(** A loop whose body never raises runs to its end, and its calls are
    those of its turns in order. *)
Lemma for_ok {A} (l : list A) (body : A -> draw unit) (t : A -> list pil_call) :
  (forall a, In a l -> body a = (t a, Ok tt)) ->
  for_ l body = (flat_map t l, Ok tt).
Proof.
  induction l as [ | a l IH]; intros Hbody; [ reflexivity | ].
  cbn [for_ flat_map].
  rewrite (bind_ok _ _ (t a) tt) by (apply Hbody; left; reflexivity).
  rewrite IH by (intros b Hb; apply Hbody; right; exact Hb).
  reflexivity.
Qed.

(** A loop stops at the first turn that raises. *)
Lemma for_raise_first {A} (a : A) (l : list A) (body : A -> draw unit)
      (t : list pil_call) (e : exn) :
  body a = (t, Raise e) -> for_ (a :: l) body = (t, Raise e).
Proof. intros H. cbn [for_]. apply bind_raise. exact H. Qed.

Lemma getitem_nth {A} (l : list A) (k : nat) (a : A) :
  nth_error l k = Some a -> getitem l (Z.of_nat k) = Ok a.
Proof.
  intros H. unfold getitem.
  rewrite !(proj2 (Z.ltb_ge (Z.of_nat k) 0)) by lia.
  rewrite Nat2Z.id, H. reflexivity.
Qed.

Lemma getitem_last {A} (l : list A) (a : A) : getitem (l ++ [a]) (-1) = Ok a.
Proof.
  unfold getitem, len. cbn [Z.ltb Z.compare].
  rewrite length_app. cbn [length].
  rewrite (proj2 (Z.ltb_ge _ 0)) by lia.
  replace (Z.to_nat (-1 + Z.of_nat (length l + 1))) with (length l + 0)%nat by lia.
  rewrite nth_error_app2 by lia.
  replace (length l + 0 - length l)%nat with 0%nat by lia. reflexivity.
Qed.

Lemma truediv_zero (a b : num) : is_zero b = true -> truediv a b = Raise ZeroDivisionError.
Proof. intros H. unfold truediv. rewrite H. reflexivity. Qed.

Lemma truediv_nonzero (a b : num) :
  is_zero b = false -> truediv a b = Ok (Float (to_Q a / to_Q b)).
Proof. intros H. unfold truediv. rewrite H. reflexivity. Qed.

Lemma is_zero_len {A} (l : list A) : l <> [] -> is_zero (Int (len l)) = false.
Proof.
  intros H. destruct l as [ | a l]; [ congruence | ].
  unfold is_zero, len. cbn [to_Q inject_Z Qnum]. apply Z.eqb_neq.
  cbn [length]. lia.
Qed.

Lemma range_cons (n : Z) : 0 < n -> exists rest, range n = 0 :: rest.
Proof.
  intros Hn. rewrite range_seq.
  destruct (Z.to_nat n) as [ | k] eqn:E; [ lia | ].
  exists (map Z.of_nat (seq 1 k)). reflexivity.
Qed.

End DrawingLemmas.

Section ZeroCeiling.
Import Py Display.

(** The calls with which the line graph of the carousel starts: blanked
    region, grid lines, the two axes. *)
Lemma carousel_frame_ok (x y width height : Z) (color : color) (k : draw unit) :
  (draw_rectangle (Int x) (Int y) (Int (x + width)) (Int (y + height))
                  None None (Some BLACK) >>
   for_ (range3 0 height 20) (fun i =>
     draw_line (Int x) (Int (y + i)) (Int (x + width)) (Int (y + i))
               (Some (30, 30, 30)) (Some 1)) >>
   draw_line (Int x) (Int (y + height)) (Int (x + width)) (Int (y + height))
             (Some color) (Some 2) >>
   draw_line (Int x) (Int y) (Int x) (Int (y + height)) (Some color) (Some 2) >>
   k)
  = (Carousel.frame_calls x y width height color ++ calls k, outcome k).
Proof.
  unfold Carousel.frame_calls.
  erewrite bind_ok by reflexivity.
  rewrite (for_ok _ _ (fun i => [Line (Int x) (Int (y + i)) (Int (x + width))
                                      (Int (y + i)) (30, 30, 30) 1]))
    by reflexivity.
  do 3 (erewrite bind_ok by reflexivity).
  cbn [calls outcome fst snd app].
  rewrite <- !app_assoc. reflexivity.
Qed.

Lemma backdrop_ok (o1 o2 x y width height : Z) (color : color) :
  Premium.backdrop o1 o2 x y width height color
  = (calls (Premium.backdrop o1 o2 x y width height color), Ok tt).
Proof.
  rewrite (draw_eta (Premium.backdrop o1 o2 x y width height color)) at 1.
  f_equal. unfold Premium.backdrop.
  erewrite bind_ok by reflexivity.
  erewrite (for_ok (range _)) by (intros; reflexivity).
  erewrite bind_ok by reflexivity.
  erewrite (for_ok (range3 _ _ _)) by (intros; reflexivity).
  do 4 (erewrite bind_ok by reflexivity).
  reflexivity.
Qed.

(** C5, as the code has it.  With a ceiling of 0 the line graph of the
    carousel and the bar chart of the premium dashboard are no-ops only
    when their guard on the number of samples returns first.  Otherwise
    they draw their frame and then raise [ZeroDivisionError] on the first
    sample they scale. *)
Theorem zero_ceiling_raises_after_frame
        (x y width height : Z) (data : Deque.deque num) (max_val : num)
        (color : color) (animation_frame : Z) :
  is_zero max_val = true ->
  (Deque.len data < 2 ->
   Carousel.draw_graph x y width height data max_val color animation_frame
   = ([], Ok tt))
  /\ (2 <= Deque.len data ->
      Carousel.draw_graph x y width height data max_val color animation_frame
      = (Carousel.frame_calls x y width height color, Raise ZeroDivisionError))
  /\ (Deque.len data < 1 ->
      Premium.draw_bar_chart x y width height data max_val color = ([], Ok tt))
  /\ (1 <= Deque.len data ->
      Premium.draw_bar_chart x y width height data max_val color
      = (calls (Premium.backdrop 25 12 x y width height color),
         Raise ZeroDivisionError)).
Proof.
  intros Hzero. destruct data as [ml values]. unfold Deque.len. cbn [Deque.items].
  split; [ | split; [ | split ] ].
  - intros Hshort. unfold Carousel.draw_graph, Deque.len. cbn [Deque.items].
    rewrite (proj2 (Z.ltb_lt _ 2) Hshort). reflexivity.
  - intros Hlong. unfold Carousel.draw_graph, Deque.len, Deque.to_list.
    cbn [Deque.items].
    rewrite (proj2 (Z.ltb_ge _ 2) Hlong).
    rewrite carousel_frame_ok.
    destruct values as [ | v0 [ | v1 values]];
      [ unfold len in Hlong; simpl in Hlong; lia
      | unfold len in Hlong; simpl in Hlong; lia | ].
    rewrite truediv_nonzero by (apply is_zero_len; discriminate).
    erewrite bind_ok by reflexivity. cbn beta.
    destruct (range_cons (len (v0 :: v1 :: values) - 1)) as [rest Hrest];
      [ unfold len; simpl length; lia | ].
    rewrite Hrest.
    rewrite (bind_raise (for_ (0 :: rest) _) _ [] ZeroDivisionError).
    + cbn [calls outcome fst snd]. rewrite app_nil_r. reflexivity.
    + apply for_raise_first.
      change (getitem (v0 :: v1 :: values) 0) with (Ok v0).
      erewrite bind_ok by reflexivity. cbn beta.
      rewrite truediv_zero by exact Hzero. reflexivity.
  - intros Hempty. unfold Premium.draw_bar_chart, Deque.len. cbn [Deque.items].
    rewrite (proj2 (Z.ltb_lt _ 1) Hempty). reflexivity.
  - intros Hsome. unfold Premium.draw_bar_chart, Deque.len, Deque.to_list.
    cbn [Deque.items].
    rewrite (proj2 (Z.ltb_ge _ 1) Hsome).
    rewrite (bind_ok _ _ _ tt (backdrop_ok 25 12 x y width height color)).
    destruct values as [ | v0 values];
      [ unfold len in Hsome; simpl in Hsome; lia | ].
    rewrite truediv_nonzero by (apply is_zero_len; discriminate).
    erewrite bind_ok by reflexivity. cbn beta.
    change (enumerate (v0 :: values))
      with ((0, v0) :: combine (map Z.of_nat (seq 1 (length values))) values).
    rewrite (for_raise_first _ _ _ [] ZeroDivisionError).
    + cbn [calls outcome fst snd]. rewrite app_nil_r. reflexivity.
    + rewrite truediv_zero by exact Hzero. reflexivity.
Qed.

Lemma for_with_raise_first {A S} (a : A) (l : list A) (s0 : S)
      (body : A -> S -> draw S) (t : list pil_call) (e : exn) :
  body a s0 = (t, Raise e) -> for_with (a :: l) s0 body = (t, Raise e).
Proof. intros H. cbn [for_with]. apply bind_raise. exact H. Qed.

(** The other graphs behave in the same way: with a ceiling of 0 and two
    samples or more, the line graph of the pro carousel and the two area
    graphs of the premium dashboard draw their frame and then raise. *)
Lemma zero_ceiling_other_graphs
      (animation_counter x y width height : Z) (data : Deque.deque num)
      (max_val : num) (color : color) :
  is_zero max_val = true -> 2 <= Deque.len data ->
  CarouselPro.draw_graph animation_counter x y width height data max_val color
  = (Carousel.frame_calls x y width height color, Raise ZeroDivisionError)
  /\ Premium.draw_smooth_area_graph animation_counter x y width height data max_val color
     = (calls (Premium.backdrop 20 10 x y width height color), Raise ZeroDivisionError)
  /\ Premium.draw_filled_area_graph x y width height data max_val color
     = (calls (Premium.backdrop 25 12 x y width height color), Raise ZeroDivisionError).
Proof.
  intros Hzero. destruct data as [ml values]. unfold Deque.len. cbn [Deque.items].
  intros Hlong.
  destruct values as [ | v0 [ | v1 values]];
    [ unfold len in Hlong; simpl in Hlong; lia
    | unfold len in Hlong; simpl in Hlong; lia | ].
  destruct (range_cons (len (v0 :: v1 :: values) - 1)) as [rest Hrest];
    [ unfold len; simpl length; lia | ].
  destruct (range_cons (len (v0 :: v1 :: values))) as [rest' Hrest'];
    [ unfold len; simpl length; lia | ].
  split; [ | split ].
  - unfold CarouselPro.draw_graph, Deque.len, Deque.to_list. cbn [Deque.items].
    rewrite (proj2 (Z.ltb_ge _ 2) Hlong).
    rewrite carousel_frame_ok.
    rewrite truediv_nonzero by (apply is_zero_len; discriminate).
    erewrite bind_ok by reflexivity. cbn beta.
    rewrite Hrest.
    rewrite (bind_raise (for_ (0 :: rest) _) _ [] ZeroDivisionError).
    + cbn [calls outcome fst snd]. rewrite app_nil_r. reflexivity.
    + apply for_raise_first.
      change (getitem (v0 :: v1 :: values) 0) with (Ok v0).
      erewrite bind_ok by reflexivity. cbn beta.
      rewrite truediv_zero by exact Hzero. reflexivity.
  - unfold Premium.draw_smooth_area_graph, Deque.len, Deque.to_list. cbn [Deque.items].
    rewrite (proj2 (Z.ltb_ge _ 2) Hlong).
    rewrite (bind_ok _ _ _ tt (backdrop_ok 20 10 x y width height color)).
    rewrite truediv_nonzero by (apply is_zero_len; discriminate).
    erewrite bind_ok by reflexivity. cbn beta.
    rewrite Hrest'.
    rewrite (bind_raise (for_with (0 :: rest') _ _) _ [] ZeroDivisionError).
    + cbn [calls outcome fst snd]. rewrite app_nil_r. reflexivity.
    + apply for_with_raise_first.
      change (getitem (v0 :: v1 :: values) 0) with (Ok v0).
      erewrite bind_ok by reflexivity. cbn beta.
      rewrite truediv_zero by exact Hzero. reflexivity.
  - unfold Premium.draw_filled_area_graph, Deque.len, Deque.to_list. cbn [Deque.items].
    rewrite (proj2 (Z.ltb_ge _ 2) Hlong).
    rewrite (bind_ok _ _ _ tt (backdrop_ok 25 12 x y width height color)).
    rewrite truediv_nonzero by (apply is_zero_len; discriminate).
    erewrite bind_ok by reflexivity. cbn beta.
    rewrite Hrest.
    rewrite (bind_raise (for_ (0 :: rest) _) _ [] ZeroDivisionError).
    + cbn [calls outcome fst snd]. rewrite app_nil_r. reflexivity.
    + apply for_raise_first.
      change (getitem (v0 :: v1 :: values) 0) with (Ok v0).
      erewrite bind_ok by reflexivity. cbn beta.
      rewrite truediv_zero by exact Hzero. reflexivity.
Qed.

End ZeroCeiling.

Lemma zero_ceiling_raises_after_frame_witness :
  let two := {| Deque.maxlen := 20; Deque.items := [Py.Float (10 # 1); Py.Float (50 # 1)] |} in
  Carousel.draw_graph 15 160 210 110 two (Py.Int 0) Display.RED 0
  = (Carousel.frame_calls 15 160 210 110 Display.RED, Py.Raise Py.ZeroDivisionError)
  /\ Premium.draw_bar_chart 15 160 210 110 two (Py.Int 0) Display.RED
     = (Display.calls (Premium.backdrop 25 12 15 160 210 110 Display.RED),
        Py.Raise Py.ZeroDivisionError).
Proof.
  intros two.
  destruct (zero_ceiling_raises_after_frame 15 160 210 110 two (Py.Int 0) Display.RED 0
              eq_refl) as (_ & Hline & _ & Hbar).
  split.
  - apply Hline. unfold Deque.len, Py.len. simpl. lia.
  - apply Hbar. unfold Deque.len, Py.len. simpl. lia.
Defined.

(** With a ceiling of 0 and two samples the line graph raises, after 9
    calls have reached the drawing surface. *)
Lemma zero_ceiling_line_graph_raises :
  let two := {| Deque.maxlen := 20; Deque.items := [Py.Float (10 # 1); Py.Float (50 # 1)] |} in
  Display.outcome (Carousel.draw_graph 15 160 210 110 two (Py.Int 0) Display.RED 0)
  = Py.Raise Py.ZeroDivisionError
  /\ length (Display.calls
               (Carousel.draw_graph 15 160 210 110 two (Py.Int 0) Display.RED 0))
     = 9%nat.
Proof. vm_compute. split; reflexivity. Qed.

Section ShortHistories.
Import Py Display.

(** C4, as the code has it.  With fewer than two samples the line graphs
    and the area graphs make no call on the drawing surface and return;
    the bar chart does so only with no sample at all, and with one sample
    or more it starts by blanking its region. *)
Theorem graphs_noop_on_short_history
        (animation_counter x y width height : Z) (data : Deque.deque num)
        (max_val : num) (color : color) (animation_frame : Z) :
  (Deque.len data < 2 ->
   Carousel.draw_graph x y width height data max_val color animation_frame = ([], Ok tt)
   /\ CarouselPro.draw_graph animation_counter x y width height data max_val color
      = ([], Ok tt)
   /\ Premium.draw_smooth_area_graph animation_counter x y width height data max_val color
      = ([], Ok tt)
   /\ Premium.draw_filled_area_graph x y width height data max_val color = ([], Ok tt))
  /\ (Deque.len data < 1 ->
      Premium.draw_bar_chart x y width height data max_val color = ([], Ok tt))
  /\ (1 <= Deque.len data ->
      exists rest,
        calls (Premium.draw_bar_chart x y width height data max_val color)
        = Rectangle (Int x) (Int y) (Int (x + width)) (Int (y + height))
                    WHITE (Some BLACK) :: rest).
Proof.
  split; [ | split ].
  - intros Hshort.
    unfold Carousel.draw_graph, CarouselPro.draw_graph,
      Premium.draw_smooth_area_graph, Premium.draw_filled_area_graph.
    rewrite (proj2 (Z.ltb_lt (Deque.len data) 2) Hshort).
    repeat split; reflexivity.
  - intros Hempty. unfold Premium.draw_bar_chart.
    rewrite (proj2 (Z.ltb_lt (Deque.len data) 1) Hempty). reflexivity.
  - intros Hsome. unfold Premium.draw_bar_chart.
    rewrite (proj2 (Z.ltb_ge (Deque.len data) 1) Hsome).
    rewrite (bind_ok _ _ _ tt (backdrop_ok 25 12 x y width height color)).
    cbn [calls fst]. unfold Premium.backdrop.
    erewrite bind_ok by reflexivity. cbn [fst app].
    eexists. reflexivity.
Qed.

End ShortHistories.

Lemma graphs_noop_on_short_history_witness :
  let one := {| Deque.maxlen := 20; Deque.items := [Py.Float (425 # 10)] |} in
  let none := Deque.new 20 in
  Carousel.draw_graph 15 160 210 110 one (Py.Int 100) Display.RED 0 = ([], Py.Ok tt)
  /\ Premium.draw_smooth_area_graph 0 10 148 220 122 one (Py.Int 100) Display.RED
     = ([], Py.Ok tt)
  /\ Premium.draw_bar_chart 10 148 220 122 none (Py.Int 10) Display.WHITE
     = ([], Py.Ok tt)
  /\ exists rest,
      Display.calls (Premium.draw_bar_chart 10 148 220 122 one (Py.Int 100) Display.WHITE)
      = Display.Rectangle (Py.Int 10) (Py.Int 148) (Py.Int 230) (Py.Int 270)
                          Display.WHITE (Some Display.BLACK) :: rest.
Proof.
  intros one none.
  destruct (graphs_noop_on_short_history 0 15 160 210 110 one (Py.Int 100) Display.RED 0)
    as (Hline & _ & _).
  destruct (graphs_noop_on_short_history 0 10 148 220 122 one (Py.Int 100) Display.RED 0)
    as (Harea & _ & _).
  destruct (graphs_noop_on_short_history 0 10 148 220 122 none (Py.Int 10) Display.WHITE 0)
    as (_ & Hbar & _).
  destruct (graphs_noop_on_short_history 0 10 148 220 122 one (Py.Int 100) Display.WHITE 0)
    as (_ & _ & Hdraws).
  split; [ | split; [ | split ] ].
  - apply Hline. reflexivity.
  - apply Harea. reflexivity.
  - apply Hbar. reflexivity.
  - apply Hdraws. discriminate.
Defined.

(** The bar chart of the premium dashboard does draw a history of one
    sample: 53 calls reach the drawing surface, the first of which blanks
    the region. *)
Lemma bar_chart_draws_single_sample :
  let data := {| Deque.maxlen := 20; Deque.items := [Py.Float (5 # 10)] |} in
  Deque.len data = 1
  /\ Display.outcome (Premium.draw_bar_chart 10 148 220 122 data (Py.Int 10) Display.WHITE)
     = Py.Ok tt
  /\ length (Display.calls
               (Premium.draw_bar_chart 10 148 220 122 data (Py.Int 10) Display.WHITE))
     = 53%nat
  /\ Display.calls (Premium.draw_bar_chart 10 148 220 122 data (Py.Int 10) Display.WHITE)
     <> [].
Proof.
  vm_compute. repeat split. discriminate.
Qed.

Section Scaling.
Import Py Display.

Lemma point_x_range (x width n i : Z) :
  0 <= width -> 0 < n -> 0 <= i <= n ->
  x <= CarouselPro.point_x x width n i <= x + width.
Proof.
  intros Hw Hn Hi. unfold CarouselPro.point_x.
  assert (0 <= i * width / n) by (apply Z.div_pos; nia).
  assert (i * width / n <= width)
    by (apply Z.div_le_upper_bound; [ lia | nia ]).
  lia.
Qed.

Lemma point_y_bottom (y height : Z) (ceiling value : num) :
  (to_Q value == 0)%Q -> CarouselPro.point_y y height ceiling value = y + height.
Proof.
  intros Hv. unfold CarouselPro.point_y. cbn [mul to_Q].
  rewrite (int_whole _ 0); [ lia | ].
  rewrite Hv. unfold Qdiv. rewrite !Qmult_0_l. reflexivity.
Qed.

Lemma point_y_top (y height : Z) (ceiling value : num) :
  (0 < to_Q ceiling)%Q -> (to_Q value == to_Q ceiling)%Q ->
  CarouselPro.point_y y height ceiling value = y.
Proof.
  intros Hc Hv. unfold CarouselPro.point_y. cbn [mul to_Q].
  rewrite (int_whole _ height); [ lia | ].
  rewrite Hv. field.
  intros H0. rewrite H0 in Hc. exact (Qlt_irrefl 0 Hc).
Qed.

Lemma getitem_minus1 {A} (l : list A) (d : A) :
  l <> [] -> getitem l (-1) = Ok (List.last l d).
Proof.
  intros Hl. destruct (exists_last Hl) as (l' & a & ->).
  rewrite getitem_last, last_last. reflexivity.
Qed.

Lemma flat_map_of_nat {B} (f : nat -> list B) (l : list nat) :
  flat_map (fun a => f (Z.to_nat a)) (map Z.of_nat l) = flat_map f l.
Proof.
  induction l as [ | k l IH]; [ reflexivity | ].
  cbn [map flat_map]. rewrite IH, Nat2Z.id. reflexivity.
Qed.

(** One turn of the loop of the line graph, for a ceiling that is not 0
    and a region that is not of negative width. *)
Lemma pro_segment_ok (x y width height : Z) (values : list num) (max_val : num)
      (color : color) (k : nat) :
  0 <= width -> is_zero max_val = false -> (S k < length values)%nat ->
  (let point_width := Float (to_Q (Int width) / to_Q (Int (len values))) in
   let i := Z.of_nat k in
   let x1 := x + int (mul (Int i) point_width) in
   let+ vi := lift (getitem values i) in
   let+ ri := lift (truediv vi max_val) in
   let y1 := y + height - int (mul ri (Int height)) in
   let x2 := x + int (mul (Int (i + 1)) point_width) in
   let+ vj := lift (getitem values (i + 1)) in
   let+ rj := lift (truediv vj max_val) in
   let y2 := y + height - int (mul rj (Int height)) in
   if (x <=? x2) && (x1 <=? x + width) then
     draw_line (Int x1) (Int y1) (Int x2) (Int y2) (Some color) (Some 2) >>
     if i mod 4 =? 0 then
       draw_rectangle (Int (x1 - 2)) (Int (y1 - 2)) (Int (x1 + 2)) (Int (y1 + 2))
                      None None (Some color)
     else ret tt
   else ret tt)
  = (CarouselPro.segment_calls x y width height values max_val color k, Ok tt).
Proof.
  intros Hw Hm Hk. cbv zeta.
  assert (0 < len values) as Hn by (unfold len; lia).
  cbn [to_Q].
  rewrite (int_mul_ratio (Z.of_nat k)) by lia.
  rewrite (int_mul_ratio (Z.of_nat k + 1)) by lia.
  rewrite (getitem_nth values k (nth k values (Int 0)))
    by (apply nth_error_nth'; lia).
  erewrite bind_ok by reflexivity. cbn beta.
  rewrite truediv_nonzero by exact Hm.
  erewrite bind_ok by reflexivity. cbn beta.
  replace (Z.of_nat k + 1) with (Z.of_nat (S k)) by lia.
  rewrite (getitem_nth values (S k) (nth (S k) values (Int 0)))
    by (apply nth_error_nth'; lia).
  erewrite bind_ok by reflexivity. cbn beta.
  rewrite truediv_nonzero by exact Hm.
  erewrite bind_ok by reflexivity. cbn beta.
  fold (CarouselPro.point_x x width (len values) (Z.of_nat k)).
  fold (CarouselPro.point_x x width (len values) (Z.of_nat (S k))).
  fold (CarouselPro.point_y y height max_val (nth k values (Int 0))).
  fold (CarouselPro.point_y y height max_val (nth (S k) values (Int 0))).
  pose proof (point_x_range x width (len values) (Z.of_nat k) Hw Hn
                ltac:(unfold len; lia)) as Hx1.
  pose proof (point_x_range x width (len values) (Z.of_nat (S k)) Hw Hn
                ltac:(unfold len; lia)) as Hx2.
  rewrite (proj2 (Z.leb_le x _)) by lia.
  rewrite (proj2 (Z.leb_le _ (x + width))) by lia.
  cbn [andb calls outcome fst snd app].
  unfold CarouselPro.segment_calls. cbv zeta.
  destruct (Z.of_nat k mod 4 =? 0); reflexivity.
Qed.

(** C6.  For a ceiling above 0, a region of width at least 0 and two or
    more samples, the line graph draws its frame, then for each pair of
    consecutive samples a segment whose ends lie at
    [x + i * width / n] across and at [y + height - int((v / ceiling) * height)]
    down, then the marker of the latest sample.  A sample of value 0 lies
    on the bottom edge [y + height], a sample equal to the ceiling on the
    top edge [y], and every sample index lies within the width of the
    region. *)
Theorem line_graph_scaling
        (animation_counter x y width height : Z) (data : Deque.deque num)
        (max_val : num) (color : color) :
  let values := Deque.to_list data in
  let n := len values in
  2 <= n -> 0 <= width -> (0 < to_Q max_val)%Q ->
  CarouselPro.draw_graph animation_counter x y width height data max_val color
  = (Carousel.frame_calls x y width height color
     ++ flat_map (CarouselPro.segment_calls x y width height values max_val color)
                 (seq 0 (length values - 1))
     ++ [CarouselPro.pulse_call animation_counter x y width height values max_val color],
     Ok tt)
  /\ (forall v : num,
        (to_Q v == 0)%Q -> CarouselPro.point_y y height max_val v = y + height)
  /\ (forall v : num,
        (to_Q v == to_Q max_val)%Q -> CarouselPro.point_y y height max_val v = y)
  /\ (forall i : Z,
        0 <= i <= n ->
        x <= CarouselPro.point_x x width n i <= x + width)
  /\ CarouselPro.point_x x width n 0 = x
  /\ CarouselPro.point_x x width n n = x + width.
Proof.
  intros values n. subst n values. unfold Deque.to_list.
  set (values := Deque.items data).
  intros Hn Hw Hc.
  assert (is_zero max_val = false) as Hm by (apply is_zero_false_pos; exact Hc).
  split; [ | split; [ | split; [ | split; [ | split ] ] ] ].
  - unfold CarouselPro.draw_graph, Deque.len, Deque.to_list. fold values.
    rewrite (proj2 (Z.ltb_ge (len values) 2) Hn).
    rewrite carousel_frame_ok.
    assert (values <> []) as Hne
        by (intros E; rewrite E in Hn; unfold len in Hn; simpl in Hn; lia).
    rewrite truediv_nonzero by (apply is_zero_len; exact Hne).
    erewrite bind_ok by reflexivity. cbn beta.
    rewrite range_seq.
    rewrite (for_ok _ _ (fun a => CarouselPro.segment_calls
                                    x y width height values max_val color (Z.to_nat a))).
    + erewrite bind_ok by reflexivity. cbn beta.
      rewrite (proj2 (Z.ltb_lt 0 (len values))) by lia.
      rewrite truediv_nonzero by reflexivity.
      erewrite bind_ok by reflexivity. cbn beta.
      rewrite (getitem_minus1 values (Int 0)) by exact Hne.
      erewrite bind_ok by reflexivity. cbn beta.
      rewrite truediv_nonzero by exact Hm.
      erewrite bind_ok by reflexivity. cbn beta.
      cbn [calls outcome fst snd app].
      rewrite flat_map_of_nat.
      replace (Z.to_nat (len values - 1)) with (length values - 1)%nat
        by (unfold len; lia).
      reflexivity.
    + intros a Ha. apply in_map_iff in Ha. destruct Ha as (k & <- & Hk).
      apply in_seq in Hk. rewrite Nat2Z.id.
      apply (pro_segment_ok x y width height values max_val color k Hw Hm).
      unfold len in Hk. lia.
  - intros v Hv. apply point_y_bottom. exact Hv.
  - intros v Hv. apply point_y_top; assumption.
  - intros i Hi. apply point_x_range; lia.
  - unfold CarouselPro.point_x. rewrite Z.mul_0_l, Z.div_0_l by lia. lia.
  - unfold CarouselPro.point_x. rewrite Z.mul_comm, Z.div_mul by lia. reflexivity.
Qed.

End Scaling.

Lemma line_graph_scaling_witness :
  let data := {| Deque.maxlen := 20; Deque.items := [Py.Float 0; Py.Int 100] |} in
  CarouselPro.draw_graph 0 10 160 220 110 data (Py.Int 100) Display.RED
  = (Carousel.frame_calls 10 160 220 110 Display.RED
     ++ [ Display.Line (Py.Int 10) (Py.Int 270) (Py.Int 120) (Py.Int 160) Display.RED 2;
          Display.Rectangle (Py.Int 8) (Py.Int 268) (Py.Int 12) (Py.Int 272)
                            Display.WHITE (Some Display.RED);
          CarouselPro.pulse_call 0 10 160 220 110 [Py.Float 0; Py.Int 100] (Py.Int 100)
                                 Display.RED ],
     Py.Ok tt)
  /\ CarouselPro.point_y 160 110 (Py.Int 100) (Py.Float 0) = 270
  /\ CarouselPro.point_y 160 110 (Py.Int 100) (Py.Int 100) = 160.
Proof.
  intros data.
  destruct (line_graph_scaling 0 10 160 220 110 data (Py.Int 100) Display.RED)
    as (Hcalls & Hbottom & Htop & _).
  - unfold Py.len. simpl. lia.
  - lia.
  - reflexivity.
  - split; [ | split ].
    + rewrite Hcalls. reflexivity.
    + apply Hbottom. reflexivity.
    + apply Htop. reflexivity.
Defined.

Section ScaleInBinary64.
Import Py Binary64.

Lemma div_eucl_pair (a b : Z) : Z.div_eucl a b = (a / b, a mod b).
Proof. unfold Z.div, Z.modulo. destruct (Z.div_eucl a b). reflexivity. Qed.

(** A finite float divided by itself is 1.0. *)
Lemma div_self (s : bool) (m : positive) (e : Z) :
  div (S754_finite s m e) (S754_finite s m e) = S754_finite false (2 ^ 52) (- 52).
Proof.
  unfold div, SFdiv, SFdiv_core_binary.
  replace (Zdigits2 (Z.pos m) + e - (Zdigits2 (Z.pos m) + e)) with 0 by lia.
  replace (e - e) with 0 by lia.
  change (Z.min (fexp prec emax 0) 0) with (- 53).
  change (0 - - 53) with 53.
  rewrite div_eucl_pair.
  rewrite Z.shiftl_mul_pow2 by lia.
  rewrite (Z.mul_comm (Z.pos m)), Z.div_mul, Z.mod_mul by discriminate.
  assert (new_location (Z.pos m) 0 = loc_Exact) as ->
      by (unfold new_location; destruct (Z.even (Z.pos m)); reflexivity).
  destruct s; reflexivity.
Qed.

Lemma all_heights_spec (n : nat) (check : Z -> bool) (h : Z) :
  all_heights n check = true -> 0 <= h <= Z.of_nat n -> check h = true.
Proof.
  unfold all_heights. rewrite forallb_forall. intros Hall Hh.
  rewrite <- (Z2Nat.id h) by lia. apply Hall. apply in_seq. lia.
Qed.

(** In binary64 too, for every finite ceiling other than 0 and every
    height that fits the panel, a value of 0 is scaled to 0 and a value
    equal to the ceiling is scaled to the height: the two ends of the
    scale are the ones of the exact arithmetic.  In between the two
    arithmetics can differ by one: 57.0 of 100.0 on a height of 100 is
    scaled to 56. *)
Lemma binary64_scale_ends (zero_sign s : bool) (m : positive) (e : Z) (height : Z) :
  0 <= height <= Driver.HEIGHT ->
  scaled (S754_zero zero_sign) (S754_finite s m e) height = Ok 0
  /\ scaled (S754_finite s m e) (S754_finite s m e) height = Ok height
  /\ scaled (of_int 57) (of_int 100) 100 = Ok 56.
Proof.
  intros Hh. split; [ | split; [ | reflexivity ] ].
  - unfold scaled, div, SFdiv.
    pose proof (all_heights_spec 280
      (fun h => match of_int h with
                | S754_zero _ | S754_finite _ _ _ => true
                | _ => false
                end) height ltac:(vm_compute; reflexivity) Hh) as Hfin.
    cbv beta in Hfin.
    destruct (of_int height) as [sh | sh | | sh mh eh]; try discriminate; reflexivity.
  - unfold scaled. rewrite div_self.
    pose proof (all_heights_spec 280
      (fun h => match to_int (mul (S754_finite false (2 ^ 52) (- 52)) (of_int h)) with
                | Ok z => z =? h
                | Raise _ => false
                end) height ltac:(vm_compute; reflexivity) Hh) as Hone.
    cbv beta in Hone.
    destruct (to_int (mul (S754_finite false (2 ^ 52) (- 52)) (of_int height)))
      as [z | err]; [ | discriminate ].
    apply Z.eqb_eq in Hone. subst z. reflexivity.
Qed.

End ScaleInBinary64.

Section PageSequencer.
Import Py Display Carousel.

(** C7.  With at least one page, [update_page] moves to the next page,
    wrapping after the last one, and stores a fresh time stamp when the
    time spent on the page has reached the page duration; otherwise it
    leaves the dashboard as it is.  With two pages or more the page index
    changes exactly when that time has been reached. *)
Theorem update_page_advances_when_due (self : dashboard) (now later : num) :
  let pages_len := len (pages self) in
  let elapsed := (to_Q now - to_Q (page_start_time self))%Q in
  let next := (current_page self + 1) mod pages_len in
  0 < pages_len ->
  ((to_Q (page_duration self) <= elapsed)%Q ->
   update_page now later self = (set_page next later self, Ok tt))
  /\ ((elapsed < to_Q (page_duration self))%Q ->
      update_page now later self = (self, Ok tt))
  /\ (0 <= current_page self < pages_len - 1 -> next = current_page self + 1)
  /\ (current_page self = pages_len - 1 -> next = 0)
  /\ (2 <= pages_len -> 0 <= current_page self < pages_len ->
      (current_page (fst (update_page now later self)) <> current_page self
       <-> (to_Q (page_duration self) <= elapsed)%Q)).
Proof.
  intros pages_len elapsed next Hlen.
  assert (forall b : bool,
             ge (sub now (page_start_time self)) (page_duration self) = b ->
             if b then (to_Q (page_duration self) <= elapsed)%Q
             else (elapsed < to_Q (page_duration self))%Q) as Hge.
  { intros [ | ] Hb.
    - apply ge_spec in Hb. rewrite to_Q_sub in Hb. exact Hb.
    - apply ge_false in Hb. rewrite to_Q_sub in Hb. exact Hb. }
  assert ((to_Q (page_duration self) <= elapsed)%Q ->
          update_page now later self = (set_page next later self, Ok tt)) as Hdue.
  { intros Hd. unfold update_page.
    destruct (ge (sub now (page_start_time self)) (page_duration self)) eqn:E.
    - unfold mod_. fold pages_len.
      rewrite (proj2 (Z.eqb_neq pages_len 0)) by lia. reflexivity.
    - specialize (Hge false eq_refl). cbv iota in Hge.
      exfalso. exact (Qlt_not_le _ _ Hge Hd). }
  assert ((elapsed < to_Q (page_duration self))%Q ->
          update_page now later self = (self, Ok tt)) as Hnot.
  { intros Hd. unfold update_page.
    destruct (ge (sub now (page_start_time self)) (page_duration self)) eqn:E.
    - specialize (Hge true eq_refl). cbv iota in Hge.
      exfalso. exact (Qlt_not_le _ _ Hd Hge).
    - reflexivity. }
  split; [ exact Hdue | split; [ exact Hnot | split; [ | split ] ] ].
  - intros Hcur. subst next. apply Z.mod_small. lia.
  - intros Hcur. subst next. rewrite Hcur.
    replace (pages_len - 1 + 1) with pages_len by lia. apply Z.mod_same. lia.
  - intros Hmany Hcur.
    destruct (Qlt_le_dec elapsed (to_Q (page_duration self))) as [Hlt | Hle].
    + rewrite (Hnot Hlt). cbn [fst]. split.
      * intros Hneq. congruence.
      * intros Hle. exfalso. exact (Qlt_not_le _ _ Hlt Hle).
    + rewrite (Hdue Hle). cbn [fst set_page current_page]. split.
      * intros _. exact Hle.
      * intros _. subst next.
        destruct (Z.eq_dec (current_page self) (pages_len - 1)) as [Elast | Enot].
        -- rewrite Elast. replace (pages_len - 1 + 1) with pages_len by lia.
           rewrite Z.mod_same by lia. lia.
        -- rewrite Z.mod_small by lia. lia.
Qed.

End PageSequencer.

Lemma update_page_advances_when_due_witness :
  let self := Carousel.set_page 4 (Py.Float (1000 # 1)) (Carousel.init (Py.Int 5) (Py.Float 0)) in
  Carousel.update_page (Py.Float (1005 # 1)) (Py.Float (10051 # 10)) self
  = (Carousel.set_page 0 (Py.Float (10051 # 10)) self, Py.Ok tt)
  /\ Carousel.update_page (Py.Float (10049 # 10)) (Py.Float (1005 # 1)) self
     = (self, Py.Ok tt).
Proof.
  intros self.
  destruct (update_page_advances_when_due self (Py.Float (1005 # 1)) (Py.Float (10051 # 10)))
    as (Hdue & _); [ reflexivity | ].
  destruct (update_page_advances_when_due self (Py.Float (10049 # 10)) (Py.Float (1005 # 1)))
    as (_ & Hnot & _); [ reflexivity | ].
  split.
  - apply Hdue. unfold self. cbn. unfold Qle. cbn. lia.
  - apply Hnot. unfold self. cbn. unfold Qlt. cbn. lia.
Defined.

Section Collectors.
Import Py Metrics Carousel.

Lemma andthen_benign (a b : method) :
  (forall self, benign (a self)) -> (forall self, benign (b self)) ->
  forall self, benign (andthen a b self).
Proof.
  intros Ha Hb self. unfold andthen. specialize (Ha self).
  destruct (a self) as [self' [u | e]]; [ apply Hb | exact Ha ].
Qed.

Lemma guarded_benign (body : method) (self : dashboard) :
  benign (body self) -> snd (guarded body self) = Ok tt.
Proof.
  unfold benign, guarded. destruct (body self) as [self' [[] | e]]; cbn [snd].
  - reflexivity.
  - intros ->. reflexivity.
Qed.

Lemma record_history_benign (key : string) (self : dashboard) :
  benign (record_history key self).
Proof.
  unfold benign, record_history.
  destruct (history self !! key) as [d | ]; [ | reflexivity ].
  destruct (stats self !! key) as [[n | t | m] | ]; cbn [snd]; try reflexivity; exact I.
Qed.

Lemma store_stat_benign (key : string) (value : result pyval) (self : dashboard) :
  (exists v, value = Ok v) -> benign (store_stat key value self).
Proof. intros [v ->]. exact I. Qed.

Lemma guarded_collector {A} (source : result A) (default : A) :
  resolves_or_fails source = true ->
  exists v, try_except_Exception source default = Ok v.
Proof.
  destruct source as [a | e]; cbn [resolves_or_fails try_except_Exception].
  - intros _. exists a. reflexivity.
  - intros ->. exists default. reflexivity.
Qed.

Lemma bare_collector {A} (body : result A) (default : A) :
  exists v, try_except_all body default = Ok v.
Proof.
  destruct body as [a | e]; [ exists a | exists default ]; reflexivity.
Qed.

Lemma rof_bind {A B} (m : result A) (f : A -> result B) :
  resolves_or_fails m = true ->
  (forall a, m = Ok a -> resolves_or_fails (f a) = true) ->
  resolves_or_fails (bind m f) = true.
Proof.
  destruct m as [a | e]; cbn [bind resolves_or_fails]; intros Hm Hf.
  - apply Hf. reflexivity.
  - exact Hm.
Qed.

Lemma rof_float_at (tokens : list (result num)) (i : Z) :
  forallb resolves_or_fails tokens = true ->
  resolves_or_fails (float_at tokens i) = true.
Proof.
  intros Hall. unfold float_at, getitem.
  destruct (_ <? 0); [ reflexivity | ].
  destruct (nth_error tokens _) as [token | ] eqn:E; [ | reflexivity ].
  cbn [bind]. rewrite forallb_forall in Hall. apply Hall.
  apply nth_error_In in E. exact E.
Qed.

Lemma rof_truediv (a b : num) : resolves_or_fails (truediv a b) = true.
Proof. unfold truediv. destruct (is_zero b); reflexivity. Qed.

Lemma rof_dict_get {V} (d : gmap string V) (key : string) :
  resolves_or_fails (dict_get d key) = true.
Proof. unfold dict_get. destruct (d !! key); reflexivity. Qed.

Lemma rof_read_meminfo (lines : list (result (string * Z))) (meminfo : gmap string Z) :
  forallb resolves_or_fails lines = true ->
  resolves_or_fails (read_meminfo lines meminfo) = true.
Proof.
  revert meminfo. induction lines as [ | line lines IH]; intros meminfo Hall.
  - reflexivity.
  - cbn [forallb] in Hall. apply andb_true_iff in Hall. destruct Hall as [Hl Hall].
    cbn [read_meminfo]. apply rof_bind; [ exact Hl | ].
    intros entry _. apply IH. exact Hall.
Qed.

Ltac rof_steps :=
  repeat first
    [ reflexivity
    | apply rof_truediv
    | apply rof_dict_get
    | apply rof_bind; [ | intros ? _ ] ].

Lemma get_cpu_usage_returns (stat_line : result (list (result num))) :
  items_resolve_or_fail stat_line = true -> exists v, get_cpu_usage stat_line = Ok v.
Proof.
  intros H. unfold get_cpu_usage. apply guarded_collector.
  destruct stat_line as [tokens | e]; [ | exact H ].
  cbn [bind]. cbn [items_resolve_or_fail] in H.
  repeat (apply rof_bind; [ apply rof_float_at; exact H | intros ? _ ]).
  rof_steps.
Qed.

Lemma get_memory_usage_returns (lines : result (list (result (string * Z)))) :
  items_resolve_or_fail lines = true -> exists v, get_memory_usage lines = Ok v.
Proof.
  intros H. unfold get_memory_usage. apply guarded_collector.
  destruct lines as [lines | e]; [ | exact H ].
  cbn [bind]. cbn [items_resolve_or_fail] in H.
  apply rof_bind; [ apply rof_read_meminfo; exact H | intros meminfo _ ].
  rof_steps.
Qed.

Lemma get_temperature_returns (millidegrees : result Z) :
  resolves_or_fails millidegrees = true -> exists v, get_temperature millidegrees = Ok v.
Proof.
  intros H. unfold get_temperature. apply guarded_collector.
  apply rof_bind; [ exact H | intros raw _ ]. rof_steps.
Qed.

Lemma get_gpu_temperature_returns (reading : result num) :
  resolves_or_fails reading = true -> exists v, get_gpu_temperature reading = Ok v.
Proof.
  intros H. unfold get_gpu_temperature. apply guarded_collector.
  apply rof_bind; [ exact H | intros temp _ ]. rof_steps.
Qed.

Lemma get_disk_usage_returns (stat : result (Z * Z)) :
  resolves_or_fails stat = true -> exists v, get_disk_usage stat = Ok v.
Proof.
  intros H. unfold get_disk_usage. apply guarded_collector.
  apply rof_bind; [ exact H | intros st _ ]. rof_steps.
Qed.

Lemma get_uptime_returns (seconds : result num) : exists v, get_uptime seconds = Ok v.
Proof. unfold get_uptime. apply bare_collector. Qed.

Lemma get_ip_address_returns (ip : result string) : exists v, get_ip_address ip = Ok v.
Proof. unfold get_ip_address. apply bare_collector. Qed.

Lemma get_hostname_returns (contents : result string) :
  exists v, get_hostname contents = Ok v.
Proof. unfold get_hostname. apply bare_collector. Qed.

(** In a round where no source is interrupted, [update_stats] returns. *)
Lemma update_stats_returns (sys : system) (self : dashboard) :
  no_interrupt sys = true -> snd (update_stats sys self) = Ok tt.
Proof.
  unfold no_interrupt. rewrite !andb_true_iff.
  intros (((((((H1 & H2) & H3) & H4) & H5) & H6) & H7) & H8).
  unfold update_stats. apply guarded_benign.
  repeat (apply andthen_benign; [ intros s; apply store_stat_benign | ]).
  - destruct (get_cpu_usage_returns _ H1) as [v ->]. eexists; reflexivity.
  - destruct (get_memory_usage_returns _ H2) as [v ->]. eexists; reflexivity.
  - destruct (get_temperature_returns _ H3) as [v ->]. eexists; reflexivity.
  - destruct (get_gpu_temperature_returns _ H4) as [v ->]. eexists; reflexivity.
  - destruct (get_disk_usage_returns _ H5) as [v ->]. eexists; reflexivity.
  - destruct (get_uptime_returns (proc_uptime sys)) as [v ->]. eexists; reflexivity.
  - destruct (get_ip_address_returns (socket_ip sys)) as [v ->]. eexists; reflexivity.
  - destruct (get_hostname_returns (etc_hostname sys)) as [v ->]. eexists; reflexivity.
  - repeat (apply andthen_benign; [ intros s; apply record_history_benign | ]).
    intros s. apply record_history_benign.
Qed.

(** A round in which the five collectors of the histories return pushes
    their readings on the five rings and leaves the other fields of the
    dashboard alone. *)
Lemma update_stats_pushes (sys : system) (self : dashboard)
      (cpu memory cpu_temp gpu_temp disk : num) (d1 d2 d3 d4 d5 : Deque.deque num) :
  readings sys = Ok (cpu, memory, cpu_temp, gpu_temp, disk) ->
  history self !! "cpu"%string = Some d1 ->
  history self !! "memory"%string = Some d2 ->
  history self !! "cpu_temp"%string = Some d3 ->
  history self !! "gpu_temp"%string = Some d4 ->
  history self !! "disk"%string = Some d5 ->
  history (fst (update_stats sys self))
  = <["disk"%string := Deque.append d5 disk]>
    (<["gpu_temp"%string := Deque.append d4 gpu_temp]>
    (<["cpu_temp"%string := Deque.append d3 cpu_temp]>
    (<["memory"%string := Deque.append d2 memory]>
    (<["cpu"%string := Deque.append d1 cpu]> (history self)))))
  /\ snd (update_stats sys self) = Ok tt.
Proof.
  unfold readings. intros Hr H1 H2 H3 H4 H5.
  destruct (get_cpu_usage (proc_stat sys)) as [v1 | ] eqn:E1; [ | discriminate ].
  destruct (get_memory_usage (proc_meminfo sys)) as [v2 | ] eqn:E2; [ | discriminate ].
  destruct (get_temperature (thermal_zone0 sys)) as [v3 | ] eqn:E3; [ | discriminate ].
  destruct (get_gpu_temperature (vcgencmd sys)) as [v4 | ] eqn:E4; [ | discriminate ].
  destruct (get_disk_usage (root_disk sys)) as [v5 | ] eqn:E5; [ | discriminate ].
  cbn [bind] in Hr. injection Hr as -> -> -> -> <-.
  unfold update_stats. rewrite E1, E2, E3, E4, E5.
  destruct (get_uptime_returns (proc_uptime sys)) as [up ->].
  destruct (get_ip_address_returns (socket_ip sys)) as [ip ->].
  destruct (get_hostname_returns (etc_hostname sys)) as [host ->].
  cbn [bind]. unfold guarded, andthen, store_stat, record_history.
  cbn [history stats set_stats set_history].
  repeat (rewrite ?lookup_insert_eq, ?lookup_insert_ne by discriminate;
          rewrite ?H1, ?H2, ?H3, ?H4, ?H5;
          cbn [history stats set_stats set_history]).
  cbn [fst snd history]. split; reflexivity.
Qed.

Lemma rounds_push_from (rounds : list system)
      (rs : list (num * num * num * num * num)) (self : dashboard)
      (d1 d2 d3 d4 d5 : Deque.deque num) :
  Forall2 (fun sys r => readings sys = Ok r) rounds rs ->
  history self !! "cpu"%string = Some d1 ->
  history self !! "memory"%string = Some d2 ->
  history self !! "cpu_temp"%string = Some d3 ->
  history self !! "gpu_temp"%string = Some d4 ->
  history self !! "disk"%string = Some d5 ->
  let after := history (rounds_of_update_stats rounds self) in
  after !! "cpu"%string
  = Some (fold_left Deque.append (map (fun '(a, _, _, _, _) => a) rs) d1)
  /\ after !! "memory"%string
     = Some (fold_left Deque.append (map (fun '(_, b, _, _, _) => b) rs) d2)
  /\ after !! "cpu_temp"%string
     = Some (fold_left Deque.append (map (fun '(_, _, c, _, _) => c) rs) d3)
  /\ after !! "gpu_temp"%string
     = Some (fold_left Deque.append (map (fun '(_, _, _, d, _) => d) rs) d4)
  /\ after !! "disk"%string
     = Some (fold_left Deque.append (map (fun '(_, _, _, _, e) => e) rs) d5).
Proof.
  intros Hall. revert self d1 d2 d3 d4 d5.
  induction Hall as [ | sys [[[[a b] c] d] e] rounds rs Hr _ IH];
    intros self d1 d2 d3 d4 d5 H1 H2 H3 H4 H5.
  - cbn. repeat split; assumption.
  - cbn [rounds_of_update_stats fold_left map].
    destruct (update_stats_pushes sys self a b c d e d1 d2 d3 d4 d5 Hr H1 H2 H3 H4 H5)
      as [Hh _].
    apply IH; rewrite Hh;
      repeat (rewrite lookup_insert_ne by discriminate);
      apply lookup_insert_eq.
Qed.

(** From the initial dashboard, each history is the ring of capacity 20
    on which the readings of the rounds were pushed in order. *)
Lemma carousel_histories_are_rings (rounds : list system)
      (rs : list (num * num * num * num * num)) (page_duration now : num) :
  Forall2 (fun sys r => readings sys = Ok r) rounds rs ->
  history (rounds_of_update_stats rounds (init page_duration now)) !! "cpu"%string
  = Some (fold_left Deque.append (map (fun '(a, _, _, _, _) => a) rs) (Deque.new 20)).
Proof.
  intros Hall.
  apply (rounds_push_from rounds rs (init page_duration now)
           (Deque.new 20) (Deque.new 20) (Deque.new 20) (Deque.new 20) (Deque.new 20)
           Hall); reflexivity.
Qed.

(** C3.  The history rings of the carousel, as [__init__] creates them
    and [update_stats] pushes on them.  After any number of rounds that
    obtained their readings, each of the five histories is the ring of
    capacity 20 on which exactly the readings of its own metric were
    pushed, one per round and in the order of the rounds, and a further
    round pushes its reading on it.  The ring never holds more than 20
    samples; a push on a full ring drops exactly the oldest sample and
    keeps the others in order; and after exactly 20 rounds the ring
    reads as the 20 readings, oldest first. *)
Theorem history_ring_fifo (rounds : list system)
        (rs : list (num * num * num * num * num))
        (sys : system) (r : num * num * num * num * num)
        (page_duration now : num)
        (key : string) (column : num * num * num * num * num -> num) :
  Forall2 (fun sys r => readings sys = Ok r) rounds rs ->
  readings sys = Ok r ->
  In (key, column) CarouselRun.history_columns ->
  let self := rounds_of_update_stats rounds (init page_duration now) in
  exists d : Deque.deque num,
    history self !! key = Some d
    /\ d = fold_left Deque.append (map column rs) (Deque.new 20)
    /\ history (fst (update_stats sys self)) !! key = Some (Deque.append d (column r))
    /\ (length (Deque.to_list d) <= 20)%nat
    /\ (length (Deque.to_list d) = 20%nat ->
        Deque.to_list (Deque.append d (column r)) = tl (Deque.to_list d) ++ [column r])
    /\ (length rounds = 20%nat -> Deque.to_list d = map column rs).
Proof.
  intros Hall Hr Hkey self.
  destruct (rounds_push_from rounds rs (init page_duration now)
              (Deque.new 20) (Deque.new 20) (Deque.new 20) (Deque.new 20) (Deque.new 20)
              Hall) as (H1 & H2 & H3 & H4 & H5); try reflexivity.
  fold self in H1, H2, H3, H4, H5.
  destruct r as [[[[a b] c] d0] e].
  destruct (update_stats_pushes sys self a b c d0 e _ _ _ _ _ Hr H1 H2 H3 H4 H5)
    as [Hh _].
  assert (length rounds = length rs) as Hlen
      by (clear - Hall; induction Hall; cbn [length]; congruence).
  assert (forall d : Deque.deque num,
             d = fold_left Deque.append (map column rs) (Deque.new 20) ->
             (length (Deque.to_list d) <= 20)%nat
             /\ (length (Deque.to_list d) = 20%nat ->
                 Deque.to_list (Deque.append d (column (a, b, c, d0, e)))
                 = tl (Deque.to_list d) ++ [column (a, b, c, d0, e)])
             /\ (length rounds = 20%nat -> Deque.to_list d = map column rs)) as Hring.
  { intros d ->.
    destruct (ring_fifo (map column rs)) as (Hle & Hpush & Hread).
    split; [ exact Hle | split; [ apply Hpush | ] ].
    intros H20. apply Hread. rewrite length_map. congruence. }
  unfold CarouselRun.history_columns in Hkey. cbn [In] in Hkey.
  destruct Hkey as [Hk | [Hk | [Hk | [Hk | [Hk | []]]]]];
    injection Hk as <- <-; eexists;
    (split; [ eassumption | split; [ reflexivity | split; [ | apply Hring; reflexivity ] ] ]);
    rewrite Hh; repeat (rewrite lookup_insert_ne by discriminate);
    rewrite lookup_insert_eq; reflexivity.
Qed.

(** C8, as the code has it.  When its source fails with an error that
    derives from [Exception], every collector returns its default instead
    of raising: 0.0 for the CPU, memory and the two temperatures, a
    dictionary of zeros for the disk, "RPi5" for the host name, "N/A" for
    the uptime and the IP address.  A round of [update_stats] in which
    every source resolves or fails in that way returns normally. *)
Theorem collectors_return_defaults (e : exn) :
  is_Exception e = true ->
  get_cpu_usage (Raise e) = Ok (Float 0)
  /\ get_memory_usage (Raise e) = Ok (Float 0)
  /\ get_temperature (Raise e) = Ok (Float 0)
  /\ get_gpu_temperature (Raise e) = Ok (Float 0)
  /\ get_disk_usage (Raise e) = Ok {| percent := Int 0; used := Int 0; total := Int 0 |}
  /\ get_hostname (Raise e) = Ok "RPi5"%string
  /\ get_uptime (Raise e) = Ok "N/A"%string
  /\ get_ip_address (Raise e) = Ok "N/A"%string
  /\ (forall (sys : system) (self : dashboard),
        no_interrupt sys = true -> snd (update_stats sys self) = Ok tt).
Proof.
  intros He.
  unfold get_cpu_usage, get_memory_usage, get_temperature, get_gpu_temperature,
    get_disk_usage, try_except_Exception.
  cbn [bind]. rewrite He.
  repeat (split; [ reflexivity | ]).
  exact update_stats_returns.
Qed.

End Collectors.

Lemma history_ring_fifo_witness :
  let sys := fun k : Z =>
    {| Metrics.proc_stat := Py.Raise Py.OSError; Metrics.proc_meminfo := Py.Raise Py.OSError;
       Metrics.thermal_zone0 := Py.Ok (1000 * k); Metrics.vcgencmd := Py.Raise Py.OSError;
       Metrics.root_disk := Py.Raise Py.OSError; Metrics.proc_uptime := Py.Raise Py.OSError;
       Metrics.socket_ip := Py.Raise Py.OSError;
       Metrics.etc_hostname := Py.Raise Py.OSError |} in
  let degrees := fun k : Z => Py.Float (10 * k # 10) in
  let after20 :=
    Carousel.rounds_of_update_stats (map sys (map Z.of_nat (seq 1 20)))
                                    (Carousel.init (Py.Int 5) (Py.Int 0)) in
  exists d : Deque.deque Py.num,
    Carousel.history after20 !! "cpu_temp"%string = Some d
    /\ Deque.to_list d = map degrees (map Z.of_nat (seq 1 20))
    /\ Carousel.history (fst (Carousel.update_stats (sys 21) after20)) !! "cpu_temp"%string
       = Some (Deque.append d (degrees 21))
    /\ Deque.to_list (Deque.append d (degrees 21)) = map degrees (map Z.of_nat (seq 2 20)).
Proof.
  intros sys degrees after20.
  destruct (history_ring_fifo
              (map sys (map Z.of_nat (seq 1 20)))
              (map (fun k => (Py.Float 0, Py.Float 0, degrees k, Py.Float 0, Py.Int 0))
                   (map Z.of_nat (seq 1 20)))
              (sys 21) (Py.Float 0, Py.Float 0, degrees 21, Py.Float 0, Py.Int 0)
              (Py.Int 5) (Py.Int 0)
              "cpu_temp"%string (fun '(_, _, cpu_temp, _, _) => cpu_temp))
    as (d & Hd & _ & Hnext & _ & Hpush & Hread).
  - cbn [map seq]. repeat constructor.
  - reflexivity.
  - right. right. left. reflexivity.
  - fold after20 in Hd, Hnext. exists d.
    assert (Deque.to_list d = map degrees (map Z.of_nat (seq 1 20))) as Hlist
        by (rewrite Hread; reflexivity).
    split; [ exact Hd | split; [ exact Hlist | split; [ exact Hnext | ] ] ].
    rewrite Hpush by (rewrite Hlist; reflexivity).
    rewrite Hlist. reflexivity.
Defined.

Lemma collectors_return_defaults_witness :
  Metrics.get_gpu_temperature (Py.Raise Py.CalledProcessError) = Py.Ok (Py.Float 0)
  /\ Metrics.get_hostname (Py.Raise Py.OSError) = Py.Ok "RPi5"%string
  /\ snd (Carousel.update_stats (Metrics.all_fail Py.OSError)
                                (Carousel.init (Py.Int 5) (Py.Float 0)))
     = Py.Ok tt.
Proof.
  destruct (collectors_return_defaults Py.CalledProcessError eq_refl)
    as (_ & _ & _ & Hgpu & _).
  destruct (collectors_return_defaults Py.OSError eq_refl)
    as (_ & _ & _ & _ & _ & Hhost & _ & _ & Hround).
  split; [ exact Hgpu | split; [ exact Hhost | ] ].
  apply Hround. reflexivity.
Defined.

(** The defaults also cover a source that resolves to something the
    body cannot use: a /proc/stat line that is too short, a total of 0
    ticks, a /proc/meminfo without [MemTotal], a disk of size 0. *)
Lemma collectors_recover_from_unusable_sources :
  Metrics.get_cpu_usage (Py.Ok [Py.Raise Py.ValueError; Py.Ok (Py.Float 100)])
  = Py.Ok (Py.Float 0)
  /\ Metrics.get_cpu_usage
       (Py.Ok [Py.Raise Py.ValueError; Py.Ok (Py.Float 0); Py.Ok (Py.Float 0);
               Py.Ok (Py.Float 0); Py.Ok (Py.Float 0); Py.Ok (Py.Float 0)])
     = Py.Ok (Py.Float 0)
  /\ Metrics.get_memory_usage (Py.Ok [Py.Ok ("MemFree"%string, 6000)]) = Py.Ok (Py.Float 0)
  /\ Metrics.get_disk_usage (Py.Ok (0, 0))
     = Py.Ok {| Metrics.percent := Py.Int 0; Metrics.used := Py.Int 0;
                Metrics.total := Py.Int 0 |}.
Proof. repeat split; reflexivity. Qed.

(** When /etc/hostname cannot be read, [get_hostname] returns "RPi5",
    which is neither 0 nor "N/A". *)
Lemma hostname_default_is_RPi5 :
  Metrics.get_hostname (Py.Raise Py.OSError) = Py.Ok "RPi5"%string
  /\ Metrics.get_hostname (Py.Raise Py.OSError) <> Py.Ok "N/A"%string
  /\ Metrics.get_hostname (Py.Raise Py.OSError) <> Py.Ok "0"%string.
Proof. repeat split; discriminate. Qed.

Section Uptime.
Import Py Metrics.

(** C10.  For an uptime of [s >= 0] whole seconds, [get_uptime] returns
    "{d}d {h}h" when d > 0, else "{h}h {m}m" when h > 0, else "{m}m", where
    d = s // 86400, h = (s % 86400) // 3600 and m = (s % 3600) // 60; these
    are the whole days of [s], the hours of the day and the minutes of the
    hour; and the text depends on [s] alone. *)
Theorem get_uptime_text (seconds : num) :
  let s := int seconds in
  0 <= s ->
  get_uptime (Ok seconds) = Ok (uptime_text s)
  /\ (forall other : num, int other = s -> get_uptime (Ok other) = get_uptime (Ok seconds))
  /\ 0 <= s / 86400
  /\ 0 <= (s mod 86400) / 3600 < 24
  /\ 0 <= (s mod 3600) / 60 < 60
  /\ s = (s / 86400) * 86400 + ((s mod 86400) / 3600) * 3600
         + ((s mod 3600) / 60) * 60 + s mod 60.
Proof.
  intros s Hs.
  assert (forall x : num, get_uptime (Ok x) = Ok (uptime_text (int x))) as Heq.
  { intros x. unfold get_uptime, uptime_text. cbn [bind try_except_all].
    destruct (0 <? int x / 86400); [ reflexivity | ].
    destruct (0 <? int x mod 86400 / 3600); reflexivity. }
  split; [ apply Heq | ].
  split; [ intros other Ho; rewrite !Heq, Ho; reflexivity | ].
  repeat split; Z.div_mod_to_equations; lia.
Qed.

End Uptime.

Lemma get_uptime_text_witness :
  Metrics.get_uptime (Py.Ok (Py.Float (9006142 # 100))) = Py.Ok "1d 1h"%string
  /\ Metrics.get_uptime (Py.Ok (Py.Float (370099 # 100))) = Py.Ok "1h 1m"%string
  /\ Metrics.get_uptime (Py.Ok (Py.Int 59)) = Py.Ok "0m"%string.
Proof.
  destruct (get_uptime_text (Py.Float (9006142 # 100))) as [H1 _]; [ vm_compute; discriminate | ].
  destruct (get_uptime_text (Py.Float (370099 # 100))) as [H2 _]; [ vm_compute; discriminate | ].
  destruct (get_uptime_text (Py.Int 59)) as [H3 _]; [ vm_compute; discriminate | ].
  split; [ exact H1 | split; [ exact H2 | exact H3 ] ].
Defined.

Section ProgressBars.
Import Py Display.

Lemma to_Q_min_100 (value : num) :
  (0 <= to_Q value)%Q ->
  (0 <= to_Q (min value (Int 100)) <= inject_Z 100)%Q.
Proof.
  intros Hv. unfold min.
  destruct (lt (Int 100) value) eqn:E.
  - cbn [to_Q]. split; [ discriminate | apply Qle_refl ].
  - split; [ exact Hv | ].
    unfold lt in E. apply negb_false_iff in E.
    apply Qle_bool_iff in E. exact E.
Qed.

Lemma int_nonpositive (q : Q) : (q <= 0)%Q -> int (Float q) <= 0.
Proof.
  destruct q as [n d]. unfold Qle, int. cbn [Qnum Qden]. intros H.
  replace n with (- (- n)) by lia.
  rewrite Z.quot_opp_l by discriminate.
  pose proof (Z.quot_pos (- n) (Z.pos d) ltac:(lia) ltac:(lia)). lia.
Qed.

(** The fill of a bar stays within the bar. *)
Lemma fill_width_range (bar_width : Z) (value : num) :
  (0 <= to_Q value)%Q ->
  Stats.fill_width bar_width value <= Z.max 0 (bar_width - 2)
  /\ (2 <= bar_width -> 0 <= Stats.fill_width bar_width value).
Proof.
  intros Hv. unfold Stats.fill_width.
  destruct (to_Q_min_100 value Hv) as [Hlo Hhi].
  set (m := min value (Int 100)) in *.
  assert (to_Q (mul (Int (bar_width - 2)) m) / to_Q (Int 100)
          == inject_Z (bar_width - 2) * (to_Q m / inject_Z 100))%Q as Hq.
  { rewrite to_Q_mul. cbn [to_Q]. field. }
  assert (0 <= to_Q m / inject_Z 100 <= 1)%Q as [Hr0 Hr1].
  { split.
    - apply Qle_shift_div_l; [ reflexivity | ]. rewrite Qmult_0_l. exact Hlo.
    - apply Qle_shift_div_r; [ reflexivity | ]. rewrite Qmult_1_l. exact Hhi. }
  set (r := (to_Q m / inject_Z 100)%Q) in *.
  destruct (Z.le_gt_cases 2 bar_width) as [Hwide | Hnarrow].
  - assert (0 <= inject_Z (bar_width - 2))%Q as Hb
        by (unfold Qle; cbn [Qnum Qden inject_Z]; lia).
    assert (0 <= inject_Z (bar_width - 2) * r)%Q as Hnn
        by (apply Qmult_le_0_compat; assumption).
    rewrite int_floor by (rewrite Hq; exact Hnn).
    rewrite Hq. split.
    + rewrite Z.max_r by lia.
      rewrite <- (Qfloor_Z (bar_width - 2)) at 2. apply Qfloor_resp_le.
      apply Qle_trans with (1 * inject_Z (bar_width - 2))%Q.
      * rewrite Qmult_comm. apply Qmult_le_compat_r; assumption.
      * rewrite Qmult_1_l. apply Qle_refl.
    + intros _. change 0 with (Qfloor (inject_Z 0)).
      apply Qfloor_resp_le. exact Hnn.
  - split; [ | lia ].
    rewrite Z.max_l by lia. apply int_nonpositive. rewrite Hq.
    assert (inject_Z (bar_width - 2) <= 0)%Q as Hb
        by (unfold Qle; cbn [Qnum Qden inject_Z]; lia).
    apply Qle_trans with (0 * r)%Q.
    + apply Qmult_le_compat_r; assumption.
    + rewrite Qmult_0_l. apply Qle_refl.
Qed.

(** C9.  For a value that is not negative, both stat rows draw their
    texts and the outline of the bar, and then a fill whose right edge is
    [bar_x + int((bar_width - 2) * min(value, 100) / 100)], only when that
    width is above 0.  The width is never above [bar_width - 2], so the
    fill ends before the right edge of the outline. *)
Theorem progress_bar_fill_clamped
        (repr_float : Q -> string) (x y width : Z) (label unit : string) (value : num)
        (threshold : option (num * num))
        (color_normal color_warn color_crit : color) :
  (0 <= to_Q value)%Q ->
  let fill := Stats.fill_width 115 value in
  let fill' := Stats.fill_width width value in
  Stats.draw_stats_row repr_float y label value unit threshold
  = ([ Text (Int 5) (Int y) (label +:+ ":") font_small CYAN "lt";
       Text (Int 70) (Int y) (Stats.format_num repr_float value +:+ unit) font_small
            (Stats.get_color_for_value value threshold) "lt";
       Rectangle (Int 120) (Int (y - 1)) (Int (120 + 115)) (Int (y + 6 - 1)) WHITE None ]
     ++ (if 0 <? fill
         then [ Rectangle (Int (120 + 1)) (Int y) (Int (120 + fill)) (Int (y + 6 - 2))
                          WHITE (Some (Stats.get_color_for_value value threshold)) ]
         else []),
     Ok tt)
  /\ 0 <= fill <= 115 - 2
  /\ StatsEnhanced.draw_full_stat_bar repr_float x y width label value unit
                                      color_normal color_warn color_crit
     = ([ Text (Int x) (Int y) (label +:+ ":") font_small CYAN "lt";
          Text (Int (x + 70)) (Int y) (Stats.format_num repr_float value +:+ unit)
               font_small (StatsEnhanced.get_color_for_value value None) "lt";
          Rectangle (Int x) (Int (y + 10)) (Int (x + width)) (Int (y + 10 + 8))
                    WHITE (Some BLACK) ]
        ++ (if 0 <? fill'
            then [ Rectangle (Int (x + 1)) (Int (y + 10 + 1)) (Int (x + fill'))
                             (Int (y + 10 + 8 - 1)) WHITE
                             (Some (if ge value (Int 80) then color_crit
                                    else if ge value (Int 50) then color_warn
                                    else color_normal)) ]
            else []),
        Ok tt)
  /\ fill' <= Z.max 0 (width - 2)
  /\ (0 < fill' -> x + fill' <= x + width - 2).
Proof.
  intros Hv fill fill'.
  destruct (fill_width_range 115 value Hv) as [Hhi Hlo].
  destruct (fill_width_range width value Hv) as [Hhi' _].
  fold fill in Hhi, Hlo. fold fill' in Hhi'.
  split; [ | split; [ | split; [ | split ] ] ].
  - unfold Stats.draw_stats_row.
    do 3 (erewrite bind_ok by reflexivity).
    rewrite truediv_nonzero by reflexivity.
    erewrite bind_ok by reflexivity. cbn beta.
    fold (Stats.fill_width 115 value). fold fill.
    cbn [calls outcome fst snd app].
    destruct threshold as [t | ]; destruct (0 <? fill); reflexivity.
  - lia.
  - unfold StatsEnhanced.draw_full_stat_bar.
    do 3 (erewrite bind_ok by reflexivity).
    rewrite truediv_nonzero by reflexivity.
    erewrite bind_ok by reflexivity. cbn beta.
    fold (Stats.fill_width width value). fold fill'.
    cbn [calls outcome fst snd app].
    destruct (0 <? fill'); reflexivity.
  - exact Hhi'.
  - lia.
Qed.

End ProgressBars.

Lemma progress_bar_fill_clamped_witness :
  let repr := fun _ : Q => "123.4"%string in
  Stats.draw_stats_row repr 28 "CPU" (Py.Float (1234 # 10)) "%" None
  = ([ Display.Text (Py.Int 5) (Py.Int 28) "CPU:" Display.font_small Display.CYAN "lt";
       Display.Text (Py.Int 70) (Py.Int 28) "123.4%" Display.font_small Display.RED "lt";
       Display.Rectangle (Py.Int 120) (Py.Int 27) (Py.Int 235) (Py.Int 33)
                         Display.WHITE None;
       Display.Rectangle (Py.Int 121) (Py.Int 28) (Py.Int 233) (Py.Int 32)
                         Display.WHITE (Some Display.RED) ],
     Py.Ok tt)
  /\ Stats.fill_width 115 (Py.Float (1234 # 10)) = 113.
Proof.
  intros repr.
  destruct (progress_bar_fill_clamped repr 5 28 230 "CPU" "%" (Py.Float (1234 # 10)) None
              Display.GREEN Display.YELLOW Display.RED)
    as (Hrow & _); [ discriminate | ].
  split; [ rewrite Hrow; reflexivity | reflexivity ].
Defined.

(* ===================================================================== *)
(** * Part III. Further properties of the code *)
(* ===================================================================== *)

(** ** The frame on the bus *)

Section FrameTransfer.
Import Py Driver.

Lemma byte_int_inj (a b : byte) : byte_int a = byte_int b -> a = b.
Proof.
  unfold byte_int. intros H. apply N2Z.inj in H.
  pose proof (Byte.of_to_N a) as Ha. pose proof (Byte.of_to_N b) as Hb.
  rewrite H in Ha. congruence.
Qed.

Lemma map_byte_int_inj (l l' : list byte) : map byte_int l = map byte_int l' -> l = l'.
Proof.
  revert l'. induction l as [ | a l IH]; intros [ | b l'] H; try discriminate.
  - reflexivity.
  - cbn [map] in H. injection H as Hab Hl.
    f_equal; [ apply byte_int_inj; exact Hab | apply IH; exact Hl ].
Qed.

(** The converter returns on every image, with the two bytes of each
    pixel's word in order. *)
Lemma convert_returns (img : image) :
  exists out,
    _convert_to_rgb565 img = Ok out
    /\ map byte_int out = flat_map (fun p => big_endian16 (rgb565_word p)) img.
Proof.
  unfold _convert_to_rgb565.
  rewrite range3_tobytes.
  pose proof (convert_loop_from img [] []) as Hloop.
  cbn [app length] in Hloop. rewrite Hloop. cbn [bind].
  clear Hloop. rewrite flat_map_step_items.
  apply bytes_of_ints_in_range.
  induction img as [ | p img IH]; [ constructor | ].
  cbn [flat_map]. apply Forall_app. split; [ | exact IH ].
  apply big_endian16_range, rgb565_word_range.
Qed.

Lemma length_flat_map_words (img : image) :
  length (flat_map (fun p => big_endian16 (rgb565_word p)) img) = (2 * length img)%nat.
Proof.
  induction img as [ | p img IH]; [ reflexivity | ].
  cbn [flat_map length app big_endian16]. rewrite IH. lia.
Qed.

Lemma length_converted (img : image) (out : list byte) :
  _convert_to_rgb565 img = Ok out -> length out = (2 * length img)%nat.
Proof.
  intros Hout. destruct (convert_returns img) as (out' & Hout' & Hmap).
  rewrite Hout in Hout'. injection Hout' as <-.
  rewrite <- (length_map byte_int), Hmap. apply length_flat_map_words.
Qed.

Lemma concat_image_chunks (image_data : list byte) :
  concat (image_chunks image_data) = image_data.
Proof.
  rewrite image_chunks_blocks.
  pose proof (range_len_chunks (len image_data) ltac:(unfold len; lia)) as Hm.
  cbv zeta in Hm. destruct Hm as (Hm0 & Hcover & _).
  set (m := range_len 0 (len image_data) chunk_size) in *.
  unfold chunk_size, len in Hcover.
  apply concat_blocks. lia.
Qed.

(** X1.  [update()] sends one whole frame.  After the column window
    0..239 (command 0x2A), the row window 0..279 (command 0x2B) and the
    memory-write command 0x2C, every bus event is an SPI write of pixel
    data; the bytes written, in order, are the RGB565 words of the
    pixels, high byte first, two for each pixel.  Holds for every image;
    the SPI and GPIO calls are taken to succeed. *)
Theorem update_sends_rgb565_frame (img : image) :
  exists chunks : list (list byte),
    update img
    = ([ GpioOutput DC_PIN LOW; SpiWrite [0x2A];
         GpioOutput DC_PIN HIGH; SpiWrite [0x00; 0x00; 0x00; 0xEF];
         GpioOutput DC_PIN LOW; SpiWrite [0x2B];
         GpioOutput DC_PIN HIGH; SpiWrite [0x00; 0x00; 0x01; 0x17];
         GpioOutput DC_PIN LOW; SpiWrite [0x2C];
         GpioOutput DC_PIN HIGH ]
       ++ map (fun chunk => SpiWrite (map byte_int chunk)) chunks, Ok tt)
    /\ map byte_int (concat chunks)
       = flat_map (fun p => big_endian16 (rgb565_word p)) img
    /\ length (concat chunks) = (2 * length img)%nat.
Proof.
  destruct (convert_returns img) as (out & Hout & Hmap).
  exists (image_chunks out). unfold update. rewrite Hout.
  rewrite concat_image_chunks.
  split; [ reflexivity | split; [ exact Hmap | ] ].
  apply length_converted. exact Hout.
Qed.

Lemma length_image_chunks (image_data : list byte) :
  length (image_chunks image_data)
  = Z.to_nat ((len image_data + 4095) / 4096).
Proof.
  rewrite image_chunks_blocks, length_map, length_seq.
  rewrite range_len_pos by reflexivity. unfold chunk_size.
  destruct (Z.leb_spec (len image_data) 0) as [H0 | H0].
  - assert (len image_data = 0) as -> by (unfold len in *; lia). reflexivity.
  - f_equal. Z.div_mod_to_equations. lia.
Qed.

(** X2.  The number of SPI writes that carry a frame: an image of [n]
    pixels is converted without error and sent in the ceiling of
    [2 * n / 4096] writes; for the 240 x 280 panel these are 32 writes of
    4096 bytes followed by one of 3328 bytes. *)
Theorem frame_write_count (img : image) :
  exists out : list byte,
    _convert_to_rgb565 img = Ok out
    /\ length (image_chunks out) = Z.to_nat ((2 * len img + 4095) / 4096)
    /\ (len img = WIDTH * HEIGHT ->
        map (fun chunk => len chunk) (image_chunks out) = repeat 4096 32 ++ [3328]).
Proof.
  destruct (convert_returns img) as (out & Hout & _).
  pose proof (length_converted img out Hout) as Hlen.
  exists out. split; [ exact Hout | split ].
  - rewrite length_image_chunks. unfold len. rewrite Hlen. do 2 f_equal. lia.
  - unfold WIDTH, HEIGHT, len. intros Himg.
    rewrite image_chunks_blocks, map_map.
    rewrite range_len_pos by reflexivity. unfold chunk_size, len.
    replace (Z.of_nat (length out)) with 134400 by lia.
    change (Z.to_nat (if 134400 <=? 0 then 0 else (134400 - 0 - 1) / 4096 + 1))
      with 33%nat.
    cbn [seq map repeat app].
    repeat (f_equal; [ rewrite length_firstn, length_skipn; lia | ]).
    f_equal. rewrite length_firstn, length_skipn. lia.
Qed.

Lemma rgb565_word_fields (r g b : byte) :
  let w := rgb565_word (r, g, b) in
  w / 2 ^ 11 = Z.shiftr (byte_int r) 3
  /\ (w / 2 ^ 5) mod 2 ^ 6 = Z.shiftr (byte_int g) 2
  /\ w mod 2 ^ 5 = Z.shiftr (byte_int b) 3.
Proof.
  intros w. subst w.
  unfold rgb565_word. rewrite !Z.shiftr_div_pow2 by lia.
  pose proof (byte_int_range r) as Hr.
  pose proof (byte_int_range g) as Hg.
  pose proof (byte_int_range b) as Hb.
  assert (0 <= byte_int r / 2 ^ 3 < 32) as Hr'
      by (split; [ apply Z.div_pos | apply Z.div_lt_upper_bound ]; lia).
  assert (0 <= byte_int g / 2 ^ 2 < 64) as Hg'
      by (split; [ apply Z.div_pos | apply Z.div_lt_upper_bound ]; lia).
  assert (0 <= byte_int b / 2 ^ 3 < 32) as Hb'
      by (split; [ apply Z.div_pos | apply Z.div_lt_upper_bound ]; lia).
  set (r' := byte_int r / 2 ^ 3) in *.
  set (g' := byte_int g / 2 ^ 2) in *.
  set (b' := byte_int b / 2 ^ 3) in *.
  change (2 ^ 11) with 2048. change (2 ^ 5) with 32. change (2 ^ 6) with 64.
  repeat split; Z.div_mod_to_equations; lia.
Qed.

(** X3.  [_convert_to_rgb565] works pixel by pixel, so the conversion of
    two buffers put end to end is the two conversions put end to end;
    and it loses exactly the low bits: two pixels give the same two
    bytes if and only if they agree on the top 5 bits of red, the top 6
    bits of green and the top 5 bits of blue. *)
Theorem rgb565_keeps_top_bits (a b : image) (r g bl r' g' bl' : byte) :
  (exists oa ob,
      _convert_to_rgb565 a = Ok oa /\ _convert_to_rgb565 b = Ok ob
      /\ _convert_to_rgb565 (a ++ b) = Ok (oa ++ ob))
  /\ (_convert_to_rgb565 [(r, g, bl)] = _convert_to_rgb565 [(r', g', bl')]
      <-> Z.shiftr (byte_int r) 3 = Z.shiftr (byte_int r') 3
          /\ Z.shiftr (byte_int g) 2 = Z.shiftr (byte_int g') 2
          /\ Z.shiftr (byte_int bl) 3 = Z.shiftr (byte_int bl') 3).
Proof.
  split.
  - destruct (convert_returns a) as (oa & Ha & Hma).
    destruct (convert_returns b) as (ob & Hb & Hmb).
    destruct (convert_returns (a ++ b)) as (oab & Hab & Hmab).
    exists oa, ob. split; [ exact Ha | split; [ exact Hb | ] ].
    rewrite Hab. f_equal. apply map_byte_int_inj.
    rewrite Hmab, flat_map_app, map_app, Hma, Hmb. reflexivity.
  - destruct (convert_returns [(r, g, bl)]) as (o & Ho & Hmo).
    destruct (convert_returns [(r', g', bl')]) as (o' & Ho' & Hmo').
    cbn [flat_map] in Hmo, Hmo'. rewrite app_nil_r in Hmo, Hmo'.
    destruct (rgb565_word_fields r g bl) as (F1 & F2 & F3).
    destruct (rgb565_word_fields r' g' bl') as (F1' & F2' & F3').
    cbv zeta in F1, F2, F3, F1', F2', F3'.
    rewrite Ho, Ho'. split.
    + intros Heq. injection Heq as <-. rewrite Hmo in Hmo'.
      rewrite <- F1, <- F2, <- F3, <- F1', <- F2', <- F3'.
      set (w := rgb565_word (r, g, bl)) in *.
      set (w' := rgb565_word (r', g', bl')) in *.
      unfold big_endian16 in Hmo'. injection Hmo' as Hhi Hlo.
      assert (w = w') as ->; [ | repeat split ].
      rewrite (Z.div_mod w (2 ^ 8)), (Z.div_mod w' (2 ^ 8)) by lia.
      rewrite Hhi, Hlo. reflexivity.
    + intros (Hr & Hg & Hb). f_equal. apply map_byte_int_inj.
      rewrite Hmo, Hmo'. apply (f_equal big_endian16).
      unfold rgb565_word. rewrite !Z.shiftr_div_pow2 in Hr, Hg, Hb by lia.
      rewrite Hr, Hg, Hb. reflexivity.
Qed.

End FrameTransfer.

Lemma frame_write_count_witness :
  let img := repeat (Byte.x00, Byte.x00, Byte.x00) (Z.to_nat 67200) in
  exists out : list byte,
    Driver._convert_to_rgb565 img = Py.Ok out
    /\ map (fun chunk => Py.len chunk) (Driver.image_chunks out)
       = repeat 4096 32 ++ [3328].
Proof.
  intros img.
  destruct (frame_write_count img) as (out & Hout & _ & Hfull).
  exists out. split; [ exact Hout | ].
  apply Hfull. unfold Py.len, img. rewrite repeat_length.
  rewrite Z2Nat.id by lia. reflexivity.
Defined.

(** ** The ranges of the collectors *)

Section Rounding.
Import Py.

(** [round(q, 1)] is a number of tenths at most half a tenth away. *)
Lemma round1_tenths (q : Q) :
  exists t : Z,
    round1 (Float q) = Float (t # 10)
    /\ 2 * (Qnum q * 10) - Z.pos (Qden q) <= 2 * Z.pos (Qden q) * t
       <= 2 * (Qnum q * 10) + Z.pos (Qden q).
Proof.
  unfold round1.
  set (n := Qnum q * 10). set (d := Z.pos (Qden q)).
  pose proof (Z.div_mod n d ltac:(subst d; lia)) as Hdm.
  pose proof (Z.mod_pos_bound n d ltac:(subst d; lia)) as Hr.
  destruct (Z.compare_spec (2 * (n mod d)) d) as [He | Hl | Hg].
  - destruct (Z.even (n / d)).
    + exists (n / d). split; [ reflexivity | nia ].
    + exists (n / d + 1). split; [ reflexivity | nia ].
  - exists (n / d). split; [ reflexivity | nia ].
  - exists (n / d + 1). split; [ reflexivity | nia ].
Qed.

Lemma round1_near (q : Q) :
  exists t : Z,
    round1 (Float q) = Float (t # 10)
    /\ (q - (1 # 20) <= t # 10 <= q + (1 # 20))%Q.
Proof.
  destruct (round1_tenths q) as (t & Ht & Hlo & Hhi).
  exists t. split; [ exact Ht | ].
  destruct q as [n d]. cbn [Qnum Qden] in Hlo, Hhi.
  unfold Qle, Qminus, Qplus, Qopp. cbn [Qnum Qden]. split; nia.
Qed.

(** A percentage between 0 and 100 is rounded to one between 0.0 and
    100.0. *)
Lemma round1_percent (p : Q) :
  (0 <= p <= inject_Z 100)%Q ->
  exists t : Z,
    round1 (Float p) = Float (t # 10)
    /\ 0 <= t <= 1000
    /\ (p - (1 # 20) <= t # 10 <= p + (1 # 20))%Q.
Proof.
  intros [H0 H100].
  destruct (round1_tenths p) as (t & Ht & Hlo & Hhi).
  destruct (round1_near p) as (t' & Ht' & Hnear).
  rewrite Ht in Ht'. injection Ht' as <-.
  exists t. split; [ exact Ht | split; [ | exact Hnear ] ].
  destruct p as [n d]. cbn [Qnum Qden] in Hlo, Hhi.
  unfold Qle, inject_Z in H0, H100. cbn [Qnum Qden] in H0, H100.
  split; nia.
Qed.

Lemma to_Q_add (a b : num) : (to_Q (add a b) == to_Q a + to_Q b)%Q.
Proof.
  destruct a as [x | p], b as [y | q]; cbn [add to_Q]; try reflexivity.
  unfold Qeq, Qplus, inject_Z; cbn [Qnum Qden]; lia.
Qed.

(** The share of a part in a whole, in percent. *)
Lemma share_percent (part whole : Q) :
  (0 <= part)%Q -> (part <= whole)%Q -> (0 < whole)%Q ->
  (0 <= part / whole * inject_Z 100 <= inject_Z 100)%Q.
Proof.
  intros Hp Hpw Hw. split.
  - apply Qmult_le_0_compat; [ | discriminate ].
    apply Qle_shift_div_l; [ exact Hw | ]. rewrite Qmult_0_l. exact Hp.
  - rewrite <- (Qmult_1_l (inject_Z 100)) at 2.
    apply Qmult_le_compat_r; [ | discriminate ].
    apply Qle_shift_div_r; [ exact Hw | ]. rewrite Qmult_1_l. exact Hpw.
Qed.

End Rounding.

Section CollectorRanges.
Import Py Metrics.

Lemma Qadd_nonneg (x y : Q) : (0 <= x)%Q -> (0 <= y)%Q -> (0 <= x + y)%Q.
Proof.
  intros Hx Hy. rewrite <- (Qplus_0_l 0). apply Qplus_le_compat; assumption.
Qed.

Lemma is_zero_true (a : num) : (to_Q a == 0)%Q -> is_zero a = true.
Proof.
  unfold is_zero, Qeq. cbn [Qnum Qden]. intros H. apply Z.eqb_eq. lia.
Qed.

(** X4.  On a first line of /proc/stat whose five tick counts are not
    negative and not all zero, [get_cpu_usage] returns a number of tenths
    between 0.0 and 100.0 that lies within 0.05 of
    [100 * (user + nice + system) / (user + nice + system + idle + iowait)].
    Floats are taken as exact rationals. *)
Theorem cpu_usage_in_range (label : result num) (user nice system idle iowait : num)
        (rest : list (result num)) :
  let busy := (to_Q user + to_Q nice + to_Q system)%Q in
  let total := (busy + to_Q idle + to_Q iowait)%Q in
  (0 <= to_Q user)%Q -> (0 <= to_Q nice)%Q -> (0 <= to_Q system)%Q ->
  (0 <= to_Q idle)%Q -> (0 <= to_Q iowait)%Q -> (0 < total)%Q ->
  exists t : Z,
    get_cpu_usage (Ok (label :: Ok user :: Ok nice :: Ok system :: Ok idle
                             :: Ok iowait :: rest))
    = Ok (Float (t # 10))
    /\ 0 <= t <= 1000
    /\ (busy / total * inject_Z 100 - (1 # 20) <= t # 10
        <= busy / total * inject_Z 100 + (1 # 20))%Q.
Proof.
  intros busy total Hu Hn Hs Hi Hw Ht.
  set (tokens := label :: Ok user :: Ok nice :: Ok system :: Ok idle :: Ok iowait :: rest).
  unfold get_cpu_usage. cbn [bind].
  assert (float_at tokens 1 = Ok user) as -> by reflexivity.
  assert (float_at tokens 2 = Ok nice) as -> by reflexivity.
  assert (float_at tokens 3 = Ok system) as -> by reflexivity.
  assert (float_at tokens 4 = Ok idle) as -> by reflexivity.
  assert (float_at tokens 5 = Ok iowait) as -> by reflexivity.
  cbn [bind].
  set (w := add (add (add (add user nice) system) idle) iowait).
  set (b := add (add user nice) system).
  assert (to_Q b == busy)%Q as Hb.
  { subst b busy. rewrite !to_Q_add. reflexivity. }
  assert (to_Q w == total)%Q as Hwq.
  { subst w total busy. rewrite !to_Q_add. reflexivity. }
  assert (0 < to_Q w)%Q as Hw0.
  { rewrite Hwq. exact Ht. }
  rewrite truediv_nonzero by (apply is_zero_false_pos; exact Hw0).
  cbn [bind mul to_Q].
  assert (0 <= busy)%Q as Hb0.
  { subst busy. repeat apply Qadd_nonneg; assumption. }
  assert (busy <= total)%Q as Hbt.
  { subst total. rewrite <- (Qplus_0_r busy) at 1. rewrite <- Qplus_assoc.
    apply Qplus_le_r. apply Qadd_nonneg; assumption. }
  destruct (round1_percent (to_Q b / to_Q w * inject_Z 100)) as (t & Hr & Hrange & Hnear).
  { rewrite Hb, Hwq. apply share_percent; assumption. }
  exists t. rewrite Hr. cbn [try_except_Exception].
  split; [ reflexivity | split; [ exact Hrange | ] ].
  rewrite <- Hb, <- Hwq. exact Hnear.
Qed.

(** X5.  When /proc/meminfo gives [MemTotal > 0] and
    [0 <= MemFree <= MemTotal], [get_memory_usage] returns a number of
    tenths between 0.0 and 100.0 that lies within 0.05 of
    [100 * (MemTotal - MemFree) / MemTotal].  Floats are taken as exact
    rationals. *)
Theorem memory_usage_in_range (lines : list (result (string * Z)))
        (meminfo : gmap string Z) (total free : Z) :
  read_meminfo lines ∅ = Ok meminfo ->
  meminfo !! "MemTotal"%string = Some total ->
  meminfo !! "MemFree"%string = Some free ->
  0 <= free <= total -> 0 < total ->
  exists t : Z,
    get_memory_usage (Ok lines) = Ok (Float (t # 10))
    /\ 0 <= t <= 1000
    /\ (inject_Z (total - free) / inject_Z total * inject_Z 100 - (1 # 20) <= t # 10
        <= inject_Z (total - free) / inject_Z total * inject_Z 100 + (1 # 20))%Q.
Proof.
  intros Hread Htotal Hfree Hf Ht.
  unfold get_memory_usage, dict_get. cbn [bind].
  rewrite Hread. cbn [bind]. rewrite Htotal, Hfree. cbn [bind].
  rewrite truediv_nonzero
    by (apply is_zero_false_pos; cbn [to_Q]; unfold Qlt; cbn [Qnum Qden inject_Z]; lia).
  cbn [bind mul to_Q].
  destruct (round1_percent (inject_Z (total - free) / inject_Z total * inject_Z 100))
    as (t & Hr & Hrange & Hnear).
  { apply share_percent; unfold Qle, Qlt; cbn [Qnum Qden inject_Z]; lia. }
  exists t. rewrite Hr. cbn [try_except_Exception].
  split; [ reflexivity | split; [ exact Hrange | exact Hnear ] ].
Qed.

End CollectorRanges.

Section DiskRange.
Import Py Metrics.

(** Rounding to tenths keeps the order of two quotients by the same
    divisor. *)
Lemma round1_monotone (a b : Z) (d : positive) :
  a <= b ->
  exists ta tb : Z,
    round1 (Float (a # d)) = Float (ta # 10)
    /\ round1 (Float (b # d)) = Float (tb # 10)
    /\ ta <= tb.
Proof.
  intros Hab. unfold round1. cbn [Qnum Qden].
  set (D := Z.pos d).
  assert (0 < D) as HD by (subst D; lia).
  pose proof (Z.div_mod (a * 10) D ltac:(lia)) as Ha.
  pose proof (Z.mod_pos_bound (a * 10) D HD) as Hra.
  pose proof (Z.div_mod (b * 10) D ltac:(lia)) as Hb.
  pose proof (Z.mod_pos_bound (b * 10) D HD) as Hrb.
  assert (a * 10 / D <= b * 10 / D) as Hf by (apply Z.div_le_mono; lia).
  set (fa := a * 10 / D) in *. set (fb := b * 10 / D) in *.
  set (ra := (a * 10) mod D) in *. set (rb := (b * 10) mod D) in *.
  destruct (Z.eq_dec fa fb) as [E | N].
  - assert (ra <= rb) by nia.
    destruct (Z.compare_spec (2 * ra) D), (Z.compare_spec (2 * rb) D);
      try lia; rewrite <- ?E; destruct (Z.even fa);
      eexists; eexists; (split; [ reflexivity | split; [ reflexivity | lia ] ]).
  - destruct (Z.compare_spec (2 * ra) D), (Z.compare_spec (2 * rb) D);
      destruct (Z.even fa), (Z.even fb);
      eexists; eexists; (split; [ reflexivity | split; [ reflexivity | lia ] ]).
Qed.

(** X6.  For a file system of positive size whose used bytes are
    between 0 and the size, [get_disk_usage] returns a percentage between
    0.0 and 100.0 within 0.05 of [100 * used / total], and sizes in GiB
    with [0 <= used <= total], each within 0.05 of the byte count divided
    by [1024 ** 3].  Floats are taken as exact rationals. *)
Theorem disk_usage_in_range (stat_total stat_used : Z) :
  0 <= stat_used <= stat_total -> 0 < stat_total ->
  exists p u t : Z,
    get_disk_usage (Ok (stat_total, stat_used))
    = Ok {| percent := Float (p # 10); used := Float (u # 10); total := Float (t # 10) |}
    /\ 0 <= p <= 1000
    /\ 0 <= u <= t
    /\ (inject_Z stat_used / inject_Z stat_total * inject_Z 100 - (1 # 20) <= p # 10
        <= inject_Z stat_used / inject_Z stat_total * inject_Z 100 + (1 # 20))%Q
    /\ (inject_Z stat_used / inject_Z (1024 ^ 3) - (1 # 20) <= u # 10
        <= inject_Z stat_used / inject_Z (1024 ^ 3) + (1 # 20))%Q
    /\ (inject_Z stat_total / inject_Z (1024 ^ 3) - (1 # 20) <= t # 10
        <= inject_Z stat_total / inject_Z (1024 ^ 3) + (1 # 20))%Q.
Proof.
  intros Hu Ht.
  unfold get_disk_usage. cbn [bind fst snd].
  rewrite !(truediv_nonzero _ (Int (1024 ^ 3))) by reflexivity.
  rewrite truediv_nonzero
    by (apply is_zero_false_pos; cbn [to_Q]; unfold Qlt; cbn [Qnum Qden inject_Z]; lia).
  cbn [bind mul to_Q].
  destruct (round1_percent (inject_Z stat_used / inject_Z stat_total * inject_Z 100))
    as (p & Hp & Hprange & Hpnear).
  { apply share_percent; unfold Qle, Qlt; cbn [Qnum Qden inject_Z]; lia. }
  assert (forall z : Z, (inject_Z z / inject_Z (1024 ^ 3))%Q = (z * 1 # 1 * 1073741824))
    as Hgb by reflexivity.
  destruct (round1_monotone (0 * 1) (stat_used * 1) (1 * 1073741824) ltac:(lia))
    as (z & u & Hz & Hu' & Hzu).
  destruct (round1_monotone (stat_used * 1) (stat_total * 1) (1 * 1073741824) ltac:(lia))
    as (u' & t & Hu'' & Ht' & Hut).
  rewrite Hu' in Hu''. injection Hu'' as <-.
  assert (z = 0) as -> by (vm_compute in Hz; congruence).
  destruct (round1_near (inject_Z stat_used / inject_Z (1024 ^ 3))) as (u1 & Hu1 & Hunear).
  destruct (round1_near (inject_Z stat_total / inject_Z (1024 ^ 3))) as (t1 & Ht1 & Htnear).
  rewrite Hgb in Hu1, Ht1. rewrite Hu' in Hu1. rewrite Ht' in Ht1.
  injection Hu1 as <-. injection Ht1 as <-.
  exists p, u, t. rewrite Hp, !Hgb, Hu', Ht'. cbn [try_except_Exception].
  split; [ reflexivity | ].
  split; [ exact Hprange | ].
  split; [ lia | ].
  split; [ exact Hpnear | ].
  split; [ rewrite <- Hgb; exact Hunear | rewrite <- Hgb; exact Htnear ].
Qed.

End DiskRange.

Section CollectorEdges.
Import Py Metrics.

Lemma float_at_short (tokens : list (result num)) (i : Z) :
  len tokens <= i -> float_at tokens i = Raise IndexError.
Proof.
  intros Hi. unfold float_at, getitem, len in *.
  rewrite !(proj2 (Z.ltb_ge i 0)) by lia.
  rewrite (proj2 (nth_error_None tokens (Z.to_nat i))) by lia.
  reflexivity.
Qed.

Lemma float_at_benign (tokens : list (result num)) (i : Z) :
  forallb resolves_or_fails tokens = true ->
  (exists v, float_at tokens i = Ok v)
  \/ (exists e, float_at tokens i = Raise e /\ is_Exception e = true).
Proof.
  intros Hall. pose proof (rof_float_at tokens i Hall) as H.
  destruct (float_at tokens i) as [v | e]; [ left | right ]; eauto.
Qed.

(** X7.  Input that the collectors cannot use gives the default, not an
    exception: [get_cpu_usage] returns 0.0 on a line of /proc/stat with
    fewer than five counts after the label, and on five counts that sum
    to zero; [get_memory_usage] returns 0.0 when [MemTotal] or [MemFree]
    is missing or [MemTotal] is zero; [get_disk_usage] returns the
    dictionary of integer zeros for a file system of size zero. *)
Theorem collectors_default_on_unusable_input :
  (forall tokens : list (result num),
      len tokens <= 5 -> forallb resolves_or_fails tokens = true ->
      get_cpu_usage (Ok tokens) = Ok (Float 0))
  /\ (forall (label : result num) (user nice system idle iowait : num)
             (rest : list (result num)),
         (to_Q user + to_Q nice + to_Q system + to_Q idle + to_Q iowait == 0)%Q ->
         get_cpu_usage (Ok (label :: Ok user :: Ok nice :: Ok system :: Ok idle
                                  :: Ok iowait :: rest))
         = Ok (Float 0))
  /\ (forall (lines : list (result (string * Z))) (meminfo : gmap string Z),
         read_meminfo lines ∅ = Ok meminfo ->
         meminfo !! "MemTotal"%string = None
         \/ meminfo !! "MemFree"%string = None
         \/ meminfo !! "MemTotal"%string = Some 0 ->
         get_memory_usage (Ok lines) = Ok (Float 0))
  /\ (forall stat_used : Z,
         get_disk_usage (Ok (0, stat_used))
         = Ok {| percent := Int 0; used := Int 0; total := Int 0 |}).
Proof.
  split; [ | split; [ | split ] ].
  - intros tokens Hlen Hall. unfold get_cpu_usage. cbn [bind].
    assert (forall (i : Z) (k : num -> result num),
               try_except_Exception (let* v := float_at tokens i in k v) (Float 0)
               = Ok (Float 0)
               \/ exists v, float_at tokens i = Ok v) as Hstep.
    { intros i k. destruct (float_at_benign tokens i Hall) as [[v Hv] | (e & He & Hexc)].
      - right. exists v. exact Hv.
      - left. rewrite He. cbn [bind try_except_Exception]. rewrite Hexc. reflexivity. }
    destruct (Hstep 1 (fun user =>
      let* nice := float_at tokens 2 in
      let* system := float_at tokens 3 in
      let* idle := float_at tokens 4 in
      let* iowait := float_at tokens 5 in
      let total := add (add (add (add user nice) system) idle) iowait in
      let busy := add (add user nice) system in
      let* ratio := truediv busy total in
      Ok (round1 (mul ratio (Int 100))))) as [Hdone | [user Huser]];
      [ exact Hdone | rewrite Huser; cbn [bind] ].
    destruct (Hstep 2 (fun nice =>
      let* system := float_at tokens 3 in
      let* idle := float_at tokens 4 in
      let* iowait := float_at tokens 5 in
      let total := add (add (add (add user nice) system) idle) iowait in
      let busy := add (add user nice) system in
      let* ratio := truediv busy total in
      Ok (round1 (mul ratio (Int 100))))) as [Hdone | [nice Hnice]];
      [ exact Hdone | rewrite Hnice; cbn [bind] ].
    destruct (Hstep 3 (fun system =>
      let* idle := float_at tokens 4 in
      let* iowait := float_at tokens 5 in
      let total := add (add (add (add user nice) system) idle) iowait in
      let busy := add (add user nice) system in
      let* ratio := truediv busy total in
      Ok (round1 (mul ratio (Int 100))))) as [Hdone | [system Hsystem]];
      [ exact Hdone | rewrite Hsystem; cbn [bind] ].
    destruct (Hstep 4 (fun idle =>
      let* iowait := float_at tokens 5 in
      let total := add (add (add (add user nice) system) idle) iowait in
      let busy := add (add user nice) system in
      let* ratio := truediv busy total in
      Ok (round1 (mul ratio (Int 100))))) as [Hdone | [idle Hidle]];
      [ exact Hdone | rewrite Hidle; cbn [bind] ].
    rewrite float_at_short by exact Hlen. reflexivity.
  - intros label user nice system idle iowait rest Hzero.
    unfold get_cpu_usage. cbn [bind].
    set (tokens := label :: Ok user :: Ok nice :: Ok system :: Ok idle :: Ok iowait :: rest).
    assert (float_at tokens 1 = Ok user) as -> by reflexivity.
    assert (float_at tokens 2 = Ok nice) as -> by reflexivity.
    assert (float_at tokens 3 = Ok system) as -> by reflexivity.
    assert (float_at tokens 4 = Ok idle) as -> by reflexivity.
    assert (float_at tokens 5 = Ok iowait) as -> by reflexivity.
    cbn [bind].
    rewrite truediv_zero; [ reflexivity | ].
    apply is_zero_true. rewrite !to_Q_add. exact Hzero.
  - intros lines meminfo Hread Hcase.
    unfold get_memory_usage, dict_get. cbn [bind]. rewrite Hread. cbn [bind].
    destruct Hcase as [Hnone | [Hnone | Hzero]].
    + rewrite Hnone. reflexivity.
    + rewrite Hnone. destruct (meminfo !! "MemTotal"%string); reflexivity.
    + rewrite Hzero. cbn [bind].
      destruct (meminfo !! "MemFree"%string) as [free | ]; [ | reflexivity ].
      cbn [bind]. rewrite truediv_zero by reflexivity. reflexivity.
  - intros stat_used. reflexivity.
Qed.

(** X8.  [KeyboardInterrupt] and [SystemExit] are not [Exception]s: the
    [except Exception] of [get_cpu_usage], [get_memory_usage],
    [get_temperature], [get_gpu_temperature] and [get_disk_usage] lets
    them through to the caller, while the bare [except:] of
    [get_hostname], [get_uptime] and [get_ip_address] swallows them and
    returns ["RPi5"] or ["N/A"]. *)
Theorem interrupts_pass_guarded_collectors (e : exn) :
  is_Exception e = false ->
  get_cpu_usage (Raise e) = Raise e
  /\ get_memory_usage (Raise e) = Raise e
  /\ get_temperature (Raise e) = Raise e
  /\ get_gpu_temperature (Raise e) = Raise e
  /\ get_disk_usage (Raise e) = Raise e
  /\ get_hostname (Raise e) = Ok "RPi5"%string
  /\ get_uptime (Raise e) = Ok "N/A"%string
  /\ get_ip_address (Raise e) = Ok "N/A"%string.
Proof.
  intros He.
  unfold get_cpu_usage, get_memory_usage, get_temperature, get_gpu_temperature,
    get_disk_usage, try_except_Exception.
  cbn [bind]. rewrite He.
  repeat split; reflexivity.
Qed.

End CollectorEdges.

Lemma cpu_usage_in_range_witness :
  exists t : Z,
    Metrics.get_cpu_usage
      (Py.Ok [Py.Raise Py.ValueError; Py.Ok (Py.Float (1000 # 1)); Py.Ok (Py.Float 0);
              Py.Ok (Py.Float (500 # 1)); Py.Ok (Py.Float (8000 # 1));
              Py.Ok (Py.Float (500 # 1))])
    = Py.Ok (Py.Float (t # 10))
    /\ 0 <= t <= 1000.
Proof.
  destruct (cpu_usage_in_range (Py.Raise Py.ValueError) (Py.Float (1000 # 1)) (Py.Float 0)
              (Py.Float (500 # 1)) (Py.Float (8000 # 1)) (Py.Float (500 # 1)) [])
    as (t & Ht & Hrange & _); try discriminate; [ reflexivity | ].
  exists t. split; [ exact Ht | exact Hrange ].
Defined.

Lemma memory_usage_in_range_witness :
  exists t : Z,
    Metrics.get_memory_usage
      (Py.Ok [Py.Ok ("MemTotal"%string, 8000); Py.Ok ("MemFree"%string, 6000)])
    = Py.Ok (Py.Float (t # 10))
    /\ 0 <= t <= 1000.
Proof.
  destruct (memory_usage_in_range
              [Py.Ok ("MemTotal"%string, 8000); Py.Ok ("MemFree"%string, 6000)]
              (<["MemFree"%string := 6000]> (<["MemTotal"%string := 8000]> ∅)) 8000 6000)
    as (t & Ht & Hrange & _); try reflexivity; try lia.
  exists t. split; [ exact Ht | exact Hrange ].
Defined.

Lemma disk_usage_in_range_witness :
  exists p u t : Z,
    Metrics.get_disk_usage (Py.Ok (64000000000, 16000000000))
    = Py.Ok {| Metrics.percent := Py.Float (p # 10); Metrics.used := Py.Float (u # 10);
               Metrics.total := Py.Float (t # 10) |}
    /\ 0 <= p <= 1000 /\ 0 <= u <= t.
Proof.
  destruct (disk_usage_in_range 64000000000 16000000000) as (p & u & t & H & Hp & Hu & _);
    try lia.
  exists p, u, t. split; [ exact H | split; [ exact Hp | exact Hu ] ].
Defined.

Lemma collectors_default_on_unusable_input_witness :
  Metrics.get_cpu_usage (Py.Ok [Py.Raise Py.ValueError; Py.Ok (Py.Float 100)])
  = Py.Ok (Py.Float 0)
  /\ Metrics.get_memory_usage (Py.Ok [Py.Ok ("MemFree"%string, 6000)]) = Py.Ok (Py.Float 0).
Proof.
  destruct collectors_default_on_unusable_input as (Hshort & _ & Hmem & _).
  split.
  - apply Hshort; [ unfold Py.len; simpl; lia | reflexivity ].
  - apply (Hmem _ (<["MemFree"%string := 6000]> ∅)); [ reflexivity | left; reflexivity ].
Defined.

Lemma interrupts_pass_guarded_collectors_witness :
  Metrics.get_cpu_usage (Py.Raise Py.KeyboardInterrupt) = Py.Raise Py.KeyboardInterrupt
  /\ Metrics.get_hostname (Py.Raise Py.KeyboardInterrupt) = Py.Ok "RPi5"%string.
Proof.
  destruct (interrupts_pass_guarded_collectors Py.KeyboardInterrupt eq_refl)
    as (Hcpu & _ & _ & _ & _ & Hhost & _).
  split; [ exact Hcpu | exact Hhost ].
Defined.

(** ** Histories and page index across the turns *)

Section CarouselState.
Import Py Metrics Carousel CarouselRun.

(** A round in which one of the five collectors of the histories raises
    leaves the histories as they are. *)
Lemma update_stats_stops (sys : system) (self : dashboard) (e : exn) :
  readings sys = Raise e ->
  history (fst (update_stats sys self)) = history self
  /\ pages (fst (update_stats sys self)) = pages self
  /\ current_page (fst (update_stats sys self)) = current_page self
  /\ snd (update_stats sys self) = if is_Exception e then Ok tt else Raise e.
Proof.
  unfold readings, update_stats. intros Hr.
  destruct (get_cpu_usage (proc_stat sys)) as [v1 | e1];
    [ | injection Hr as ->; cbn; destruct (is_Exception e); repeat split ].
  destruct (get_memory_usage (proc_meminfo sys)) as [v2 | e2];
    [ | injection Hr as ->; cbn; destruct (is_Exception e); repeat split ].
  destruct (get_temperature (thermal_zone0 sys)) as [v3 | e3];
    [ | injection Hr as ->; cbn; destruct (is_Exception e); repeat split ].
  destruct (get_gpu_temperature (vcgencmd sys)) as [v4 | e4];
    [ | injection Hr as ->; cbn; destruct (is_Exception e); repeat split ].
  destruct (get_disk_usage (root_disk sys)) as [v5 | e5];
    [ | injection Hr as ->; cbn; destruct (is_Exception e); repeat split ].
  discriminate.
Qed.

Lemma length_items_append {A} (d : Deque.deque A) (x : A) (n : nat) :
  Deque.maxlen d = 20%nat -> length (Deque.items d) = n -> (n <= 20)%nat ->
  length (Deque.items (Deque.append d x)) = Nat.min (S n) 20.
Proof.
  intros Hm Hl Hn. rewrite items_append, Hm, Hl.
  destruct (Nat.ltb_spec 20 (S n)) as [Hfull | Hroom].
  - destruct (Deque.items d) as [ | a l]; cbn [length] in Hl; [ lia | ].
    cbn [app tl]. rewrite length_app. cbn [length]. lia.
  - rewrite length_app. cbn [length]. lia.
Qed.

Lemma aligned_lookup (h : gmap string (Deque.deque num)) (n : nat) (key : string) :
  aligned h n -> In key history_keys ->
  exists d, h !! key = Some d /\ Deque.maxlen d = 20%nat /\ length (Deque.items d) = n.
Proof.
  unfold aligned. rewrite List.Forall_forall. intros H Hk. exact (H key Hk).
Qed.

Lemma update_stats_keeps_aligned (sys : system) (self : dashboard) (n : nat) :
  aligned (history self) n -> (n <= 20)%nat ->
  exists n', (n <= n' <= S n)%nat /\ (n' <= 20)%nat
             /\ aligned (history (fst (update_stats sys self))) n'.
Proof.
  intros Hal Hn.
  destruct (readings sys) as [[[[[a b] c] d] e] | err] eqn:Hr.
  - destruct (aligned_lookup _ _ "cpu"%string Hal) as (d1 & H1 & M1 & L1);
      [ unfold history_keys; simpl; tauto | ].
    destruct (aligned_lookup _ _ "memory"%string Hal) as (d2 & H2 & M2 & L2);
      [ unfold history_keys; simpl; tauto | ].
    destruct (aligned_lookup _ _ "cpu_temp"%string Hal) as (d3 & H3 & M3 & L3);
      [ unfold history_keys; simpl; tauto | ].
    destruct (aligned_lookup _ _ "gpu_temp"%string Hal) as (d4 & H4 & M4 & L4);
      [ unfold history_keys; simpl; tauto | ].
    destruct (aligned_lookup _ _ "disk"%string Hal) as (d5 & H5 & M5 & L5);
      [ unfold history_keys; simpl; tauto | ].
    destruct (update_stats_pushes sys self a b c d e d1 d2 d3 d4 d5 Hr H1 H2 H3 H4 H5)
      as [Hh _].
    exists (Nat.min (S n) 20). split; [ lia | split; [ lia | ] ].
    rewrite Hh. unfold aligned, history_keys.
    repeat (apply Forall_cons; split;
            [ eexists; split;
              [ repeat (rewrite lookup_insert_ne by discriminate); apply lookup_insert_eq
              | split; [ assumption | apply length_items_append; assumption ] ]
            | ]).
    apply Forall_nil. exact I.
  - destruct (update_stats_stops sys self err Hr) as (Hh & _).
    exists n. split; [ lia | split; [ exact Hn | ] ]. rewrite Hh. exact Hal.
Qed.

Lemma aligned_init (page_duration now : num) : aligned (history (init page_duration now)) 0.
Proof.
  unfold aligned, history_keys.
  repeat (apply Forall_cons; split;
          [ exists (Deque.new 20); split; [ reflexivity | split; reflexivity ] | ]).
  apply Forall_nil. exact I.
Qed.

(** X9.  After any number of rounds of [update_stats] of the carousel,
    whatever the collectors met, the five histories [cpu], [memory],
    [cpu_temp], [gpu_temp] and [disk] are still deques of capacity 20 and
    all hold the same number of samples, at most 20 and at most the
    number of rounds: the graphs of the five pages cover the same
    rounds. *)
Theorem histories_stay_aligned (rounds : list system) (page_duration now : num) :
  exists n : nat,
    (n <= 20)%nat /\ (n <= length rounds)%nat
    /\ aligned (history (rounds_of_update_stats rounds (init page_duration now))) n.
Proof.
  assert (forall (self : dashboard) (n0 : nat),
             aligned (history self) n0 -> (n0 <= 20)%nat ->
             exists n, (n <= 20)%nat /\ (n <= n0 + length rounds)%nat
                       /\ aligned (history (rounds_of_update_stats rounds self)) n) as Hgen.
  { induction rounds as [ | sys rounds IH]; intros self n0 Hal Hn0.
    - exists n0. split; [ exact Hn0 | split; [ cbn; lia | exact Hal ] ].
    - destruct (update_stats_keeps_aligned sys self n0 Hal Hn0) as (n1 & Hn1 & Hn1' & Hal1).
      destruct (IH (fst (update_stats sys self)) n1 Hal1 Hn1') as (n & Hn & Hlen & Haln).
      exists n. split; [ exact Hn | split; [ cbn [length]; lia | exact Haln ] ]. }
  destruct (Hgen (init page_duration now) 0%nat (aligned_init _ _) ltac:(lia))
    as (n & Hn & Hlen & Hal).
  exists n. split; [ exact Hn | split; [ lia | exact Hal ] ].
Qed.

(** X10.  When every round of [update_stats] obtains its five readings,
    each history of the carousel holds, oldest first, the last 20
    readings of its own metric (all of them when there were fewer than
    20 rounds): no reading is stored under another key, dropped or
    reordered. *)
Theorem histories_hold_last_readings (rounds : list system)
        (rs : list (num * num * num * num * num)) (page_duration now : num) :
  Forall2 (fun sys r => readings sys = Ok r) rounds rs ->
  let after := history (rounds_of_update_stats rounds (init page_duration now)) in
  let last20 (column : list num) := skipn (length column - 20) column in
  Deque.to_list <$> after !! "cpu"%string
  = Some (last20 (map (fun '(a, _, _, _, _) => a) rs))
  /\ Deque.to_list <$> after !! "memory"%string
     = Some (last20 (map (fun '(_, b, _, _, _) => b) rs))
  /\ Deque.to_list <$> after !! "cpu_temp"%string
     = Some (last20 (map (fun '(_, _, c, _, _) => c) rs))
  /\ Deque.to_list <$> after !! "gpu_temp"%string
     = Some (last20 (map (fun '(_, _, _, d, _) => d) rs))
  /\ Deque.to_list <$> after !! "disk"%string
     = Some (last20 (map (fun '(_, _, _, _, e) => e) rs)).
Proof.
  intros Hall after last20. subst after last20.
  destruct (rounds_push_from rounds rs (init page_duration now)
              (Deque.new 20) (Deque.new 20) (Deque.new 20) (Deque.new 20) (Deque.new 20)
              Hall) as (H1 & H2 & H3 & H4 & H5); try reflexivity.
  rewrite H1, H2, H3, H4, H5. cbn [fmap option_fmap option_map].
  unfold Deque.to_list. rewrite !items_pushes.
  repeat split.
Qed.

(** X11.  A [KeyboardInterrupt] or [SystemExit] met while [update_stats]
    of the carousel reads its metrics leaves [update_stats] through its
    [except Exception] and reaches the caller; the five histories, the
    page table and the page index are as they were, so no history
    receives a partial round. *)
Theorem interrupted_round_keeps_histories (sys : system) (self : dashboard) (e : exn) :
  readings sys = Raise e -> is_Exception e = false ->
  snd (update_stats sys self) = Raise e
  /\ history (fst (update_stats sys self)) = history self
  /\ pages (fst (update_stats sys self)) = pages self
  /\ current_page (fst (update_stats sys self)) = current_page self.
Proof.
  intros Hr He.
  destruct (update_stats_stops sys self e Hr) as (Hh & Hp & Hc & Ho).
  rewrite He in Ho. repeat split; assumption.
Qed.

End CarouselState.

Section PageCycle.
Import Py Carousel CarouselRun.

Lemma update_page_step (self : dashboard) (now later : num) :
  0 < len (pages self) -> 0 <= current_page self < len (pages self) ->
  let self' := fst (update_page now later self) in
  snd (update_page now later self) = Ok tt
  /\ pages self' = pages self /\ history self' = history self /\ stats self' = stats self
  /\ page_duration self' = page_duration self
  /\ (current_page self' = current_page self
      \/ current_page self' = (current_page self + 1) mod len (pages self)).
Proof.
  intros Hlen Hcur. unfold update_page.
  destruct (ge (sub now (page_start_time self)) (page_duration self)).
  - unfold mod_. rewrite (proj2 (Z.eqb_neq (len (pages self)) 0)) by lia.
    cbn. repeat split. right. reflexivity.
  - cbn. repeat split. left. reflexivity.
Qed.

(** X12.  From a state with a non-empty page table and a page index
    within it, any sequence of calls of [update_page], at any clock
    readings, leaves the page table, the histories and the statistics
    untouched, has advanced the index by some [k] calls out of those
    made, modulo the number of pages, and keeps the index valid:
    [self.pages[self.current_page]] succeeds and a further [update_page]
    does not raise. *)
Theorem page_index_stays_in_range (self : dashboard) (clock : list (num * num)) :
  0 < len (pages self) -> 0 <= current_page self < len (pages self) ->
  let self' := update_pages clock self in
  pages self' = pages self
  /\ history self' = history self
  /\ stats self' = stats self
  /\ (exists k : Z,
         0 <= k <= len clock
         /\ current_page self' = (current_page self + k) mod len (pages self))
  /\ (exists p, getitem (pages self') (current_page self') = Ok p)
  /\ (forall now later : num, snd (update_page now later self') = Ok tt).
Proof.
  intros Hlen Hcur. cbv zeta.
  assert (pages (update_pages clock self) = pages self
          /\ history (update_pages clock self) = history self
          /\ stats (update_pages clock self) = stats self
          /\ exists k : Z,
              0 <= k <= len clock
              /\ current_page (update_pages clock self)
                 = (current_page self + k) mod len (pages self)) as (Hp & Hh & Hs & k & Hk & Hc).
  { revert self Hlen Hcur. induction clock as [ | [now later] clock IH]; intros self Hlen Hcur.
    - cbn. repeat split. exists 0. split; [ unfold len; simpl; lia | ].
      rewrite Z.add_0_r, Z.mod_small by lia. reflexivity.
    - cbn [update_pages fold_left].
      destruct (update_page_step self now later Hlen Hcur)
        as (_ & Hp1 & Hh1 & Hs1 & _ & Hc1).
      cbv zeta in Hp1, Hh1, Hs1, Hc1.
      set (self1 := fst (update_page now later self)) in *.
      assert (0 <= current_page self1 < len (pages self)) as Hcur1.
      { destruct Hc1 as [-> | ->]; [ exact Hcur | apply Z.mod_pos_bound; lia ]. }
      destruct (IH self1) as (Hp & Hh & Hs & k & Hk & Hc);
        [ rewrite Hp1; exact Hlen | rewrite Hp1; exact Hcur1 | ].
      fold (update_pages clock self1).
      rewrite Hp, Hh, Hs, Hp1, Hh1, Hs1. repeat split.
      rewrite Hc, Hp1.
      assert (len ((now, later) :: clock) = len clock + 1) as ->
          by (unfold len; cbn [length]; lia).
      destruct Hc1 as [-> | ->].
      + exists k. split; [ lia | reflexivity ].
      + exists (k + 1). split; [ lia | ].
        rewrite Zplus_mod_idemp_l. f_equal. lia. }
  assert (0 <= current_page (update_pages clock self) < len (pages self)) as Hin
      by (rewrite Hc; apply Z.mod_pos_bound; lia).
  repeat split; try assumption.
  - exists k. split; [ exact Hk | exact Hc ].
  - rewrite Hp. unfold getitem.
    rewrite !(proj2 (Z.ltb_ge (current_page (update_pages clock self)) 0)) by lia.
    destruct (nth_error (pages self) (Z.to_nat (current_page (update_pages clock self))))
      as [p | ] eqn:E; [ exists p; reflexivity | ].
    apply nth_error_None in E. unfold len in Hin. lia.
  - intros now later.
    destruct (update_page_step (update_pages clock self) now later) as [Hok _];
      [ rewrite Hp; exact Hlen | rewrite Hp; exact Hin | exact Hok ].
Qed.

(** X13.  With an empty page table, [update_page] raises
    [ZeroDivisionError] as soon as the page duration has elapsed, since
    it computes [(current_page + 1) % len(self.pages)], and changes
    nothing; before that it returns without effect. *)
Theorem update_page_without_pages (self : dashboard) (now later : num) :
  pages self = [] ->
  ((to_Q (page_duration self) <= to_Q now - to_Q (page_start_time self))%Q ->
   update_page now later self = (self, Raise ZeroDivisionError))
  /\ ((to_Q now - to_Q (page_start_time self) < to_Q (page_duration self))%Q ->
      update_page now later self = (self, Ok tt)).
Proof.
  intros Hnil. unfold update_page. rewrite Hnil.
  destruct (ge (sub now (page_start_time self)) (page_duration self)) eqn:E.
  - split; [ reflexivity | ].
    apply ge_spec in E. rewrite to_Q_sub in E.
    intros Hlt. exfalso. exact (Qlt_not_le _ _ Hlt E).
  - split; [ | reflexivity ].
    apply ge_false in E. rewrite to_Q_sub in E.
    intros Hle. exfalso. exact (Qlt_not_le _ _ E Hle).
Qed.

End PageCycle.

Section CarouselStateExamples.
Import Py Metrics Carousel CarouselRun.

Lemma histories_hold_last_readings_witness :
  readings (all_fail OSError) = Ok (Float 0, Float 0, Float 0, Float 0, Int 0)
  /\ Deque.to_list
       <$> history (rounds_of_update_stats [all_fail OSError; all_fail OSError]
                                           (init (Int 5) (Int 0))) !! "disk"%string
     = Some [Int 0; Int 0].
Proof.
  split; [ reflexivity | ].
  destruct (histories_hold_last_readings
              [all_fail OSError; all_fail OSError]
              [(Float 0, Float 0, Float 0, Float 0, Int 0);
               (Float 0, Float 0, Float 0, Float 0, Int 0)]
              (Int 5) (Int 0))
    as (_ & _ & _ & _ & Hdisk).
  - repeat constructor.
  - exact Hdisk.
Defined.

Lemma interrupted_round_keeps_histories_witness :
  readings (all_fail KeyboardInterrupt) = Raise KeyboardInterrupt
  /\ snd (update_stats (all_fail KeyboardInterrupt) (init (Int 5) (Int 0)))
     = Raise KeyboardInterrupt
  /\ history (fst (update_stats (all_fail KeyboardInterrupt) (init (Int 5) (Int 0))))
     = history (init (Int 5) (Int 0)).
Proof.
  split; [ reflexivity | ].
  destruct (interrupted_round_keeps_histories (all_fail KeyboardInterrupt)
              (init (Int 5) (Int 0)) KeyboardInterrupt eq_refl eq_refl)
    as (Hout & Hhist & _).
  split; [ exact Hout | exact Hhist ].
Defined.

Lemma page_index_stays_in_range_witness :
  0 < len (pages (init (Int 5) (Int 0)))
  /\ pages (update_pages [(Int 5, Int 5); (Int 6, Int 6)] (init (Int 5) (Int 0)))
     = pages (init (Int 5) (Int 0))
  /\ forall now later : num,
      snd (update_page now later
             (update_pages [(Int 5, Int 5); (Int 6, Int 6)] (init (Int 5) (Int 0))))
      = Ok tt.
Proof.
  split; [ reflexivity | ].
  destruct (page_index_stays_in_range (init (Int 5) (Int 0))
              [(Int 5, Int 5); (Int 6, Int 6)])
    as (Hpages & _ & _ & _ & _ & Hnext).
  - reflexivity.
  - split; [ discriminate | reflexivity ].
  - split; [ exact Hpages | exact Hnext ].
Defined.

Lemma update_page_without_pages_witness :
  update_page (Int 5) (Int 5)
    {| page_duration := Int 5; history := ∅; stats := ∅; pages := [];
       current_page := 0; page_start_time := Int 0 |}
  = ({| page_duration := Int 5; history := ∅; stats := ∅; pages := [];
        current_page := 0; page_start_time := Int 0 |}, Raise ZeroDivisionError).
Proof.
  apply (update_page_without_pages
           {| page_duration := Int 5; history := ∅; stats := ∅; pages := [];
              current_page := 0; page_start_time := Int 0 |} (Int 5) (Int 5) eq_refl).
  vm_compute. discriminate.
Defined.

End CarouselStateExamples.

(** ** What the graphs draw *)

Section Outcomes.
Import Py Display.

Lemma outcome_bind {A B} (m : draw A) (f : A -> draw B) :
  outcome (bind m f)
  = match outcome m with
    | Ok a => outcome (f a)
    | Raise e => Raise e
    end.
Proof.
  destruct m as [t [a | e]]; cbn [bind outcome snd]; [ | reflexivity ].
  destruct (f a). reflexivity.
Qed.

Lemma outcome_for_ok {A} (l : list A) (body : A -> draw unit) :
  (forall a, In a l -> outcome (body a) = Ok tt) -> outcome (for_ l body) = Ok tt.
Proof.
  induction l as [ | a l IH]; intros Hbody; [ reflexivity | ].
  cbn [for_]. rewrite outcome_bind, (Hbody a) by (left; reflexivity).
  apply IH. intros b Hb. apply Hbody. right. exact Hb.
Qed.

Lemma outcome_for_with_ok {A S} (l : list A) (s : S) (body : A -> S -> draw S) :
  (forall a s, In a l -> exists s', outcome (body a s) = Ok s') ->
  exists s', outcome (for_with l s body) = Ok s'.
Proof.
  revert s. induction l as [ | a l IH]; intros s Hbody.
  - exists s. reflexivity.
  - cbn [for_with]. rewrite outcome_bind.
    destruct (Hbody a s ltac:(left; reflexivity)) as [s1 ->].
    apply IH. intros b t Hb. apply Hbody. right. exact Hb.
Qed.

Lemma in_range3 (start stop step i : Z) :
  0 < step -> In i (range3 start stop step) -> start <= i < stop.
Proof.
  intros Hs Hi. unfold range3 in Hi. rewrite range_len_pos in Hi by exact Hs.
  apply in_map_iff in Hi. destruct Hi as (k & <- & Hk). apply in_seq in Hk.
  destruct (Z.leb_spec stop start) as [Hle | Hlt]; [ simpl in Hk; lia | ].
  assert (Z.of_nat k <= (stop - start - 1) / step) as Hk' by lia.
  pose proof (Z.mul_div_le (stop - start - 1) step Hs) as Hd.
  nia.
Qed.

Lemma in_range (n i : Z) : In i (range n) -> 0 <= i < n.
Proof. unfold range. apply in_range3. lia. Qed.

Lemma getitem_in_range {A} (l : list A) (i : Z) :
  0 <= i < len l -> exists a, getitem l i = Ok a.
Proof.
  intros Hi. unfold getitem.
  rewrite !(proj2 (Z.ltb_ge i 0)) by lia.
  destruct (nth_error l (Z.to_nat i)) as [a | ] eqn:E; [ exists a; reflexivity | ].
  apply nth_error_None in E. unfold len in Hi. lia.
Qed.

Lemma is_zero_max_1 (z : Z) : is_zero (Int (Z.max 1 z)) = false.
Proof.
  unfold is_zero. cbn [to_Q inject_Z Qnum]. apply Z.eqb_neq. lia.
Qed.

Lemma in_enumerate {A} (l : list A) (i : Z) (a : A) :
  In (i, a) (enumerate l) -> 0 <= i < len l.
Proof.
  unfold enumerate. intros H. apply in_combine_l in H.
  apply in_map_iff in H. destruct H as (k & <- & Hk). apply in_seq in Hk.
  unfold len. lia.
Qed.

End Outcomes.

Section GraphsReturn.
Import Py Display.

Ltac outcome_steps :=
  repeat first
    [ rewrite outcome_bind
    | progress cbn [lift outcome snd ret draw_line draw_rectangle]
    | progress cbv zeta ].

Lemma values_nonempty (values : list num) (n : Z) : n <= len values -> 0 < n -> values <> [].
Proof. intros Hn H0 E. rewrite E in Hn. unfold len in Hn. simpl in Hn. lia. Qed.

Lemma carousel_graph_returns (x y width height : Z) (data : Deque.deque num)
      (max_val : num) (color : color) (animation_frame : Z) :
  is_zero max_val = false ->
  outcome (Carousel.draw_graph x y width height data max_val color animation_frame) = Ok tt.
Proof.
  intros Hm. unfold Carousel.draw_graph.
  destruct (Deque.len data <? 2) eqn:Hlen; [ reflexivity | ].
  apply Z.ltb_ge in Hlen. unfold Deque.len, Deque.to_list in *.
  set (values := Deque.items data) in *.
  pose proof (values_nonempty values 2 Hlen ltac:(lia)) as Hne.
  rewrite carousel_frame_ok. cbn [outcome snd].
  rewrite truediv_nonzero by (apply is_zero_len; exact Hne).
  outcome_steps.
  rewrite outcome_for_ok.
  - rewrite (proj2 (Z.ltb_lt 0 (len values))) by lia.
    rewrite (getitem_minus1 values (Int 0)) by exact Hne.
    outcome_steps. rewrite truediv_nonzero by exact Hm. outcome_steps.
    destruct (_ && _); reflexivity.
  - intros i Hi. apply in_range in Hi.
    destruct (getitem_in_range values i ltac:(lia)) as [vi Hvi].
    destruct (getitem_in_range values (i + 1) ltac:(lia)) as [vj Hvj].
    outcome_steps. rewrite Hvi. outcome_steps.
    rewrite truediv_nonzero by exact Hm. outcome_steps.
    rewrite Hvj. outcome_steps.
    rewrite truediv_nonzero by exact Hm. outcome_steps.
    destruct (_ && _); [ | reflexivity ].
    outcome_steps. destruct (i mod 4 =? 0); reflexivity.
Qed.

Lemma pro_graph_returns (animation_counter x y width height : Z) (data : Deque.deque num)
      (max_val : num) (color : color) :
  is_zero max_val = false ->
  outcome (CarouselPro.draw_graph animation_counter x y width height data max_val color)
  = Ok tt.
Proof.
  intros Hm. unfold CarouselPro.draw_graph.
  destruct (Deque.len data <? 2) eqn:Hlen; [ reflexivity | ].
  apply Z.ltb_ge in Hlen. unfold Deque.len, Deque.to_list in *.
  set (values := Deque.items data) in *.
  pose proof (values_nonempty values 2 Hlen ltac:(lia)) as Hne.
  rewrite carousel_frame_ok. cbn [outcome snd].
  rewrite truediv_nonzero by (apply is_zero_len; exact Hne).
  outcome_steps.
  rewrite outcome_for_ok.
  - rewrite (proj2 (Z.ltb_lt 0 (len values))) by lia.
    rewrite truediv_nonzero by reflexivity. outcome_steps.
    rewrite (getitem_minus1 values (Int 0)) by exact Hne.
    outcome_steps. rewrite truediv_nonzero by exact Hm. outcome_steps.
    reflexivity.
  - intros i Hi. apply in_range in Hi.
    destruct (getitem_in_range values i ltac:(lia)) as [vi Hvi].
    destruct (getitem_in_range values (i + 1) ltac:(lia)) as [vj Hvj].
    outcome_steps. rewrite Hvi. outcome_steps.
    rewrite truediv_nonzero by exact Hm. outcome_steps.
    rewrite Hvj. outcome_steps.
    rewrite truediv_nonzero by exact Hm. outcome_steps.
    destruct (_ && _); [ | reflexivity ].
    outcome_steps. destruct (i mod 4 =? 0); reflexivity.
Qed.

Lemma shading_returns (x1 x2 a b top : Z) (k : Z) :
  outcome (for_ (range2 a b) (fun fill_y =>
    let+ alpha := lift (truediv (Int (fill_y - top)) (Int (Z.max 1 (b - top)))) in
    let shade := int (mul alpha (Int k)) in
    draw_line (Int x1) (Int fill_y) (Int x2) (Int fill_y)
              (Some (shade, shade, shade)) (Some 1))) = Ok tt.
Proof.
  apply outcome_for_ok. intros fill_y _.
  outcome_steps. rewrite truediv_nonzero by apply is_zero_max_1.
  outcome_steps. reflexivity.
Qed.

Lemma smooth_graph_returns (animation_counter x y width height : Z)
      (data : Deque.deque num) (max_val : num) (color : color) :
  is_zero max_val = false ->
  outcome (Premium.draw_smooth_area_graph animation_counter x y width height data
                                          max_val color) = Ok tt.
Proof.
  intros Hm. unfold Premium.draw_smooth_area_graph.
  destruct (Deque.len data <? 2) eqn:Hlen; [ reflexivity | ].
  apply Z.ltb_ge in Hlen. unfold Deque.len, Deque.to_list in *.
  set (values := Deque.items data) in *.
  pose proof (values_nonempty values 2 Hlen ltac:(lia)) as Hne.
  rewrite outcome_bind, backdrop_ok. cbn [outcome snd].
  rewrite truediv_nonzero by (apply is_zero_len; exact Hne).
  outcome_steps.
  match goal with
  | |- context [for_with ?l ?s ?body] =>
      destruct (outcome_for_with_ok l s body) as [s' Hloop]
  end.
  - intros i [px py] Hi. apply in_range in Hi.
    destruct (getitem_in_range values i ltac:(lia)) as [vi Hvi].
    outcome_steps. rewrite Hvi. outcome_steps.
    rewrite truediv_nonzero by exact Hm. outcome_steps.
    destruct (0 <? i).
    + outcome_steps. rewrite shading_returns. eexists. reflexivity.
    + outcome_steps. eexists. reflexivity.
  - rewrite Hloop.
    rewrite (proj2 (Z.ltb_lt 0 (len values))) by lia.
    rewrite truediv_nonzero by reflexivity. outcome_steps.
    rewrite (getitem_minus1 values (Int 0)) by exact Hne.
    outcome_steps. rewrite truediv_nonzero by exact Hm. outcome_steps.
    rewrite outcome_for_ok; [ reflexivity | ].
    intros i _. outcome_steps.
    rewrite truediv_nonzero; [ outcome_steps; reflexivity | ].
    unfold is_zero. cbn [to_Q inject_Z Qnum]. apply Z.eqb_neq.
    pose proof (Z.mod_pos_bound animation_counter 5 ltac:(lia)). lia.
Qed.

Lemma filled_graph_returns (x y width height : Z)
      (data : Deque.deque num) (max_val : num) (color : color) :
  is_zero max_val = false ->
  outcome (Premium.draw_filled_area_graph x y width height data max_val color) = Ok tt.
Proof.
  intros Hm. unfold Premium.draw_filled_area_graph.
  destruct (Deque.len data <? 2) eqn:Hlen; [ reflexivity | ].
  apply Z.ltb_ge in Hlen. unfold Deque.len, Deque.to_list in *.
  set (values := Deque.items data) in *.
  pose proof (values_nonempty values 2 Hlen ltac:(lia)) as Hne.
  rewrite outcome_bind, backdrop_ok. cbn [outcome snd].
  rewrite truediv_nonzero by (apply is_zero_len; exact Hne).
  outcome_steps.
  rewrite outcome_for_ok.
  - rewrite (proj2 (Z.ltb_lt 0 (len values))) by lia.
    outcome_steps.
    apply outcome_for_ok. intros [i val] _.
    outcome_steps. rewrite truediv_nonzero by reflexivity. outcome_steps.
    rewrite truediv_nonzero by exact Hm. outcome_steps.
    destruct (gt _ _); reflexivity.
  - intros i Hi. apply in_range in Hi.
    destruct (getitem_in_range values i ltac:(lia)) as [vi Hvi].
    destruct (getitem_in_range values (i + 1) ltac:(lia)) as [vj Hvj].
    outcome_steps. rewrite Hvi. outcome_steps.
    rewrite truediv_nonzero by exact Hm. outcome_steps.
    rewrite Hvj. outcome_steps.
    rewrite truediv_nonzero by exact Hm. outcome_steps.
    apply shading_returns.
Qed.

Lemma bar_chart_returns (x y width height : Z)
      (data : Deque.deque num) (max_val : num) (color : color) :
  is_zero max_val = false ->
  outcome (Premium.draw_bar_chart x y width height data max_val color) = Ok tt.
Proof.
  intros Hm. unfold Premium.draw_bar_chart.
  destruct (Deque.len data <? 1) eqn:Hlen; [ reflexivity | ].
  apply Z.ltb_ge in Hlen. unfold Deque.len, Deque.to_list in *.
  set (values := Deque.items data) in *.
  pose proof (values_nonempty values 1 Hlen ltac:(lia)) as Hne.
  rewrite outcome_bind, backdrop_ok. cbn [outcome snd].
  rewrite truediv_nonzero by (apply is_zero_len; exact Hne).
  outcome_steps.
  apply outcome_for_ok. intros [i val] _.
  outcome_steps. rewrite truediv_nonzero by exact Hm. outcome_steps.
  rewrite outcome_for_ok; [ reflexivity | ].
  intros h _. outcome_steps.
  rewrite truediv_nonzero by apply is_zero_max_1. outcome_steps. reflexivity.
Qed.

Lemma not_tiny_nonzero (m : num) :
  (1 # 10 ^ 100 <= Qabs (to_Q m))%Q -> is_zero m = false.
Proof.
  intros H. unfold is_zero. apply Z.eqb_neq. intros H0.
  destruct (to_Q m) as [n d]. cbn [Qnum] in H0. subst n.
  revert H. unfold Qle, Qabs. cbn [Qnum Qden Z.abs]. lia.
Qed.

(** X14.  A ceiling of zero is the only thing that makes a graph routine
    raise.  For a region whose coordinates and sizes are at most 10^6
    in magnitude, samples that are finite numbers of magnitude at most
    10^100 and a ceiling of magnitude between 10^-100 and 10^100 (on
    which no quotient or product of the routines leaves binary64), none
    of the five graph routines raises: the line graphs of the carousel
    and of the pro carousel, the smooth and the filled area graphs and
    the bar chart of the premium dashboard all return.  The calls on the
    drawing surface are taken to succeed. *)
Theorem graphs_return_with_nonzero_ceiling
        (animation_counter animation_frame x y width height : Z)
        (data : Deque.deque num) (max_val : num) (color : color) :
  Z.abs x <= 10 ^ 6 -> Z.abs y <= 10 ^ 6 ->
  Z.abs width <= 10 ^ 6 -> Z.abs height <= 10 ^ 6 ->
  Forall (fun v => (Qabs (to_Q v) <= inject_Z (10 ^ 100))%Q) (Deque.to_list data) ->
  (1 # 10 ^ 100 <= Qabs (to_Q max_val) <= inject_Z (10 ^ 100))%Q ->
  outcome (Carousel.draw_graph x y width height data max_val color animation_frame) = Ok tt
  /\ outcome (CarouselPro.draw_graph animation_counter x y width height data max_val color)
     = Ok tt
  /\ outcome (Premium.draw_smooth_area_graph animation_counter x y width height data
                                             max_val color) = Ok tt
  /\ outcome (Premium.draw_filled_area_graph x y width height data max_val color) = Ok tt
  /\ outcome (Premium.draw_bar_chart x y width height data max_val color) = Ok tt.
Proof.
  intros _ _ _ _ _ [Hm _]. apply not_tiny_nonzero in Hm.
  split; [ apply carousel_graph_returns; exact Hm | ].
  split; [ apply pro_graph_returns; exact Hm | ].
  split; [ apply smooth_graph_returns; exact Hm | ].
  split; [ apply filled_graph_returns; exact Hm | ].
  apply bar_chart_returns; exact Hm.
Qed.

End GraphsReturn.

Section CarouselTrace.
Import Py Display.

(** One turn of the loop of the line graph of the carousel. *)
Lemma carousel_segment_ok (shift x y width height : Z) (values : list num) (max_val : num)
      (color : color) (k : nat) :
  0 <= width -> is_zero max_val = false -> (S k < length values)%nat ->
  (let point_width := Float (to_Q (Int width) / to_Q (Int (len values))) in
   let i := Z.of_nat k in
   let x1 := x + int (mul (Int i) point_width) - shift in
   let+ vi := lift (getitem values i) in
   let+ ri := lift (truediv vi max_val) in
   let y1 := y + height - int (mul ri (Int height)) in
   let x2 := x + int (mul (Int (i + 1)) point_width) - shift in
   let+ vj := lift (getitem values (i + 1)) in
   let+ rj := lift (truediv vj max_val) in
   let y2 := y + height - int (mul rj (Int height)) in
   if (x <=? x2) && (x1 <=? x + width) then
     draw_line (Int x1) (Int y1) (Int x2) (Int y2) (Some color) (Some 2) >>
     if i mod 4 =? 0 then
       draw_rectangle (Int (x1 - 2)) (Int (y1 - 2)) (Int (x1 + 2)) (Int (y1 + 2))
                      None None (Some color)
     else ret tt
   else ret tt)
  = (CarouselGraph.segment_calls shift x y width height values max_val color k, Ok tt).
Proof.
  intros Hw Hm Hk. cbv zeta.
  assert (0 < len values) as Hn by (unfold len; lia).
  cbn [to_Q].
  rewrite (int_mul_ratio (Z.of_nat k)) by lia.
  rewrite (int_mul_ratio (Z.of_nat k + 1)) by lia.
  rewrite (getitem_nth values k (nth k values (Int 0)))
    by (apply nth_error_nth'; lia).
  erewrite bind_ok by reflexivity. cbn beta.
  rewrite truediv_nonzero by exact Hm.
  erewrite bind_ok by reflexivity. cbn beta.
  replace (Z.of_nat k + 1) with (Z.of_nat (S k)) by lia.
  rewrite (getitem_nth values (S k) (nth (S k) values (Int 0)))
    by (apply nth_error_nth'; lia).
  erewrite bind_ok by reflexivity. cbn beta.
  rewrite truediv_nonzero by exact Hm.
  erewrite bind_ok by reflexivity. cbn beta.
  fold (CarouselPro.point_x x width (len values) (Z.of_nat k)).
  fold (CarouselPro.point_x x width (len values) (Z.of_nat (S k))).
  fold (CarouselPro.point_y y height max_val (nth k values (Int 0))).
  fold (CarouselPro.point_y y height max_val (nth (S k) values (Int 0))).
  cbn [calls outcome fst snd app].
  unfold CarouselGraph.segment_calls. cbv zeta.
  destruct (_ && _); [ | reflexivity ].
  destruct (Z.of_nat k mod 4 =? 0); reflexivity.
Qed.

Lemma carousel_graph_calls (x y width height : Z) (data : Deque.deque num)
      (max_val : num) (color : color) (animation_frame : Z) :
  2 <= len (Deque.items data) -> 0 <= width -> is_zero max_val = false ->
  Carousel.draw_graph x y width height data max_val color animation_frame
  = (Carousel.frame_calls x y width height color
     ++ flat_map (CarouselGraph.segment_calls animation_frame x y width height
                                              (Deque.items data) max_val color)
                 (seq 0 (length (Deque.items data) - 1))
     ++ CarouselGraph.marker_calls animation_frame x y width height
                                   (Deque.items data) max_val color,
     Ok tt).
Proof.
  set (values := Deque.items data). intros Hn Hw Hm.
  unfold Carousel.draw_graph, Deque.len, Deque.to_list. fold values.
  rewrite (proj2 (Z.ltb_ge (len values) 2) Hn).
  rewrite carousel_frame_ok.
  assert (values <> []) as Hne
      by (intros E; rewrite E in Hn; unfold len in Hn; simpl in Hn; lia).
  cbv zeta.
  rewrite truediv_nonzero by (apply is_zero_len; exact Hne).
  erewrite bind_ok by reflexivity. cbn beta.
  rewrite range_seq.
  rewrite (for_ok _ _ (fun a => CarouselGraph.segment_calls animation_frame
                                  x y width height values max_val color (Z.to_nat a))).
  - erewrite bind_ok by reflexivity. cbn beta.
    rewrite (proj2 (Z.ltb_lt 0 (len values))) by lia.
    rewrite (getitem_minus1 values (Int 0)) by exact Hne.
    erewrite bind_ok by reflexivity. cbn beta.
    rewrite truediv_nonzero by exact Hm.
    erewrite bind_ok by reflexivity. cbn beta.
    fold (CarouselPro.point_y y height max_val (List.last values (Int 0))).
    cbn [calls outcome fst snd app].
    rewrite flat_map_of_nat.
    replace (Z.to_nat (len values - 1)) with (length values - 1)%nat
      by (unfold len; lia).
    unfold CarouselGraph.marker_calls. cbv zeta.
    destruct (_ && _); reflexivity.
  - intros a Ha. apply in_map_iff in Ha. destruct Ha as (k & <- & Hk).
    apply in_seq in Hk. rewrite Nat2Z.id.
    apply (carousel_segment_ok animation_frame x y width height values max_val color k Hw Hm).
    unfold len in Hk. lia.
Qed.

(** X15.  The trace of [draw_graph] of the carousel, for a history of at
    least 2 samples, a width that is not negative and a non-zero
    ceiling: the frame (blanked region, grid, axes), then for each pair
    of successive samples the segment shifted left by [animation_frame],
    drawn when it meets the region, then the marker of the newest
    sample.  With [animation_frame = 0], which is what both callers
    pass, the segments are those of the pro carousel's graph and the
    marker sits at the right edge [x + width]. *)
Theorem carousel_graph_trace (x y width height : Z) (data : Deque.deque num)
        (max_val : num) (color : color) (animation_frame : Z) :
  let values := Deque.to_list data in
  2 <= len values -> 0 <= width -> is_zero max_val = false ->
  Carousel.draw_graph x y width height data max_val color animation_frame
  = (Carousel.frame_calls x y width height color
     ++ flat_map (CarouselGraph.segment_calls animation_frame x y width height
                                              values max_val color)
                 (seq 0 (length values - 1))
     ++ CarouselGraph.marker_calls animation_frame x y width height values max_val color,
     Ok tt)
  /\ (forall k : nat,
         (S k < length values)%nat ->
         CarouselGraph.segment_calls 0 x y width height values max_val color k
         = CarouselPro.segment_calls x y width height values max_val color k)
  /\ CarouselGraph.marker_calls 0 x y width height values max_val color
     = [Rectangle (Int (x + width - 2))
                  (Int (CarouselPro.point_y y height max_val (List.last values (Int 0)) - 2))
                  (Int (x + width + 2))
                  (Int (CarouselPro.point_y y height max_val (List.last values (Int 0)) + 2))
                  WHITE (Some color)].
Proof.
  intros values Hn Hw Hm. subst values. unfold Deque.to_list.
  split; [ apply carousel_graph_calls; assumption | split ].
  - intros k Hk.
    unfold CarouselGraph.segment_calls, CarouselPro.segment_calls. cbv zeta.
    assert (0 < len (Deque.items data)) as Hlen by (unfold len; lia).
    pose proof (point_x_range x width (len (Deque.items data)) (Z.of_nat k) Hw Hlen
                  ltac:(unfold len; lia)) as Hx1.
    pose proof (point_x_range x width (len (Deque.items data)) (Z.of_nat (S k)) Hw Hlen
                  ltac:(unfold len; lia)) as Hx2.
    rewrite !Z.sub_0_r.
    rewrite (proj2 (Z.leb_le x _)) by lia.
    rewrite (proj2 (Z.leb_le _ (x + width))) by lia.
    reflexivity.
  - unfold CarouselGraph.marker_calls. cbv zeta. rewrite !Z.sub_0_r.
    rewrite (proj2 (Z.leb_le x (x + width))) by lia.
    rewrite Z.leb_refl. reflexivity.
Qed.

End CarouselTrace.

Section GraphRegion.
Import Py Display.

Lemma point_y_range (y height : Z) (ceiling value : num) :
  0 <= height -> (0 < to_Q ceiling)%Q -> (0 <= to_Q value <= to_Q ceiling)%Q ->
  y <= CarouselPro.point_y y height ceiling value <= y + height.
Proof.
  intros Hh Hc [Hv0 Hv1]. unfold CarouselPro.point_y. cbn [mul to_Q].
  assert (0 <= to_Q value / to_Q ceiling <= 1)%Q as [Hr0 Hr1].
  { split.
    - apply Qle_shift_div_l; [ exact Hc | ]. rewrite Qmult_0_l. exact Hv0.
    - apply Qle_shift_div_r; [ exact Hc | ]. rewrite Qmult_1_l. exact Hv1. }
  assert (0 <= inject_Z height)%Q as Hh'
      by (unfold Qle; cbn [Qnum Qden inject_Z]; lia).
  set (r := (to_Q value / to_Q ceiling)%Q) in *.
  assert (0 <= r * inject_Z height)%Q as Hq0 by (apply Qmult_le_0_compat; assumption).
  assert (r * inject_Z height <= inject_Z height)%Q as Hq1.
  { rewrite <- (Qmult_1_l (inject_Z height)) at 2.
    apply Qmult_le_compat_r; assumption. }
  rewrite int_floor by exact Hq0.
  apply Qfloor_resp_le in Hq0. apply Qfloor_resp_le in Hq1.
  rewrite Qfloor_Z in Hq1. change (Qfloor 0) with 0 in Hq0. lia.
Qed.

(** A value at or above the ceiling is not clamped. *)
Lemma point_y_above (y height : Z) (ceiling value : num) :
  0 <= height -> (0 < to_Q ceiling)%Q -> (to_Q ceiling <= to_Q value)%Q ->
  CarouselPro.point_y y height ceiling value <= y.
Proof.
  intros Hh Hc Hv. unfold CarouselPro.point_y. cbn [mul to_Q].
  assert (1 <= to_Q value / to_Q ceiling)%Q as Hr1.
  { apply Qle_shift_div_l; [ exact Hc | ]. rewrite Qmult_1_l. exact Hv. }
  assert (0 <= inject_Z height)%Q as Hh'
      by (unfold Qle; cbn [Qnum Qden inject_Z]; lia).
  set (r := (to_Q value / to_Q ceiling)%Q) in *.
  assert (inject_Z height <= r * inject_Z height)%Q as Hq1.
  { rewrite <- (Qmult_1_l (inject_Z height)) at 1.
    apply Qmult_le_compat_r; assumption. }
  rewrite int_floor by (apply Qle_trans with (inject_Z height); assumption).
  apply Qfloor_resp_le in Hq1. rewrite Qfloor_Z in Hq1. lia.
Qed.

Lemma line_within_int (x y width height x1 y1 x2 y2 : Z) (c : color) (w : Z) :
  x <= x1 <= x + width -> y <= y1 <= y + height ->
  x <= x2 <= x + width -> y <= y2 <= y + height ->
  CarouselGraph.line_within x y width height (Line (Int x1) (Int y1) (Int x2) (Int y2) c w).
Proof.
  intros Hx1 Hy1 Hx2 Hy2. unfold CarouselGraph.line_within. cbn [to_Q].
  rewrite <- !Zle_Qle. lia.
Qed.

Lemma frame_within (x y width height : Z) (color : color) :
  0 <= width -> 0 <= height ->
  Forall (CarouselGraph.line_within x y width height)
         (Carousel.frame_calls x y width height color).
Proof.
  intros Hw Hh. unfold Carousel.frame_calls.
  apply Forall_cons; split; [ exact I | ].
  apply Forall_app. split.
  - apply Forall_flat_map, List.Forall_forall. intros i Hi.
    apply in_range3 in Hi; [ | lia ].
    apply Forall_cons; split; [ apply line_within_int; lia | apply Forall_nil; exact I ].
  - apply Forall_cons; split; [ apply line_within_int; lia | ].
    apply Forall_cons; split; [ apply line_within_int; lia | ].
    apply Forall_nil; exact I.
Qed.

Lemma pro_segment_within (x y width height : Z) (values : list num) (max_val : num)
      (color : color) (k : nat) :
  0 <= width -> 0 <= height -> (0 < to_Q max_val)%Q ->
  Forall (fun v => (0 <= to_Q v <= to_Q max_val)%Q) values ->
  (S k < length values)%nat ->
  Forall (CarouselGraph.line_within x y width height)
         (CarouselPro.segment_calls x y width height values max_val color k).
Proof.
  intros Hw Hh Hc Hall Hk. unfold CarouselPro.segment_calls. cbv zeta.
  assert (0 < len values) as Hn by (unfold len; lia).
  rewrite List.Forall_forall in Hall.
  apply Forall_cons; split.
  - apply line_within_int.
    + apply point_x_range; unfold len; lia.
    + apply point_y_range; [ exact Hh | exact Hc | ].
      apply Hall, nth_In. lia.
    + apply point_x_range; unfold len; lia.
    + apply point_y_range; [ exact Hh | exact Hc | ].
      apply Hall, nth_In. lia.
  - destruct (Z.of_nat k mod 4 =? 0);
      [ apply Forall_cons; split; [ exact I | ] | ]; apply Forall_nil; exact I.
Qed.

Lemma pro_graph_calls (animation_counter x y width height : Z) (data : Deque.deque num)
      (max_val : num) (color : color) :
  2 <= len (Deque.items data) -> 0 <= width -> is_zero max_val = false ->
  CarouselPro.draw_graph animation_counter x y width height data max_val color
  = (Carousel.frame_calls x y width height color
     ++ flat_map (CarouselPro.segment_calls x y width height (Deque.items data)
                                            max_val color)
                 (seq 0 (length (Deque.items data) - 1))
     ++ [CarouselPro.pulse_call animation_counter x y width height (Deque.items data)
                                max_val color],
     Ok tt).
Proof.
  set (values := Deque.items data). intros Hn Hw Hm.
  unfold CarouselPro.draw_graph, Deque.len, Deque.to_list. fold values.
  rewrite (proj2 (Z.ltb_ge (len values) 2) Hn).
  rewrite carousel_frame_ok.
  assert (values <> []) as Hne
      by (intros E; rewrite E in Hn; unfold len in Hn; simpl in Hn; lia).
  rewrite truediv_nonzero by (apply is_zero_len; exact Hne).
  erewrite bind_ok by reflexivity. cbn beta.
  rewrite range_seq.
  rewrite (for_ok _ _ (fun a => CarouselPro.segment_calls
                                  x y width height values max_val color (Z.to_nat a))).
  - erewrite bind_ok by reflexivity. cbn beta.
    rewrite (proj2 (Z.ltb_lt 0 (len values))) by lia.
    rewrite truediv_nonzero by reflexivity.
    erewrite bind_ok by reflexivity. cbn beta.
    rewrite (getitem_minus1 values (Int 0)) by exact Hne.
    erewrite bind_ok by reflexivity. cbn beta.
    rewrite truediv_nonzero by exact Hm.
    erewrite bind_ok by reflexivity. cbn beta.
    cbn [calls outcome fst snd app].
    rewrite flat_map_of_nat.
    replace (Z.to_nat (len values - 1)) with (length values - 1)%nat
      by (unfold len; lia).
    reflexivity.
  - intros a Ha. apply in_map_iff in Ha. destruct Ha as (k & <- & Hk).
    apply in_seq in Hk. rewrite Nat2Z.id.
    apply (pro_segment_ok x y width height values max_val color k Hw Hm).
    unfold len in Hk. lia.
Qed.

(** X16.  With at least 2 samples, all between 0 and a positive
    ceiling, every line that the line graph of the carousel (unshifted)
    and that of the pro carousel draw has both end points inside the
    region from [(x, y)] to [(x + width, y + height)]; a sample at or
    above the ceiling is placed at the top edge or above it, so only
    such samples can leave the region.  Floats are taken as exact
    rationals. *)
Theorem line_graphs_stay_in_region
        (animation_counter x y width height : Z) (data : Deque.deque num)
        (max_val : num) (color : color) :
  2 <= Deque.len data -> 0 <= width -> 0 <= height -> (0 < to_Q max_val)%Q ->
  Forall (fun v => (0 <= to_Q v <= to_Q max_val)%Q) (Deque.to_list data) ->
  Forall (CarouselGraph.line_within x y width height)
         (calls (Carousel.draw_graph x y width height data max_val color 0))
  /\ Forall (CarouselGraph.line_within x y width height)
            (calls (CarouselPro.draw_graph animation_counter x y width height data
                                           max_val color))
  /\ (forall v : num,
         (to_Q max_val <= to_Q v)%Q -> CarouselPro.point_y y height max_val v <= y).
Proof.
  unfold Deque.len, Deque.to_list. intros Hn Hw Hh Hc Hall.
  assert (is_zero max_val = false) as Hm by (apply is_zero_false_pos; exact Hc).
  assert (Forall (CarouselGraph.line_within x y width height)
                 (flat_map (CarouselPro.segment_calls x y width height (Deque.items data)
                                                      max_val color)
                           (seq 0 (length (Deque.items data) - 1)))) as Hsegs.
  { apply Forall_flat_map, List.Forall_forall. intros k Hk. apply in_seq in Hk.
    apply pro_segment_within; try assumption. lia. }
  split; [ | split ].
  - rewrite carousel_graph_calls by assumption. cbn [calls fst].
    apply Forall_app. split; [ apply frame_within; assumption | ].
    apply Forall_app. split.
    + apply Forall_flat_map, List.Forall_forall. intros k Hk. apply in_seq in Hk.
      pose proof (pro_segment_within x y width height (Deque.items data) max_val color k
                    Hw Hh Hc Hall ltac:(lia)) as Hseg.
      unfold CarouselPro.segment_calls in Hseg. cbv zeta in Hseg.
      unfold CarouselGraph.segment_calls. cbv zeta. rewrite !Z.sub_0_r.
      destruct (_ && _); [ exact Hseg | apply Forall_nil; exact I ].
    + unfold CarouselGraph.marker_calls. cbv zeta.
      destruct (_ && _); [ apply Forall_cons; split; [ exact I | ] | ];
        apply Forall_nil; exact I.
  - rewrite pro_graph_calls by assumption. cbn [calls fst].
    apply Forall_app. split; [ apply frame_within; assumption | ].
    apply Forall_app. split; [ exact Hsegs | ].
    apply Forall_cons; split; [ exact I | apply Forall_nil; exact I ].
  - intros v Hv. apply point_y_above; assumption.
Qed.

End GraphRegion.

Section BarFill.
Import Py Display.

Lemma int_negative (q : Q) : (q <= 0)%Q -> int (Float q) = - Qfloor (- q).
Proof.
  destruct q as [n d]. unfold Qle, int, Qfloor, Qopp. cbn [Qnum Qden]. intros H.
  replace n with (- (- n)) at 1 by lia.
  rewrite Z.quot_opp_l by discriminate.
  rewrite Z.quot_div_nonneg by lia. reflexivity.
Qed.

(** [int] keeps the order. *)
Lemma int_monotone (p q : Q) : (p <= q)%Q -> int (Float p) <= int (Float q).
Proof.
  intros Hpq.
  destruct (Qlt_le_dec p 0) as [Hp | Hp]; destruct (Qlt_le_dec q 0) as [Hq | Hq].
  - rewrite !int_negative by (apply Qlt_le_weak; assumption).
    assert (- q <= - p)%Q as Hopp by (apply Qopp_le_compat; exact Hpq).
    apply Qfloor_resp_le in Hopp. lia.
  - rewrite int_negative by (apply Qlt_le_weak; assumption).
    rewrite int_floor by exact Hq.
    assert (0 <= - p)%Q as Hopp.
    { apply Qlt_le_weak in Hp. apply Qopp_le_compat in Hp. exact Hp. }
    apply Qfloor_resp_le in Hopp. apply Qfloor_resp_le in Hq.
    change (Qfloor 0) with 0 in *. lia.
  - exfalso. apply (Qlt_irrefl 0).
    apply Qle_lt_trans with q; [ apply Qle_trans with p; assumption | exact Hq ].
  - rewrite !int_floor by assumption. apply Qfloor_resp_le. exact Hpq.
Qed.

Lemma to_Q_min_monotone (v w : num) :
  (to_Q v <= to_Q w)%Q -> (to_Q (min v (Int 100)) <= to_Q (min w (Int 100)))%Q.
Proof.
  intros Hvw. unfold min, lt.
  destruct (Qle_bool (to_Q v) (to_Q (Int 100))) eqn:Ev;
    destruct (Qle_bool (to_Q w) (to_Q (Int 100))) eqn:Ew; cbn [negb].
  - exact Hvw.
  - apply Qle_bool_iff in Ev. exact Ev.
  - apply Qle_bool_iff in Ew. exfalso.
    assert (Qle_bool (to_Q v) (to_Q (Int 100)) = true) as Hv
        by (apply Qle_bool_iff; apply Qle_trans with (to_Q w); assumption).
    congruence.
  - apply Qle_refl.
Qed.

Lemma fill_width_monotone (bar_width : Z) (v w : num) :
  2 <= bar_width -> (to_Q v <= to_Q w)%Q ->
  Stats.fill_width bar_width v <= Stats.fill_width bar_width w.
Proof.
  intros Hb Hvw. unfold Stats.fill_width. apply int_monotone.
  rewrite !to_Q_mul. cbn [to_Q].
  apply Qmult_le_compat_r; [ | discriminate ].
  rewrite !(Qmult_comm (inject_Z (bar_width - 2))).
  apply Qmult_le_compat_r; [ apply to_Q_min_monotone; exact Hvw | ].
  unfold Qle; cbn [Qnum Qden inject_Z]; lia.
Qed.

Lemma fill_width_zero (bar_width : Z) : Stats.fill_width bar_width (Int 0) = 0.
Proof.
  unfold Stats.fill_width. change (min (Int 0) (Int 100)) with (Int 0).
  cbn [mul to_Q]. apply (int_whole _ 0).
  rewrite Z.mul_0_r. reflexivity.
Qed.

(** X17.  The fill of the progress bar of [draw_stats_row], for a bar at
    least 2 pixels wide, is monotone in the value, is the whole inside
    [bar_width - 2] for every value of 100 or more, is not positive for
    a value of 0 or less, and is 0 at 0. *)
Theorem progress_bar_fill_monotone (bar_width : Z) (v w : num) :
  2 <= bar_width ->
  ((to_Q v <= to_Q w)%Q -> Stats.fill_width bar_width v <= Stats.fill_width bar_width w)
  /\ ((inject_Z 100 <= to_Q v)%Q -> Stats.fill_width bar_width v = bar_width - 2)
  /\ ((to_Q v <= 0)%Q -> Stats.fill_width bar_width v <= 0)
  /\ Stats.fill_width bar_width (Int 0) = 0.
Proof.
  intros Hb. split; [ | split; [ | split ] ].
  - apply fill_width_monotone. exact Hb.
  - intros Hv. unfold Stats.fill_width. apply int_whole.
    rewrite to_Q_mul. cbn [to_Q].
    assert (to_Q (min v (Int 100)) == inject_Z 100)%Q as ->.
    { unfold min, lt.
      destruct (Qle_bool (to_Q v) (to_Q (Int 100))) eqn:Ev; cbn [negb to_Q].
      - apply Qle_bool_iff in Ev. cbn [to_Q] in Ev. apply Qle_antisym; assumption.
      - reflexivity. }
    field.
  - intros Hv.
    apply Z.le_trans with (Stats.fill_width bar_width (Int 0)).
    + apply fill_width_monotone; [ exact Hb | exact Hv ].
    + rewrite fill_width_zero. lia.
  - apply fill_width_zero.
Qed.

End BarFill.

Section GraphExamples.
Import Py Display.

Lemma graphs_return_with_nonzero_ceiling_witness :
  outcome (Carousel.draw_graph 15 160 210 110
             {| Deque.maxlen := 20; Deque.items := [Int 10; Float (455 # 10)] |}
             (Int 100) RED 0) = Ok tt
  /\ outcome (Premium.draw_bar_chart 15 160 210 110
                {| Deque.maxlen := 20; Deque.items := [Int 10; Float (455 # 10)] |}
                (Int 100) RED) = Ok tt.
Proof.
  destruct (graphs_return_with_nonzero_ceiling 0 0 15 160 210 110
              {| Deque.maxlen := 20; Deque.items := [Int 10; Float (455 # 10)] |}
              (Int 100) RED) as (Hline & _ & _ & _ & Hbar).
  - vm_compute. discriminate.
  - vm_compute. discriminate.
  - vm_compute. discriminate.
  - vm_compute. discriminate.
  - repeat constructor; vm_compute; discriminate.
  - split; vm_compute; discriminate.
  - split; [ exact Hline | exact Hbar ].
Defined.

Lemma carousel_graph_trace_witness :
  Carousel.draw_graph 15 160 210 110
    {| Deque.maxlen := 20; Deque.items := [Int 10; Float (455 # 10)] |} (Int 100) RED 3
  = (Carousel.frame_calls 15 160 210 110 RED
     ++ flat_map (CarouselGraph.segment_calls 3 15 160 210 110
                    [Int 10; Float (455 # 10)] (Int 100) RED) (seq 0 1)
     ++ CarouselGraph.marker_calls 3 15 160 210 110 [Int 10; Float (455 # 10)] (Int 100) RED,
     Ok tt).
Proof.
  apply (carousel_graph_trace 15 160 210 110
           {| Deque.maxlen := 20; Deque.items := [Int 10; Float (455 # 10)] |}
           (Int 100) RED 3).
  - discriminate.
  - lia.
  - reflexivity.
Defined.

Lemma line_graphs_stay_in_region_witness :
  Forall (CarouselGraph.line_within 15 160 210 110)
         (calls (Carousel.draw_graph 15 160 210 110
                   {| Deque.maxlen := 20; Deque.items := [Int 10; Float (455 # 10)] |}
                   (Int 100) RED 0)).
Proof.
  apply (line_graphs_stay_in_region 0 15 160 210 110
           {| Deque.maxlen := 20; Deque.items := [Int 10; Float (455 # 10)] |}
           (Int 100) RED).
  - discriminate.
  - lia.
  - lia.
  - reflexivity.
  - repeat constructor; discriminate.
Defined.

Lemma progress_bar_fill_monotone_witness :
  2 <= 100 /\ Stats.fill_width 100 (Int 30) <= Stats.fill_width 100 (Float (605 # 10)).
Proof.
  split; [ lia | ].
  apply (progress_bar_fill_monotone 100 (Int 30) (Float (605 # 10))); [ lia | ].
  discriminate.
Defined.

End GraphExamples.

(** ** Pages and main loop of the carousel *)

Section CarouselPagesProofs.
Import Py Display Metrics Carousel CarouselRun CarouselPages.

Lemma stat_lookup (stat_key : string) (st : gmap string pyval) :
  (if String.eqb stat_key "disk" then dict_get st "disk" else dict_get st stat_key)
  = dict_get st stat_key.
Proof.
  destruct (String.eqb stat_key "disk") eqn:E; [ | reflexivity ].
  apply String.eqb_eq in E. rewrite E. reflexivity.
Qed.

Lemma frames_drawn (t : list pil_call) : frames (map Drawn t) = 0%nat.
Proof. induction t as [ | c t IH]; [ reflexivity | exact IH ]. Qed.

Lemma frames_app (l l' : list screen_event) : frames (l ++ l') = (frames l + frames l')%nat.
Proof. unfold frames. rewrite List.filter_app, length_app. reflexivity. Qed.

Lemma frames_shown (m : draw unit) : snd (shown m) = Ok tt -> frames (fst (shown m)) = 1%nat.
Proof.
  destruct m as [t [[] | e]]; cbn [shown fst snd]; [ | discriminate ].
  intros _. rewrite frames_app, frames_drawn. reflexivity.
Qed.

(** The title bar of both pages. *)
Lemma title_bar_ok (title : string) (color : color) (k : draw unit) :
  (draw_rectangle (Int 0) (Int 0) (Int width) (Int 60) None None (Some color) >>
   draw_rectangle (Int 0) (Int 0) (Int width) (Int 60) None (Some WHITE) None >>
   draw_rectangle (Int 2) (Int 2) (Int (width - 2)) (Int 58) None (Some WHITE) None >>
   draw_text (Int (width / 2)) (Int 30) (upper title)
             (Some font_large) (Some BLACK) (Some "mm"%string) >>
   k)
  = ([ Rectangle (Int 0) (Int 0) (Int 240) (Int 60) WHITE (Some color);
       Rectangle (Int 0) (Int 0) (Int 240) (Int 60) WHITE None;
       Rectangle (Int 2) (Int 2) (Int 238) (Int 58) WHITE None;
       Text (Int 120) (Int 30) (upper title) font_large BLACK "mm" ] ++ calls k,
     outcome k).
Proof.
  do 4 (erewrite bind_ok by reflexivity). cbn [calls outcome fst snd app].
  reflexivity.
Qed.

(** What both pages draw below the title bar. *)
Lemma page_body_ok (stat_key : string) (color : color) (max_val : num) (self : dashboard)
      (value : pyval) (text : string) (d : Deque.deque num) :
  format_1f value = Ok text -> history self !! stat_key = Some d ->
  is_zero max_val = false ->
  (let+ value_text := lift (format_1f value) in
   draw_text (Int (width / 2)) (Int (110 - 15)) value_text
             (Some font_large) (Some color) (Some "mm"%string) >>
   draw_text (Int (width / 2)) (Int (110 + 15))
             (if is_percentage stat_key then "%"%string else "°C"%string)
             (Some font_large) (Some color) (Some "mm"%string) >>
   let+ data := lift (dict_get (history self) stat_key) in
   Carousel.draw_graph 15 160 (width - 30) 110 data max_val color 0)
  = ([ Text (Int 120) (Int 95) text font_large color "mm";
       Text (Int 120) (Int 125) (if is_percentage stat_key then "%" else "°C")
            font_large color "mm" ]
     ++ calls (Carousel.draw_graph 15 160 210 110 d max_val color 0), Ok tt).
Proof.
  intros Htext Hh Hm. rewrite Htext.
  erewrite bind_ok by reflexivity. cbn beta.
  do 2 (erewrite bind_ok by reflexivity).
  unfold dict_get. rewrite Hh.
  erewrite bind_ok by reflexivity. cbn beta.
  change (width - 30) with 210.
  cbn [calls outcome fst snd app].
  rewrite (carousel_graph_returns 15 160 210 110 d max_val color 0 Hm). reflexivity.
Qed.

Lemma bind_lift_ok {A B} (a : A) (f : A -> draw B) : bind (lift (Ok a)) f = f a.
Proof. unfold bind, lift. destruct (f a). reflexivity. Qed.

Lemma bind_clear (k : draw unit) :
  (clear (Some BLACK) >> k) = (Paste BLACK (0, 0, 240, 280) :: calls k, outcome k).
Proof. erewrite bind_ok by reflexivity. reflexivity. Qed.

(** A numeric statistic with a history: the page that both routines
    show. *)
Lemma numeric_page_ok (title stat_key : string) (color : color) (max_val : num)
      (self : dashboard) (v : num) (d : Deque.deque num) :
  stats self !! stat_key = Some (VNum v) ->
  history self !! stat_key = Some d ->
  is_zero max_val = false ->
  exists text : string,
    format_1f (VNum v) = Ok text
    /\ render_animated_page title stat_key color max_val self
       = (map Drawn
            ([ Paste BLACK (0, 0, 240, 280);
               Rectangle (Int 0) (Int 0) (Int 240) (Int 60) WHITE (Some color);
               Rectangle (Int 0) (Int 0) (Int 240) (Int 60) WHITE None;
               Rectangle (Int 2) (Int 2) (Int 238) (Int 58) WHITE None;
               Text (Int 120) (Int 30) (upper title) font_large BLACK "mm" ]
             ++ [ Text (Int 120) (Int 95) text font_large color "mm";
                  Text (Int 120) (Int 125)
                       (if is_percentage stat_key then "%" else "°C")
                       font_large color "mm" ]
             ++ calls (Carousel.draw_graph 15 160 210 110 d max_val color 0))
          ++ [Shown], Ok tt)
    /\ draw_stat_page title stat_key color max_val self
       = render_animated_page title stat_key color max_val self.
Proof.
  intros Hs Hh Hm.
  unfold render_animated_page, draw_stat_page. rewrite !stat_lookup.
  assert (exists text, format_1f (VNum v) = Ok text) as [text Htext]
      by (destruct v; eexists; reflexivity).
  exists text. split; [ exact Htext | ].
  assert (dict_get (stats self) stat_key = Ok (VNum v)) as ->
      by (unfold dict_get; rewrite Hs; reflexivity).
  rewrite bind_lift_ok. rewrite !bind_clear. rewrite bind_lift_ok.
  rewrite !title_bar_ok. cbv zeta.
  rewrite !(page_body_ok stat_key color max_val self (VNum v) text d Htext Hh Hm).
  cbn [calls outcome fst snd app shown]. split; reflexivity.
Qed.


End CarouselPagesProofs.

Section CarouselLoop.
Import Py Display Metrics Carousel CarouselRun CarouselPages.

Lemma keeps_pages_andthen (a b : method) :
  keeps_pages a -> keeps_pages b -> keeps_pages (andthen a b).
Proof.
  intros Ha Hb self. unfold andthen. specialize (Ha self).
  destruct (a self) as [self' [u | e]]; cbn [fst] in *.
  - destruct (Hb self') as [Hp Hc]. rewrite Hp, Hc. exact Ha.
  - exact Ha.
Qed.

Lemma keeps_pages_guarded (body : method) : keeps_pages body -> keeps_pages (guarded body).
Proof.
  intros Hb self. unfold guarded. specialize (Hb self).
  destruct (body self) as [self' [u | e]]; [ exact Hb | ].
  destruct (is_Exception e); exact Hb.
Qed.

Lemma keeps_pages_store_stat (key : string) (value : result pyval) :
  keeps_pages (store_stat key value).
Proof. intros self. unfold store_stat. destruct value; split; reflexivity. Qed.

Lemma keeps_pages_record_history (key : string) : keeps_pages (record_history key).
Proof.
  intros self. unfold record_history.
  destruct (history self !! key) as [d | ]; [ | split; reflexivity ].
  destruct (stats self !! key) as [[n | t | m] | ]; split; reflexivity.
Qed.

Lemma update_stats_keeps_pages (sys : system) : keeps_pages (update_stats sys).
Proof.
  unfold update_stats. apply keeps_pages_guarded.
  repeat (apply keeps_pages_andthen; [ apply keeps_pages_store_stat | ]).
  repeat (apply keeps_pages_andthen; [ apply keeps_pages_record_history | ]).
  apply keeps_pages_record_history.
Qed.

Lemma no_interrupt_readings (sys : system) :
  no_interrupt sys = true -> exists r, readings sys = Ok r.
Proof.
  unfold no_interrupt. rewrite !andb_true_iff.
  intros (((((((H1 & H2) & H3) & H4) & H5) & H6) & H7) & H8).
  unfold readings.
  destruct (get_cpu_usage_returns _ H1) as [v1 ->].
  destruct (get_memory_usage_returns _ H2) as [v2 ->].
  destruct (get_temperature_returns _ H3) as [v3 ->].
  destruct (get_gpu_temperature_returns _ H4) as [v4 ->].
  destruct (get_disk_usage_returns _ H5) as [v5 ->].
  eexists. reflexivity.
Qed.

(** After a round in which the five collectors return, the five metrics
    of the pages are numbers. *)
Lemma update_stats_stores (sys : system) (self : dashboard)
      (cpu memory cpu_temp gpu_temp disk : num) (d1 d2 d3 d4 d5 : Deque.deque num) :
  readings sys = Ok (cpu, memory, cpu_temp, gpu_temp, disk) ->
  history self !! "cpu"%string = Some d1 ->
  history self !! "memory"%string = Some d2 ->
  history self !! "cpu_temp"%string = Some d3 ->
  history self !! "gpu_temp"%string = Some d4 ->
  history self !! "disk"%string = Some d5 ->
  let after := stats (fst (update_stats sys self)) in
  after !! "cpu"%string = Some (VNum cpu)
  /\ after !! "memory"%string = Some (VNum memory)
  /\ after !! "cpu_temp"%string = Some (VNum cpu_temp)
  /\ after !! "gpu_temp"%string = Some (VNum gpu_temp)
  /\ after !! "disk"%string = Some (VNum disk).
Proof.
  intros Hr H1 H2 H3 H4 H5 after. subst after. unfold readings in Hr.
  destruct (get_cpu_usage (proc_stat sys)) as [v1 | ] eqn:E1; [ | discriminate ].
  destruct (get_memory_usage (proc_meminfo sys)) as [v2 | ] eqn:E2; [ | discriminate ].
  destruct (get_temperature (thermal_zone0 sys)) as [v3 | ] eqn:E3; [ | discriminate ].
  destruct (get_gpu_temperature (vcgencmd sys)) as [v4 | ] eqn:E4; [ | discriminate ].
  destruct (get_disk_usage (root_disk sys)) as [v5 | ] eqn:E5; [ | discriminate ].
  cbn [Py.bind] in Hr. injection Hr as -> -> -> -> <-.
  unfold update_stats. rewrite E1, E2, E3, E4, E5.
  destruct (get_uptime_returns (proc_uptime sys)) as [up ->].
  destruct (get_ip_address_returns (socket_ip sys)) as [ip ->].
  destruct (get_hostname_returns (etc_hostname sys)) as [host ->].
  cbn [Py.bind]. unfold guarded, andthen, store_stat, record_history.
  cbn [history stats set_stats set_history].
  repeat (rewrite ?lookup_insert_eq, ?lookup_insert_ne by discriminate;
          rewrite ?H1, ?H2, ?H3, ?H4, ?H5;
          cbn [history stats set_stats set_history]).
  cbn [fst snd stats history set_stats set_history].
  repeat split; repeat (rewrite lookup_insert_ne by discriminate); apply lookup_insert_eq.
Qed.

Lemma init_page_at (k : Z) :
  0 <= k < 5 ->
  exists title stat_key color,
    getitem (pages (init (Int 0) (Int 0))) k = Ok (title, stat_key, color, Int 100)
    /\ In stat_key history_keys.
Proof.
  intros Hk.
  assert (k = 0 \/ k = 1 \/ k = 2 \/ k = 3 \/ k = 4) as Hcases by lia.
  destruct Hcases as [-> | [-> | [-> | [-> | ->]]]];
    do 3 eexists; (split; [ reflexivity | unfold history_keys; simpl; tauto ]).
Qed.

Lemma run_iteration_ok (sys : system) (now later : num) (self : dashboard) :
  loop_invariant self -> no_interrupt sys = true ->
  exists self' log,
    run_iteration (sys, now, later) self = (self', log, Ok tt)
    /\ loop_invariant self'
    /\ frames log = 1%nat.
Proof.
  intros (Hpages & Hcur & n & Hn & Hal) Hsys.
  destruct (no_interrupt_readings sys Hsys) as [[[[[a b] c] d] e] Hr].
  destruct (aligned_lookup _ _ "cpu"%string Hal) as (d1 & H1 & _);
    [ unfold history_keys; simpl; tauto | ].
  destruct (aligned_lookup _ _ "memory"%string Hal) as (d2 & H2 & _);
    [ unfold history_keys; simpl; tauto | ].
  destruct (aligned_lookup _ _ "cpu_temp"%string Hal) as (d3 & H3 & _);
    [ unfold history_keys; simpl; tauto | ].
  destruct (aligned_lookup _ _ "gpu_temp"%string Hal) as (d4 & H4 & _);
    [ unfold history_keys; simpl; tauto | ].
  destruct (aligned_lookup _ _ "disk"%string Hal) as (d5 & H5 & _);
    [ unfold history_keys; simpl; tauto | ].
  pose proof (update_stats_stores sys self a b c d e d1 d2 d3 d4 d5 Hr H1 H2 H3 H4 H5)
    as Hstats.
  cbv zeta in Hstats.
  destruct (update_stats_keeps_aligned sys self n Hal Hn) as (n1 & _ & Hn1 & Hal1).
  destruct (update_stats_keeps_pages sys self) as [Hp1 Hc1].
  pose proof (update_stats_returns sys self Hsys) as Hok.
  unfold run_iteration.
  destruct (update_stats sys self) as [self1 r1]. cbn [fst snd] in *. subst r1.
  rewrite Hp1, Hc1, Hpages.
  destruct (init_page_at (current_page self) Hcur) as (title & key & color & -> & Hkey).
  destruct (aligned_lookup _ _ key Hal1 Hkey) as (dk & Hdk & _).
  assert (exists v, stats self1 !! key = Some (VNum v)) as [v Hv].
  { destruct Hstats as (S1 & S2 & S3 & S4 & S5).
    unfold history_keys in Hkey. simpl in Hkey.
    destruct Hkey as [<- | [<- | [<- | [<- | [<- | []]]]]]; eexists; eassumption. }
  destruct (numeric_page_ok title key color (Int 100) self1 v dk Hv Hdk eq_refl)
    as (text & _ & Hrender & _).
  rewrite Hrender.
  destruct (update_page_step self1 now later) as (Hup & Hp2 & Hh2 & _ & _ & Hc2);
    [ rewrite Hp1, Hpages; reflexivity
    | rewrite Hp1, Hc1, Hpages; exact Hcur | ].
  cbv zeta in Hp2, Hh2, Hc2.
  destruct (update_page now later self1) as [self2 r2]. cbn [fst snd] in *. subst r2.
  exists self2. eexists. split; [ reflexivity | split ].
  - split; [ rewrite Hp2, Hp1; exact Hpages | split ].
    + rewrite Hp1, Hpages in Hc2. change (len (pages (init (Int 0) (Int 0)))) with 5 in Hc2.
      destruct Hc2 as [-> | ->]; [ lia | apply Z.mod_pos_bound; lia ].
    + exists n1. split; [ exact Hn1 | rewrite Hh2; exact Hal1 ].
  - rewrite frames_app, frames_drawn. reflexivity.
Qed.

Lemma loop_ok (inputs : list (system * num * num)) (self : dashboard) :
  loop_invariant self ->
  Forall (fun input => no_interrupt (fst (fst input)) = true) inputs ->
  exists self' log,
    loop inputs self = (self', log, Ok tt)
    /\ loop_invariant self'
    /\ frames log = length inputs.
Proof.
  intros Hinv Hall. revert self Hinv.
  induction Hall as [ | [[sys now] later] inputs Hsys _ IH]; intros self Hinv.
  - exists self, []. split; [ reflexivity | split; [ exact Hinv | reflexivity ] ].
  - cbn [fst] in Hsys.
    destruct (run_iteration_ok sys now later self Hinv Hsys)
      as (self1 & log1 & Hrun & Hinv1 & Hf1).
    destruct (IH self1 Hinv1) as (self2 & log2 & Hloop & Hinv2 & Hf2).
    exists self2, (log1 ++ log2). cbn [loop]. rewrite Hrun, Hloop.
    split; [ reflexivity | split; [ exact Hinv2 | ] ].
    rewrite frames_app, Hf1, Hf2. reflexivity.
Qed.

Lemma loop_invariant_init (page_duration now : num) :
  loop_invariant (init page_duration now).
Proof.
  split; [ reflexivity | split; [ cbn; lia | ] ].
  exists 0%nat. split; [ lia | apply aligned_init ].
Qed.






Lemma loop_app (l1 l2 : list (system * num * num)) (self : dashboard) :
  loop (l1 ++ l2) self
  = match loop l1 self with
    | (self1, log1, Ok _) =>
        let '(self2, log2, r) := loop l2 self1 in (self2, log1 ++ log2, r)
    | (self1, log1, Raise e) => (self1, log1, Raise e)
    end.
Proof.
  revert self. induction l1 as [ | input l1 IH]; intros self.
  - cbn [app loop]. destruct (loop l2 self) as [[self2 log2] r]. reflexivity.
  - cbn [app loop]. destruct (run_iteration input self) as [[self1 log1] [[] | e]];
      [ | reflexivity ].
    rewrite IH. destruct (loop l1 self1) as [[self2 log2] [[] | e]]; [ | reflexivity ].
    destruct (loop l2 self2) as [[self3 log3] r]. rewrite app_assoc. reflexivity.
Qed.

(** X20.  When a [KeyboardInterrupt] or [SystemExit] reaches
    [update_stats] in some turn of [run()], the turns before it have
    each sent their frame, no frame is sent in that turn or after it,
    [cleanup()] is still called, and [run()] returns normally for
    [KeyboardInterrupt] and lets [SystemExit] through. *)
Theorem carousel_loop_stops_on_interrupt
        (before after : list (system * num * num)) (sys : system) (now later : num)
        (page_duration t0 : num) (e : exn) :
  Forall (fun input => no_interrupt (fst (fst input)) = true) before ->
  readings sys = Raise e -> is_Exception e = false ->
  exists self' log,
    run (before ++ (sys, now, later) :: after) (init page_duration t0)
    = (self', log ++ [CleanedUp],
       match e with KeyboardInterrupt => Ok tt | _ => Raise e end)
    /\ frames log = length before.
Proof.
  intros Hall Hr He.
  destruct (loop_ok before (init page_duration t0) (loop_invariant_init _ _) Hall)
    as (self1 & log & Hloop & _ & Hf).
  destruct (update_stats_stops sys self1 e Hr) as (_ & _ & _ & Hstop).
  rewrite He in Hstop.
  exists (fst (update_stats sys self1)), log.
  unfold run. rewrite loop_app, Hloop. cbn [loop run_iteration].
  destruct (update_stats sys self1) as [self2 r2]. cbn [fst snd] in *. subst r2.
  rewrite app_nil_r. split; [ | exact Hf ].
  destruct e; try discriminate; reflexivity.
Qed.

End CarouselLoop.

Section CarouselLoopExamples.
Import Py Display Metrics Carousel CarouselPages.



Lemma carousel_loop_stops_on_interrupt_witness :
  readings (all_fail KeyboardInterrupt) = Raise KeyboardInterrupt
  /\ exists self' log,
      run ([(all_fail OSError, Int 0, Int 0)]
           ++ (all_fail KeyboardInterrupt, Int 1, Int 1)
           :: [(all_fail OSError, Int 2, Int 2)])
          (init (Int 5) (Int 0))
      = (self', log ++ [CleanedUp], Ok tt)
      /\ frames log = 1%nat.
Proof.
  split; [ reflexivity | ].
  destruct (carousel_loop_stops_on_interrupt
              [(all_fail OSError, Int 0, Int 0)] [(all_fail OSError, Int 2, Int 2)]
              (all_fail KeyboardInterrupt) (Int 1) (Int 1) (Int 5) (Int 0)
              KeyboardInterrupt)
    as (self' & log & Hrun & Hframes).
  - repeat constructor.
  - reflexivity.
  - reflexivity.
  - exists self', log. split; [ exact Hrun | exact Hframes ].
Defined.

End CarouselLoopExamples.

(** ** The frame of the stats dashboard *)

Section StatsFrameProofs.
Import Py Display Metrics Carousel CarouselPages StatsFrame.

Variable repr_float : Q -> string.
Variable repr_dict : gmap string num -> string.







End StatsFrameProofs.

(** ** Address field, NAS bar and curves *)

Section ShortAddress.
Import Py EnhancedNetwork.

Lemma split_on_last (sep : ascii) (s : string) :
  exists (fields : list string) (last prefix : string),
    split_on sep s = fields ++ [last]
    /\ contains sep last = false
    /\ s = prefix +:+ last
    /\ (fields = [] -> prefix = EmptyString /\ contains sep s = false)
    /\ (fields <> [] -> exists p, prefix = p +:+ String sep EmptyString).
Proof.
  induction s as [ | c s IH].
  - exists [], EmptyString, EmptyString. repeat split; try reflexivity.
    intros H. congruence.
  - destruct IH as (fields & last & prefix & Hsplit & Hlast & Hs & Hnil & Hcons).
    cbn [split_on contains]. destruct (Ascii.eqb c sep) eqn:E.
    + apply Ascii.eqb_eq in E. subst c.
      exists (EmptyString :: fields), last, (String sep prefix).
      rewrite Hsplit. split; [ reflexivity | split; [ exact Hlast | split ] ].
      * rewrite Hs at 1. reflexivity.
      * split; [ discriminate | ]. intros _.
        destruct fields as [ | f fields].
        -- destruct (Hnil eq_refl) as [-> _]. exists EmptyString. reflexivity.
        -- destruct (Hcons ltac:(discriminate)) as [p ->].
           exists (String sep p). reflexivity.
    + rewrite Hsplit. destruct fields as [ | f fields].
      * destruct (Hnil eq_refl) as [-> Hno]. cbn [app].
        exists [], (String c last), EmptyString.
        split; [ reflexivity | split; [ | split; [ | split ] ] ].
        -- cbn [contains]. rewrite E, Hlast. reflexivity.
        -- rewrite Hs at 1. reflexivity.
        -- intros _. split; [ reflexivity | ]. cbn [orb]. exact Hno.
        -- intros H. congruence.
      * cbn [app]. destruct (Hcons ltac:(discriminate)) as [p Hp].
        exists (String c f :: fields), last, (String c prefix).
        split; [ reflexivity | split; [ exact Hlast | split; [ | split ] ] ].
        -- rewrite Hs at 1. reflexivity.
        -- discriminate.
        -- intros _. exists (String c p). rewrite Hp. reflexivity.
Qed.

(** X22.  The text shown for the address by [draw_network_section] of
    the enhanced dashboard never fails and holds no dot: it is the part
    of the address after its last dot, and the whole address when it has
    no dot (as ["N/A"]). *)
Theorem ip_short_is_last_field (ip : string) :
  exists short prefix : string,
    ip_short ip = Ok short
    /\ contains "." short = false
    /\ ip = prefix +:+ short
    /\ (contains "." ip = false -> short = ip)
    /\ (contains "." ip = true -> exists p, prefix = p +:+ ".").
Proof.
  destruct (split_on_last "." ip) as (fields & last & prefix & Hsplit & Hlast & Hs & Hnil & Hcons).
  unfold ip_short. destruct (contains "." ip) eqn:E.
  - exists last, prefix. rewrite Hsplit, getitem_last.
    split; [ reflexivity | split; [ exact Hlast | split; [ exact Hs | split ] ] ].
    + discriminate.
    + intros _. apply Hcons. intros ->. destruct (Hnil eq_refl) as [_ Hno]. congruence.
  - exists ip, EmptyString.
    split; [ reflexivity | split; [ exact E | split; [ reflexivity | split ] ] ].
    + reflexivity.
    + discriminate.
Qed.

End ShortAddress.

Section NasStorage.
Import Py Display PremiumInfo.

Lemma to_Q_int_div (a b : Z) : (to_Q (Float (to_Q (Int a) / to_Q (Int b))) == inject_Z a / inject_Z b)%Q.
Proof. reflexivity. Qed.

Lemma gt_zero_spec (a : num) : gt a (Int 0) = true <-> (0 < to_Q a)%Q.
Proof.
  unfold gt, lt. cbn [to_Q]. rewrite negb_true_iff. split.
  - intros H. apply Qnot_le_lt. intros Hle. apply Qle_bool_iff in Hle.
    change (inject_Z 0) with 0%Q in H. congruence.
  - intros H. destruct (Qle_bool (to_Q a) (inject_Z 0)) eqn:E; [ | reflexivity ].
    apply Qle_bool_iff in E. exfalso. exact (Qlt_not_le _ _ H E).
Qed.

(** The width of the fill for a percentage between 0 and 100. *)
Lemma nas_fill_width_range (nas_percent : num) :
  (0 <= to_Q nas_percent <= inject_Z 100)%Q -> 0 <= nas_fill_width nas_percent <= 208.
Proof.
  intros [H0 H100]. unfold nas_fill_width.
  assert (to_Q (mul (Int 208) nas_percent) / to_Q (Int 100)
          == inject_Z 208 * (to_Q nas_percent / inject_Z 100))%Q as Hq.
  { rewrite to_Q_mul. cbn [to_Q]. field. }
  assert (0 <= to_Q nas_percent / inject_Z 100 <= 1)%Q as [Hr0 Hr1].
  { split.
    - apply Qle_shift_div_l; [ reflexivity | ]. rewrite Qmult_0_l. exact H0.
    - apply Qle_shift_div_r; [ reflexivity | ]. rewrite Qmult_1_l. exact H100. }
  set (r := (to_Q nas_percent / inject_Z 100)%Q) in *.
  assert (0 <= inject_Z 208 * r)%Q as Hnn
      by (apply Qmult_le_0_compat; [ discriminate | exact Hr0 ]).
  rewrite int_floor by (rewrite Hq; exact Hnn).
  rewrite Hq. split.
  - change 0 with (Qfloor (inject_Z 0)). apply Qfloor_resp_le. exact Hnn.
  - rewrite <- (Qfloor_Z 208). apply Qfloor_resp_le.
    rewrite <- (Qmult_1_r (inject_Z 208)) at 2.
    rewrite !(Qmult_comm (inject_Z 208)).
    apply Qmult_le_compat_r; [ exact Hr1 | discriminate ].
Qed.

(** The calls of the progress bar. *)
Lemma nas_progress_bar_calls (color : color) (nas_percent : num) :
  nas_progress_bar color nas_percent
  = ([ Rectangle (Int 14) (Int 116) (Int 225) (Int 130) (50, 50, 50) (Some BLACK);
       Rectangle (Int 15) (Int 117) (Int 225) (Int 129) WHITE (Some BLACK) ]
     ++ flat_map (fun i =>
          [Line (Int (16 + i)) (Int 118) (Int (16 + i)) (Int 128)
                (Premium.scale_color color
                   (Float (inject_Z i / inject_Z (Z.max 1 (nas_fill_width nas_percent)))))
                1])
          (range (nas_fill_width nas_percent)),
     Ok tt).
Proof.
  unfold nas_progress_bar. cbv zeta.
  do 2 (erewrite bind_ok by reflexivity).
  rewrite truediv_nonzero by reflexivity.
  rewrite bind_lift_ok.
  change (width - 30 - 2) with 208.
  fold (nas_fill_width nas_percent).
  cbn [calls outcome fst snd app].
  destruct (0 <? nas_fill_width nas_percent) eqn:E.
  - erewrite for_ok.
    + cbn [calls outcome fst snd]. reflexivity.
    + intros i _. rewrite truediv_nonzero by apply is_zero_max_1.
      rewrite bind_lift_ok. reflexivity.
  - apply Z.ltb_ge in E.
    assert (range (nas_fill_width nas_percent) = []) as ->.
    { rewrite range_seq. replace (Z.to_nat (nas_fill_width nas_percent)) with 0%nat by lia.
      reflexivity. }
    reflexivity.
Qed.

(** X23.  [get_nas_storage] never raises.  A file system of size zero
    or less has percentage 0; when the block size is not negative and
    the available blocks are between 0 and the total, the percentage is
    between 0 and 100, the fill of the NAS progress bar is between 0 and
    its 208 inner pixels, and the bar is drawn as two frames and one
    vertical line per filled pixel, from x = 16 on, without raising.
    Floats are taken as exact rationals. *)
Theorem nas_bar_stays_in_bar (statvfs : result (Z * Z * Z)) (color : color) :
  exists nas : nas_storage,
    get_nas_storage statvfs = Ok nas
    /\ (forall f_blocks f_frsize f_bavail : Z,
           statvfs = Ok (f_blocks, f_frsize, f_bavail) ->
           f_blocks * f_frsize <= 0 -> percent nas = Int 0)
    /\ (forall f_blocks f_frsize f_bavail : Z,
           statvfs = Ok (f_blocks, f_frsize, f_bavail) ->
           0 <= f_frsize -> 0 <= f_bavail <= f_blocks ->
           (0 <= to_Q (percent nas) <= inject_Z 100)%Q
           /\ 0 <= nas_fill_width (percent nas) <= 208
           /\ nas_progress_bar color (percent nas)
              = ([ Rectangle (Int 14) (Int 116) (Int 225) (Int 130) (50, 50, 50)
                             (Some BLACK);
                   Rectangle (Int 15) (Int 117) (Int 225) (Int 129) WHITE (Some BLACK) ]
                 ++ flat_map (fun i =>
                      [Line (Int (16 + i)) (Int 118) (Int (16 + i)) (Int 128)
                            (Premium.scale_color color
                               (Float (inject_Z i
                                       / inject_Z (Z.max 1 (nas_fill_width (percent nas))))))
                            1])
                      (range (nas_fill_width (percent nas))),
                 Ok tt)).
Proof.
  destruct statvfs as [[[f_blocks f_frsize] f_bavail] | e].
  2:{ eexists. split; [ reflexivity | split ]; intros; discriminate. }
  unfold get_nas_storage. cbn [Py.bind].
  rewrite !(truediv_nonzero _ (Int (1024 ^ 3))) by reflexivity. cbn [Py.bind].
  set (total := Float (to_Q (Int (f_blocks * f_frsize)) / to_Q (Int (1024 ^ 3)))).
  set (free := Float (to_Q (Int (f_bavail * f_frsize)) / to_Q (Int (1024 ^ 3)))).
  assert (forall z : Z, (0 < inject_Z z / inject_Z (1024 ^ 3))%Q <-> 0 < z) as Hpos.
  { intros z. change (1024 ^ 3) with 1073741824.
    unfold Qlt, Qdiv, Qmult, Qinv, inject_Z. cbn. lia. }
  assert (forall a b : Z, (inject_Z a / inject_Z (1024 ^ 3) <= inject_Z b / inject_Z (1024 ^ 3))%Q
                          <-> a <= b) as Hle.
  { intros a b. change (1024 ^ 3) with 1073741824.
    unfold Qle, Qdiv, Qmult, Qinv, inject_Z. cbn. lia. }
  destruct (gt total (Int 0)) eqn:Egt.
  - apply gt_zero_spec in Egt. cbn [to_Q total] in Egt.
    rewrite truediv_nonzero by (apply is_zero_false_pos; exact Egt).
    cbn [Py.bind try_except_all]. eexists. split; [ reflexivity | ].
    cbn [percent mul to_Q].
    assert (0 < f_blocks * f_frsize) as Hbs by (apply (proj1 (Hpos _)); exact Egt).
    split.
    + intros b s a Heq Hzero. injection Heq as <- <- <-. lia.
    + intros b s a Heq Hs Ha. injection Heq as <- <- <-.
      destruct (round1_percent
                  (to_Q (sub total free) / to_Q total * inject_Z 100))
        as (t & Ht & Hrange & _).
      { apply share_percent.
        - rewrite to_Q_sub. unfold total, free. cbn [to_Q].
          apply (Qplus_le_r _ _ (inject_Z (f_bavail * f_frsize) / inject_Z (1024 ^ 3))).
          ring_simplify. apply Hle. nia.
        - rewrite to_Q_sub. unfold total, free. cbn [to_Q].
          apply (Qplus_le_r _ _ (inject_Z (f_bavail * f_frsize) / inject_Z (1024 ^ 3))).
          ring_simplify.
          rewrite <- (Qplus_0_l (inject_Z (f_blocks * f_frsize) / inject_Z (1024 ^ 3))) at 1.
          apply Qplus_le_l.
          apply Qle_shift_div_l; [ reflexivity | ]. rewrite Qmult_0_l.
          unfold Qle. cbn. nia.
        - exact Egt. }
      rewrite Ht.
      assert (0 <= to_Q (Float (t # 10)) <= inject_Z 100)%Q as Hp.
      { cbn [to_Q]. unfold Qle. cbn. lia. }
      split; [ exact Hp | split; [ apply nas_fill_width_range; exact Hp | ] ].
      apply nas_progress_bar_calls.
  - cbn [Py.bind try_except_all]. eexists. split; [ reflexivity | ].
    cbn [percent]. split; [ reflexivity | ].
    intros b s a _ _ _.
    assert (0 <= to_Q (Int 0) <= inject_Z 100)%Q as Hp by (split; discriminate).
    split; [ exact Hp | split; [ apply nas_fill_width_range; exact Hp | ] ].
    apply nas_progress_bar_calls.
Qed.

End NasStorage.

Section Curves.
Import Py PremiumInfo.

Ltac to_Q_steps :=
  unfold bezier_point, interpolate, square, cube;
  repeat first [ rewrite to_Q_add | rewrite to_Q_mul | rewrite to_Q_sub ];
  cbn [to_Q].

(** X24.  [interpolate] and [bezier_point] of the premium dashboard
    start at their first point for [t = 0] and end at their last for
    [t = 1]; a cubic curve whose four control points are equally spaced
    is the straight interpolation between its ends; and for
    [0 <= t <= 1] the interpolation stays between its ends.  Floats are
    taken as exact rationals. *)
Theorem curves_pass_through_their_ends (p0 p1 p2 p3 a d t : num) :
  (to_Q (interpolate p0 p1 (Int 0)) == to_Q p0)%Q
  /\ (to_Q (interpolate p0 p1 (Int 1)) == to_Q p1)%Q
  /\ (to_Q (bezier_point p0 p1 p2 p3 (Int 0)) == to_Q p0)%Q
  /\ (to_Q (bezier_point p0 p1 p2 p3 (Int 1)) == to_Q p3)%Q
  /\ (to_Q (bezier_point a (add a d) (add a (mul (Int 2) d)) (add a (mul (Int 3) d)) t)
      == to_Q (interpolate a (add a (mul (Int 3) d)) t))%Q
  /\ ((0 <= to_Q t <= 1)%Q -> (to_Q p0 <= to_Q p1)%Q ->
      (to_Q p0 <= to_Q (interpolate p0 p1 t) <= to_Q p1)%Q).
Proof.
  split; [ to_Q_steps; ring | ].
  split; [ to_Q_steps; ring | ].
  split; [ to_Q_steps; ring | ].
  split; [ to_Q_steps; ring | ].
  split; [ to_Q_steps; ring | ].
  intros [Ht0 Ht1] Hp. to_Q_steps.
  assert (0 <= to_Q p1 - to_Q p0)%Q as Hd
      by (apply (Qplus_le_r _ _ (to_Q p0)); ring_simplify; exact Hp).
  split.
  - rewrite <- (Qplus_0_r (to_Q p0)) at 1. apply Qplus_le_r.
    apply Qmult_le_0_compat; assumption.
  - apply Qle_trans with (to_Q p0 + (to_Q p1 - to_Q p0) * 1)%Q.
    + apply Qplus_le_r. rewrite !(Qmult_comm (to_Q p1 - to_Q p0)).
      apply Qmult_le_compat_r; assumption.
    + ring_simplify. apply Qle_refl.
Qed.

End Curves.

Section InfoPageExamples.
Import Py Display EnhancedNetwork PremiumInfo.

Lemma ip_short_is_last_field_witness :
  exists short : string, ip_short "192.168.1.20" = Ok short /\ contains "." short = false.
Proof.
  destruct (ip_short_is_last_field "192.168.1.20") as (short & prefix & Hrun & Hdot & _).
  exists short. split; [ exact Hrun | exact Hdot ].
Defined.

Lemma nas_bar_stays_in_bar_witness :
  exists nas : nas_storage,
    get_nas_storage (Ok (1000, 4096, 400)) = Ok nas
    /\ 0 <= nas_fill_width (percent nas) <= 208.
Proof.
  destruct (nas_bar_stays_in_bar (Ok (1000, 4096, 400)) GREEN) as (nas & Hrun & _ & Hbar).
  exists nas. split; [ exact Hrun | ].
  destruct (Hbar 1000 4096 400 eq_refl) as (_ & Hwidth & _); [ lia | lia | exact Hwidth ].
Defined.

End InfoPageExamples.

(** ** The slide show and the network page *)

Section SlidesLemmas.
Import Py Slides.

Lemma lt_spec (a b : num) : lt a b = true <-> (to_Q a < to_Q b)%Q.
Proof.
  unfold lt. rewrite negb_true_iff. exact (ge_false a b).
Qed.

Lemma lt_false (a b : num) : lt a b = false <-> (to_Q b <= to_Q a)%Q.
Proof.
  unfold lt. rewrite negb_false_iff. exact (ge_spec a b).
Qed.

Lemma inject_Z_pow_succ (k : nat) :
  (inject_Z (1024 ^ Z.of_nat (S k)) == 1024 * inject_Z (1024 ^ Z.of_nat k))%Q.
Proof.
  rewrite Nat2Z.inj_succ, Z.pow_succ_r by lia. rewrite inject_Z_mult. reflexivity.
Qed.

Lemma inject_Z_pow_pos (k : nat) : (0 < inject_Z (1024 ^ Z.of_nat k))%Q.
Proof.
  change 0%Q with (inject_Z 0). rewrite <- Zlt_Qlt. apply Z.pow_pos_nonneg; lia.
Qed.

Lemma as_float_fits (n : num) : fits n -> as_float n = Ok n.
Proof.
  destruct n as [z | q]; cbn [fits as_float]; [ | reflexivity ].
  intros H. rewrite (proj2 (Z.leb_gt float_overflow (Z.abs z))) by exact H. reflexivity.
Qed.

Lemma div_1024_fits (n : num) :
  fits n -> div_1024 n = Ok (Float (to_Q n / to_Q (Int 1024))).
Proof.
  destruct n as [z | q]; cbn [fits div_1024].
  - intros H.
    rewrite (proj2 (Z.leb_gt (float_overflow * 1024) (Z.abs z)))
      by (unfold float_overflow in *; lia).
    apply truediv_nonzero. reflexivity.
  - intros _. apply truediv_nonzero. reflexivity.
Qed.

Lemma fits_below (n : num) : (Qabs (to_Q n) <= inject_Z (2 ^ 1023))%Q -> fits n.
Proof.
  destruct n as [z | q]; cbn [fits to_Q]; [ | intros _; exact I ].
  intros H. unfold Qle, Qabs, inject_Z in H. cbn [Qnum Qden] in H.
  rewrite !Z.mul_1_r in H.
  eapply Z.le_lt_trans; [ exact H | ]. reflexivity.
Qed.

Lemma human_bytes_loop_scales (units : list string) (n : num) :
  fits n ->
  exists (k : nat) (m : num),
    (k <= length units)%nat /\
    human_bytes_loop units n = Ok (format1 m +:+ nth k (units ++ ["PB"%string]) ""%string) /\
    (to_Q m == to_Q n / inject_Z (1024 ^ Z.of_nat k))%Q /\
    (k = 0%nat -> m = n) /\
    ((k < length units)%nat -> (to_Q m < 1024)%Q) /\
    ((0 < k)%nat -> (1 <= to_Q m)%Q).
Proof.
  revert n. induction units as [ | unit units' IH]; intros n Hfits.
  - exists 0%nat, n. cbn [human_bytes_loop length app nth].
    rewrite as_float_fits by exact Hfits. cbn [Py.bind].
    repeat split; try lia; try reflexivity.
    change (inject_Z (1024 ^ Z.of_nat 0)) with 1%Q. field.
  - cbn [human_bytes_loop]. destruct (lt n (Int 1024)) eqn:Elt.
    + exists 0%nat, n. cbn [length app nth].
      rewrite as_float_fits by exact Hfits. cbn [Py.bind].
      repeat split; try lia; try reflexivity.
      * change (inject_Z (1024 ^ Z.of_nat 0)) with 1%Q. field.
      * intros _. apply lt_spec in Elt. exact Elt.
    + apply lt_false in Elt. cbn [to_Q] in Elt.
      rewrite div_1024_fits by exact Hfits. cbn [Py.bind].
      destruct (IH (Float (to_Q n / to_Q (Int 1024))) I)
        as (k & m & Hk & Hrun & Hm & Hm0 & Hlt & Hge).
      exists (S k), m. cbn [length app nth].
      assert (1 <= to_Q n / to_Q (Int 1024))%Q as Hone.
      { cbn [to_Q]. apply Qle_shift_div_l; [ reflexivity | ].
        rewrite Qmult_1_l. exact Elt. }
      repeat split.
      * lia.
      * exact Hrun.
      * rewrite Hm. cbn [to_Q]. rewrite inject_Z_pow_succ.
        pose proof (inject_Z_pow_pos k) as Hpos.
        field.
        intros H0. rewrite H0 in Hpos. exact (Qlt_irrefl 0 Hpos).
      * intros H. discriminate H.
      * intros H. apply Hlt. lia.
      * intros _. destruct k as [ | k'].
        -- rewrite (Hm0 eq_refl). cbn [to_Q]. exact Hone.
        -- apply Hge. lia.
Qed.

(** X25.  For every finite number of magnitude at most 2^1023,
    [human_bytes] does not raise: it prints, with one decimal, the
    number divided by [1024 ** k] followed by the [k]-th unit of B, KB,
    MB, GB, TB, PB; the number printed is below 1024 unless the unit is
    PB, and at least 1 unless the unit is B (so a negative number or one
    below 1024 is printed as it is, in B).  Beyond binary64 it raises:
    an [int] of 2^1034 or more makes [n /= 1024] raise [OverflowError],
    and an [int] of -2^1024 or less makes the format [.1f] raise it.
    Floats are taken as exact rationals. *)
Theorem human_bytes_scales_to_unit (n : num) :
  ((Qabs (to_Q n) <= inject_Z (2 ^ 1023))%Q ->
   exists (k : nat) (m : num),
     (k <= 5)%nat /\
     human_bytes n = Ok (format1 m +:+ nth k unit_names ""%string) /\
     (to_Q m == to_Q n / inject_Z (1024 ^ Z.of_nat k))%Q /\
     (k = 0%nat -> m = n) /\
     ((k < 5)%nat -> (to_Q m < 1024)%Q) /\
     ((0 < k)%nat -> (1 <= to_Q m)%Q))
  /\ (forall z : Z, 2 ^ 1034 <= z -> human_bytes (Int z) = Raise OverflowError)
  /\ (forall z : Z, z <= - 2 ^ 1024 -> human_bytes (Int z) = Raise OverflowError).
Proof.
  split; [ | split ].
  - intros Hn.
    exact (human_bytes_loop_scales ["B"; "KB"; "MB"; "GB"; "TB"]%string n (fits_below n Hn)).
  - intros z Hz. unfold human_bytes. cbn [human_bytes_loop].
    assert (lt (Int z) (Int 1024) = false) as ->.
    { apply lt_false. cbn [to_Q]. rewrite <- Zle_Qle.
      eapply Z.le_trans; [ | exact Hz ]. discriminate. }
    cbn [div_1024].
    assert ((float_overflow * 1024 <=? Z.abs z) = true) as ->; [ | reflexivity ].
    apply Z.leb_le. unfold float_overflow.
    assert (0 < 2 ^ 970) by reflexivity.
    change (2 ^ 1034) with (2 ^ 1024 * 1024) in Hz. lia.
  - intros z Hz. unfold human_bytes. cbn [human_bytes_loop].
    assert (lt (Int z) (Int 1024) = true) as ->.
    { apply lt_spec. cbn [to_Q]. rewrite <- Zlt_Qlt.
      assert (0 < 2 ^ 1024) by reflexivity. lia. }
    cbn [as_float].
    assert ((float_overflow <=? Z.abs z) = true) as ->; [ | reflexivity ].
    apply Z.leb_le. unfold float_overflow.
    assert (0 < 2 ^ 970) by reflexivity. lia.
Qed.

Lemma human_bytes_scales_to_unit_witness :
  (exists (k : nat) (m : num),
      (k <= 5)%nat
      /\ human_bytes (Int 1536) = Ok (format1 m +:+ nth k unit_names ""%string)
      /\ (to_Q m == to_Q (Int 1536) / inject_Z (1024 ^ Z.of_nat k))%Q)
  /\ human_bytes (Int (2 ^ 1034)) = Raise OverflowError.
Proof.
  destruct (human_bytes_scales_to_unit (Int 1536)) as (Hfits & Hbig & _).
  split.
  - destruct Hfits as (k & m & Hk & Hrun & Hm & _); [ vm_compute; discriminate | ].
    exists k, m. split; [ exact Hk | split; [ exact Hrun | exact Hm ] ].
  - apply Hbig. apply Z.le_refl.
Defined.

Lemma max_floor (a : num) :
  (1 # 1000000 <= to_Q (max a (Float (1 # 1000000))))%Q /\
  ((1 # 1000000 <= to_Q a)%Q -> max a (Float (1 # 1000000)) = a) /\
  ((to_Q a < 1 # 1000000)%Q -> max a (Float (1 # 1000000)) = Float (1 # 1000000)).
Proof.
  unfold max. destruct (lt a (Float (1 # 1000000))) eqn:E.
  - apply lt_spec in E. cbn [to_Q] in E. repeat split.
    + apply Qle_refl.
    + intros H. exfalso. exact (Qlt_not_le _ _ E H).
  - apply lt_false in E. cbn [to_Q] in E. repeat split.
    + exact E.
    + intros H. exfalso. exact (Qlt_not_le _ _ H E).
Qed.

Lemma counter_difference_fits (a b : Z) :
  0 <= a < 2 ^ 64 -> 0 <= b < 2 ^ 64 -> fits (Int (a - b)).
Proof.
  intros Ha Hb. cbn [fits].
  assert (2 ^ 64 <= float_overflow) as Hbig by (vm_compute; discriminate).
  lia.
Qed.

(** X26.  [get_network_speed] of the slide show never divides by zero,
    and raises only what [psutil.net_io_counters] raises, which it lets
    through with the previous sample left in place.  It returns
    [(0.0, 0.0)] when the interface is absent, leaving the previous
    sample in place, and on the first sample; afterwards, for counters
    of 64 bits (which convert to [float] without overflow), it returns the byte differences divided by the time
    elapsed when that is at least a microsecond, and multiplied by 10^6
    when the clock has advanced less or gone backwards; in every case
    with counters the sample becomes the previous one.  Floats are
    taken as exact rationals. *)
Theorem network_speed_never_divides_by_zero
        (t : num) (_prev_net : option (num * Z * Z)) :
  (forall e : exn, get_network_speed (Raise e) t _prev_net = (_prev_net, Raise e))
  /\ get_network_speed (Ok None) t _prev_net = (_prev_net, Ok (Float 0, Float 0))
  /\ (forall bytes_recv bytes_sent : Z,
         get_network_speed (Ok (Some (bytes_recv, bytes_sent))) t None
         = (Some (t, bytes_recv, bytes_sent), Ok (Float 0, Float 0)))
  /\ (forall (bytes_recv bytes_sent : Z) (t0 : num) (recv0 sent0 : Z),
         0 <= bytes_recv < 2 ^ 64 -> 0 <= bytes_sent < 2 ^ 64 ->
         0 <= recv0 < 2 ^ 64 -> 0 <= sent0 < 2 ^ 64 ->
         exists down up : num,
           get_network_speed (Ok (Some (bytes_recv, bytes_sent))) t
                             (Some (t0, recv0, sent0))
           = (Some (t, bytes_recv, bytes_sent), Ok (down, up))
           /\ ((1 # 1000000 <= to_Q t - to_Q t0)%Q ->
               (to_Q down == inject_Z (bytes_recv - recv0) / (to_Q t - to_Q t0))%Q
               /\ (to_Q up == inject_Z (bytes_sent - sent0) / (to_Q t - to_Q t0))%Q)
           /\ ((to_Q t - to_Q t0 < 1 # 1000000)%Q ->
               (to_Q down == inject_Z ((bytes_recv - recv0) * 1000000))%Q
               /\ (to_Q up == inject_Z ((bytes_sent - sent0) * 1000000))%Q)).
Proof.
  split; [ reflexivity | ]. split; [ reflexivity | ]. split; [ reflexivity | ].
  intros bytes_recv bytes_sent t0 recv0 sent0 Hr Hs Hr0 Hs0.
  cbn [get_network_speed].
  rewrite (as_float_fits _ (counter_difference_fits _ _ Hr Hr0)).
  rewrite (as_float_fits _ (counter_difference_fits _ _ Hs Hs0)).
  cbn [Py.bind].
  destruct (max_floor (sub t t0)) as (Hfloor & Hbig & Hsmall).
  set (dt := max (sub t t0) (Float (1 # 1000000))) in *.
  assert (is_zero dt = false) as Hnz.
  { apply is_zero_false_pos. eapply Qlt_le_trans; [ | exact Hfloor ]. reflexivity. }
  rewrite !truediv_nonzero by exact Hnz. cbv zeta.
  eexists _, _. split; [ reflexivity | ].
  split.
  - intros Hdt. rewrite <- to_Q_sub in Hdt. rewrite (Hbig Hdt).
    cbn [to_Q]. rewrite !to_Q_sub. split; reflexivity.
  - intros Hdt. rewrite <- to_Q_sub in Hdt. rewrite (Hsmall Hdt).
    cbn [to_Q]. rewrite !inject_Z_mult. split; field.
Qed.

Lemma network_speed_never_divides_by_zero_witness :
  exists down up : num,
    get_network_speed (Ok (Some (5000, 700))) (Float (12 # 1))
                      (Some (Float (10 # 1), 1000, 100))
    = (Some (Float (12 # 1), 5000, 700), Ok (down, up))
    /\ (to_Q down == 2000)%Q /\ (to_Q up == 300)%Q.
Proof.
  destruct (network_speed_never_divides_by_zero (Float (12 # 1))
              (Some (Float (10 # 1), 1000, 100))) as (_ & _ & _ & Hspeed).
  destruct (Hspeed 5000 700 (Float (10 # 1)) 1000 100) as (down & up & Hrun & Hbig & _);
    try (split; [ discriminate | reflexivity ]).
  exists down, up. split; [ exact Hrun | ].
  destruct Hbig as [Hd Hu]; [ vm_compute; discriminate | ].
  split; [ rewrite Hd | rewrite Hu ]; reflexivity.
Defined.

Lemma int_quotient (a b : Z) :
  0 <= a -> 0 < b -> int (Float (inject_Z a / inject_Z b)) = a / b.
Proof.
  intros Ha Hb.
  assert (inject_Z a / inject_Z b == a # Z.to_pos b)%Q as Heq.
  { destruct b as [ | p | p]; try lia.
    unfold Qeq, Qdiv, Qmult, Qinv, inject_Z. cbn [Qnum Qden Z.to_pos]. lia. }
  rewrite int_floor.
  - rewrite Heq. unfold Qfloor. cbn [Qnum Qden]. rewrite Z2Pos.id by lia. reflexivity.
  - rewrite Heq. unfold Qle. cbn [Qnum Qden]. lia.
Qed.





End SlidesLemmas.

Section NetworkGraph.
Import Py ProNetwork.

(** X28.  The NETWORK page of the pro carousel graphs the total of the
    bytes sent and received since boot, in units of 10^6 bytes, against
    a ceiling of 1000000 such units: a sample is drawn
    [total * height / 10^12] pixels above the bottom of the graph, so it
    stays on the bottom edge until the total reaches [10^12 / height]
    bytes (about 9.1 GB for the 110 pixels of the page).  Failing
    counters count as 0 bytes.  Floats are taken as exact rationals. *)
Theorem network_graph_full_scale (net_io : result (Z * Z)) (y height : Z) :
  exists (network : Z * Z) (v : num),
    get_network_speed net_io = Ok network /\
    network_stat network = Ok v /\
    (to_Q v == inject_Z (fst network + snd network) / 1000000)%Q /\
    (forall e, net_io = Raise e -> network = (0, 0)) /\
    (forall sent recv, net_io = Ok (sent, recv) -> network = (sent, recv)) /\
    (0 <= height -> 0 <= fst network + snd network ->
     CarouselPro.point_y y height network_ceiling v
     = y + height - ((fst network + snd network) * height) / 1000000000000) /\
    (0 <= height -> 0 <= fst network + snd network ->
     (fst network + snd network) * height < 1000000000000 ->
     CarouselPro.point_y y height network_ceiling v = y + height).
Proof.
  assert (exists network, get_network_speed net_io = Ok network /\
            (forall e, net_io = Raise e -> network = (0, 0)) /\
            (forall sent recv, net_io = Ok (sent, recv) -> network = (sent, recv)))
    as (network & Hnet & Hraise & Hok).
  { destruct net_io as [[sent recv] | e].
    - exists (sent, recv). repeat split; intros; congruence.
    - exists (0, 0). repeat split; intros; congruence. }
  exists network, (Float (to_Q (Int (fst network + snd network)) / to_Q (Int 1000000))).
  set (total := fst network + snd network).
  assert (0 <= height -> 0 <= total ->
          CarouselPro.point_y y height network_ceiling
                              (Float (to_Q (Int total) / to_Q (Int 1000000)))
          = y + height - (total * height) / 1000000000000) as Hpoint.
  { intros Hh Ht. unfold CarouselPro.point_y, network_ceiling. cbn [mul to_Q].
    f_equal.
    rewrite <- (int_quotient (total * height) 1000000000000) by nia.
    assert (inject_Z total / inject_Z 1000000 / inject_Z 1000000 * inject_Z height
            == inject_Z (total * height) / inject_Z 1000000000000)%Q as Heq.
    { rewrite inject_Z_mult.
      change (inject_Z 1000000000000) with (inject_Z 1000000 * inject_Z 1000000)%Q.
      field. }
    assert (0 <= inject_Z (total * height) / inject_Z 1000000000000)%Q as Hnonneg.
    { apply Qle_shift_div_l; [ reflexivity | ].
      rewrite Qmult_0_l. change 0%Q with (inject_Z 0). rewrite <- Zle_Qle. nia. }
    rewrite (int_floor (inject_Z (total * height) / inject_Z 1000000000000)) by exact Hnonneg.
    rewrite int_floor by (rewrite Heq; exact Hnonneg).
    apply Qfloor_comp. exact Heq. }
  repeat split.
  - exact Hnet.
  - exact Hraise.
  - exact Hok.
  - exact Hpoint.
  - intros Hh Ht Hsmall. rewrite Hpoint by assumption.
    rewrite Z.div_small by nia. lia.
Qed.

End NetworkGraph.
